(** * The run-state machine and main loop of [vl.c], and the 'ranchu' board
      of [hw/arm/ranchu.c]

    A shallow embedding of the two translation units.  [Module Vl] holds the
    process-wide variables of [vl.c] as a record that is threaded through a
    small state-and-failure monad; [Module Ranchu] holds the static memory and
    interrupt maps and the board construction as the ordered sequence of calls
    it makes on the device tree and on the device models. *)

From Stdlib Require Import ZArith List String Ascii Bool Lia.
From Stdlib Require Import DecimalString HexadecimalString.
From Stdlib Require DecimalZ DecimalPos.
Import ListNotations.
Local Open Scope Z_scope.

(* ===================================================================== *)
(** ** vl.c: run state, request flags, main loop                          *)
(* ===================================================================== *)

Module Vl.

(** Modelled from the spec: the [RunState] enumeration.  It is declared in the
    generated [qapi-types.h], which is not part of the sources at hand; section 3
    of the specification lists its fifteen members, and [vl.c] uses
    [RUN_STATE_MAX], the count of members, as the value that is no state. *)
Inductive RunState : Set :=
  | RUN_STATE_DEBUG
  | RUN_STATE_INMIGRATE
  | RUN_STATE_INTERNAL_ERROR
  | RUN_STATE_IO_ERROR
  | RUN_STATE_PAUSED
  | RUN_STATE_POSTMIGRATE
  | RUN_STATE_PRELAUNCH
  | RUN_STATE_FINISH_MIGRATE
  | RUN_STATE_RESTORE_VM
  | RUN_STATE_RUNNING
  | RUN_STATE_SAVE_VM
  | RUN_STATE_SHUTDOWN
  | RUN_STATE_SUSPENDED
  | RUN_STATE_WATCHDOG
  | RUN_STATE_GUEST_PANICKED
  | RUN_STATE_MAX.

(** The integer value of an enumerator (C compares and indexes with it). *)
Definition RunState_index (r : RunState) : Z :=
  match r with
  | RUN_STATE_DEBUG => 0
  | RUN_STATE_INMIGRATE => 1
  | RUN_STATE_INTERNAL_ERROR => 2
  | RUN_STATE_IO_ERROR => 3
  | RUN_STATE_PAUSED => 4
  | RUN_STATE_POSTMIGRATE => 5
  | RUN_STATE_PRELAUNCH => 6
  | RUN_STATE_FINISH_MIGRATE => 7
  | RUN_STATE_RESTORE_VM => 8
  | RUN_STATE_RUNNING => 9
  | RUN_STATE_SAVE_VM => 10
  | RUN_STATE_SHUTDOWN => 11
  | RUN_STATE_SUSPENDED => 12
  | RUN_STATE_WATCHDOG => 13
  | RUN_STATE_GUEST_PANICKED => 14
  | RUN_STATE_MAX => 15
  end.

Definition RunState_eqb (a b : RunState) : bool :=
  RunState_index a =? RunState_index b.

(** [x < RUN_STATE_MAX] *)
Definition RunState_ltb (a b : RunState) : bool :=
  RunState_index a <? RunState_index b.

(** [typedef struct { RunState from; RunState to; } RunStateTransition;] *)
Record RunStateTransition : Set := mkTransition {
  from : RunState;
  to : RunState
}.

Definition runstate_transitions_def : list RunStateTransition :=
  [ (*     from      ->     to      *)
    mkTransition RUN_STATE_DEBUG RUN_STATE_RUNNING;
    mkTransition RUN_STATE_DEBUG RUN_STATE_FINISH_MIGRATE;

    mkTransition RUN_STATE_INMIGRATE RUN_STATE_RUNNING;
    mkTransition RUN_STATE_INMIGRATE RUN_STATE_PAUSED;

    mkTransition RUN_STATE_INTERNAL_ERROR RUN_STATE_PAUSED;
    mkTransition RUN_STATE_INTERNAL_ERROR RUN_STATE_FINISH_MIGRATE;

    mkTransition RUN_STATE_IO_ERROR RUN_STATE_RUNNING;
    mkTransition RUN_STATE_IO_ERROR RUN_STATE_FINISH_MIGRATE;

    mkTransition RUN_STATE_PAUSED RUN_STATE_RUNNING;
    mkTransition RUN_STATE_PAUSED RUN_STATE_FINISH_MIGRATE;

    mkTransition RUN_STATE_POSTMIGRATE RUN_STATE_RUNNING;
    mkTransition RUN_STATE_POSTMIGRATE RUN_STATE_FINISH_MIGRATE;

    mkTransition RUN_STATE_PRELAUNCH RUN_STATE_RUNNING;
    mkTransition RUN_STATE_PRELAUNCH RUN_STATE_FINISH_MIGRATE;
    mkTransition RUN_STATE_PRELAUNCH RUN_STATE_INMIGRATE;

    mkTransition RUN_STATE_FINISH_MIGRATE RUN_STATE_RUNNING;
    mkTransition RUN_STATE_FINISH_MIGRATE RUN_STATE_POSTMIGRATE;

    mkTransition RUN_STATE_RESTORE_VM RUN_STATE_RUNNING;

    mkTransition RUN_STATE_RUNNING RUN_STATE_DEBUG;
    mkTransition RUN_STATE_RUNNING RUN_STATE_INTERNAL_ERROR;
    mkTransition RUN_STATE_RUNNING RUN_STATE_IO_ERROR;
    mkTransition RUN_STATE_RUNNING RUN_STATE_PAUSED;
    mkTransition RUN_STATE_RUNNING RUN_STATE_FINISH_MIGRATE;
    mkTransition RUN_STATE_RUNNING RUN_STATE_RESTORE_VM;
    mkTransition RUN_STATE_RUNNING RUN_STATE_SAVE_VM;
    mkTransition RUN_STATE_RUNNING RUN_STATE_SHUTDOWN;
    mkTransition RUN_STATE_RUNNING RUN_STATE_WATCHDOG;
    mkTransition RUN_STATE_RUNNING RUN_STATE_GUEST_PANICKED;

    mkTransition RUN_STATE_SAVE_VM RUN_STATE_RUNNING;

    mkTransition RUN_STATE_SHUTDOWN RUN_STATE_PAUSED;
    mkTransition RUN_STATE_SHUTDOWN RUN_STATE_FINISH_MIGRATE;

    mkTransition RUN_STATE_DEBUG RUN_STATE_SUSPENDED;
    mkTransition RUN_STATE_RUNNING RUN_STATE_SUSPENDED;
    mkTransition RUN_STATE_SUSPENDED RUN_STATE_RUNNING;
    mkTransition RUN_STATE_SUSPENDED RUN_STATE_FINISH_MIGRATE;

    mkTransition RUN_STATE_WATCHDOG RUN_STATE_RUNNING;
    mkTransition RUN_STATE_WATCHDOG RUN_STATE_FINISH_MIGRATE;

    mkTransition RUN_STATE_GUEST_PANICKED RUN_STATE_RUNNING;
    mkTransition RUN_STATE_GUEST_PANICKED RUN_STATE_FINISH_MIGRATE;

    mkTransition RUN_STATE_MAX RUN_STATE_MAX ].

(** [QEMU_WAKEUP_REASON_NONE] comes from [sysemu.h]; it is the zero of the
    [WakeupReason] enumeration, the value [if (qemu_wakeup_requested())]
    takes for "no wakeup pending". *)
Definition WakeupReason : Set := Z.
Definition QEMU_WAKEUP_REASON_NONE : WakeupReason := 0.

(** The three notifier lists of [vl.c] that the main loop fires. *)
Inductive NotifierList : Set :=
  | powerdown_notifiers
  | suspend_notifiers
  | wakeup_notifiers.

(** [struct QEMUResetEntry]: a registered handler and its argument, both
    kept as opaque identifiers. *)
Record QEMUResetEntry : Set := mkResetEntry {
  func : Z;
  opaque : Z
}.

(** Calls that leave [vl.c]: the vCPU control of [cpus.c], the event
    notification of [main-loop.c], QAPI events, notifier and reset callbacks,
    and the one diagnostic [qemu_kill_report] prints.  Constructors carry the
    name of the C function called and its arguments. *)
Inductive extern : Set :=
  | qemu_notify_event
  | cpu_stop_current
  | vm_stop (state : RunState)
  | pause_all_vcpus
  | resume_all_vcpus
  | cpu_synchronize_all_states
  | cpu_synchronize_all_post_reset
  | notifier_list_notify (notifiers : NotifierList) (data : option WakeupReason)
  | qapi_event_send_suspend
  | qapi_event_send_shutdown
  | qapi_event_send_reset
  | qapi_event_send_wakeup
  | qapi_event_send_powerdown
  | mc_reset
  | reset_handler (re : QEMUResetEntry)
  | hax_sync_vcpus
  | fprintf_terminating_on_signal (signal : Z) (pid : option Z)
  | fprintf_hax_sync_failed.

(** Why a call does not return. *)
Inductive failure : Set :=
  | AssertionFailed                               (* assert() *)
  | InvalidTransition (cur new : RunState)         (* abort() in runstate_set *)
  | ExternStopped (c : extern)                     (* a collaborator did not return *)
  | MutexHeld.                                     (* lock of a held mutex *)

Section Machine.

(** The state of everything outside [vl.c]. *)
Context {World : Type}.

(** The file-scope variables of [vl.c] that the run-state machine and the
    main loop use. *)
Record vl_state : Type := mkState {
  current_run_state : RunState;
  vmstop_requested : RunState;
  vmstop_lock : bool;
  runstate_valid_transitions : RunState -> RunState -> bool;
  reset_handlers : list QEMUResetEntry;
  reset_requested : Z;
  shutdown_requested : Z;
  shutdown_signal : Z;
  shutdown_pid : Z;
  powerdown_requested : Z;
  debug_requested : Z;
  suspend_requested : Z;
  wakeup_reason : Z;
  wakeup_reason_mask : Z;
  no_reboot : Z;
  no_shutdown : Z;
  world : World
}.

Definition set_current_run_state (v : RunState) (s : vl_state) : vl_state :=
  mkState
    v (vmstop_requested s) (vmstop_lock s) (runstate_valid_transitions s)
    (reset_handlers s) (reset_requested s) (shutdown_requested s)
    (shutdown_signal s) (shutdown_pid s) (powerdown_requested s)
    (debug_requested s) (suspend_requested s) (wakeup_reason s)
    (wakeup_reason_mask s) (no_reboot s) (no_shutdown s) (world s).

Definition set_vmstop_requested (v : RunState) (s : vl_state) : vl_state :=
  mkState
    (current_run_state s) v (vmstop_lock s) (runstate_valid_transitions s)
    (reset_handlers s) (reset_requested s) (shutdown_requested s)
    (shutdown_signal s) (shutdown_pid s) (powerdown_requested s)
    (debug_requested s) (suspend_requested s) (wakeup_reason s)
    (wakeup_reason_mask s) (no_reboot s) (no_shutdown s) (world s).

Definition set_vmstop_lock (v : bool) (s : vl_state) : vl_state :=
  mkState
    (current_run_state s) (vmstop_requested s) v
    (runstate_valid_transitions s) (reset_handlers s) (reset_requested s)
    (shutdown_requested s) (shutdown_signal s) (shutdown_pid s)
    (powerdown_requested s) (debug_requested s) (suspend_requested s)
    (wakeup_reason s) (wakeup_reason_mask s) (no_reboot s) (no_shutdown s)
    (world s).

Definition set_runstate_valid_transitions (v : (RunState -> RunState -> bool)) (s : vl_state) : vl_state :=
  mkState
    (current_run_state s) (vmstop_requested s) (vmstop_lock s) v
    (reset_handlers s) (reset_requested s) (shutdown_requested s)
    (shutdown_signal s) (shutdown_pid s) (powerdown_requested s)
    (debug_requested s) (suspend_requested s) (wakeup_reason s)
    (wakeup_reason_mask s) (no_reboot s) (no_shutdown s) (world s).

Definition set_reset_requested (v : Z) (s : vl_state) : vl_state :=
  mkState
    (current_run_state s) (vmstop_requested s) (vmstop_lock s)
    (runstate_valid_transitions s) (reset_handlers s) v
    (shutdown_requested s) (shutdown_signal s) (shutdown_pid s)
    (powerdown_requested s) (debug_requested s) (suspend_requested s)
    (wakeup_reason s) (wakeup_reason_mask s) (no_reboot s) (no_shutdown s)
    (world s).

Definition set_shutdown_requested (v : Z) (s : vl_state) : vl_state :=
  mkState
    (current_run_state s) (vmstop_requested s) (vmstop_lock s)
    (runstate_valid_transitions s) (reset_handlers s) (reset_requested s) v
    (shutdown_signal s) (shutdown_pid s) (powerdown_requested s)
    (debug_requested s) (suspend_requested s) (wakeup_reason s)
    (wakeup_reason_mask s) (no_reboot s) (no_shutdown s) (world s).

Definition set_shutdown_signal (v : Z) (s : vl_state) : vl_state :=
  mkState
    (current_run_state s) (vmstop_requested s) (vmstop_lock s)
    (runstate_valid_transitions s) (reset_handlers s) (reset_requested s)
    (shutdown_requested s) v (shutdown_pid s) (powerdown_requested s)
    (debug_requested s) (suspend_requested s) (wakeup_reason s)
    (wakeup_reason_mask s) (no_reboot s) (no_shutdown s) (world s).

Definition set_shutdown_pid (v : Z) (s : vl_state) : vl_state :=
  mkState
    (current_run_state s) (vmstop_requested s) (vmstop_lock s)
    (runstate_valid_transitions s) (reset_handlers s) (reset_requested s)
    (shutdown_requested s) (shutdown_signal s) v (powerdown_requested s)
    (debug_requested s) (suspend_requested s) (wakeup_reason s)
    (wakeup_reason_mask s) (no_reboot s) (no_shutdown s) (world s).

Definition set_powerdown_requested (v : Z) (s : vl_state) : vl_state :=
  mkState
    (current_run_state s) (vmstop_requested s) (vmstop_lock s)
    (runstate_valid_transitions s) (reset_handlers s) (reset_requested s)
    (shutdown_requested s) (shutdown_signal s) (shutdown_pid s) v
    (debug_requested s) (suspend_requested s) (wakeup_reason s)
    (wakeup_reason_mask s) (no_reboot s) (no_shutdown s) (world s).

Definition set_debug_requested (v : Z) (s : vl_state) : vl_state :=
  mkState
    (current_run_state s) (vmstop_requested s) (vmstop_lock s)
    (runstate_valid_transitions s) (reset_handlers s) (reset_requested s)
    (shutdown_requested s) (shutdown_signal s) (shutdown_pid s)
    (powerdown_requested s) v (suspend_requested s) (wakeup_reason s)
    (wakeup_reason_mask s) (no_reboot s) (no_shutdown s) (world s).

Definition set_suspend_requested (v : Z) (s : vl_state) : vl_state :=
  mkState
    (current_run_state s) (vmstop_requested s) (vmstop_lock s)
    (runstate_valid_transitions s) (reset_handlers s) (reset_requested s)
    (shutdown_requested s) (shutdown_signal s) (shutdown_pid s)
    (powerdown_requested s) (debug_requested s) v (wakeup_reason s)
    (wakeup_reason_mask s) (no_reboot s) (no_shutdown s) (world s).

Definition set_wakeup_reason (v : Z) (s : vl_state) : vl_state :=
  mkState
    (current_run_state s) (vmstop_requested s) (vmstop_lock s)
    (runstate_valid_transitions s) (reset_handlers s) (reset_requested s)
    (shutdown_requested s) (shutdown_signal s) (shutdown_pid s)
    (powerdown_requested s) (debug_requested s) (suspend_requested s) v
    (wakeup_reason_mask s) (no_reboot s) (no_shutdown s) (world s).

Definition set_wakeup_reason_mask (v : Z) (s : vl_state) : vl_state :=
  mkState
    (current_run_state s) (vmstop_requested s) (vmstop_lock s)
    (runstate_valid_transitions s) (reset_handlers s) (reset_requested s)
    (shutdown_requested s) (shutdown_signal s) (shutdown_pid s)
    (powerdown_requested s) (debug_requested s) (suspend_requested s)
    (wakeup_reason s) v (no_reboot s) (no_shutdown s) (world s).

Definition set_no_shutdown (v : Z) (s : vl_state) : vl_state :=
  mkState
    (current_run_state s) (vmstop_requested s) (vmstop_lock s)
    (runstate_valid_transitions s) (reset_handlers s) (reset_requested s)
    (shutdown_requested s) (shutdown_signal s) (shutdown_pid s)
    (powerdown_requested s) (debug_requested s) (suspend_requested s)
    (wakeup_reason s) (wakeup_reason_mask s) (no_reboot s) v (world s).

Definition set_world (v : World) (s : vl_state) : vl_state :=
  mkState
    (current_run_state s) (vmstop_requested s) (vmstop_lock s)
    (runstate_valid_transitions s) (reset_handlers s) (reset_requested s)
    (shutdown_requested s) (shutdown_signal s) (shutdown_pid s)
    (powerdown_requested s) (debug_requested s) (suspend_requested s)
    (wakeup_reason s) (wakeup_reason_mask s) (no_reboot s) (no_shutdown s) v.

(** *** The monad: state passing, with calls that may not return *)

Inductive result (A : Type) : Type :=
  | Ok (a : A) (s : vl_state)
  | Stop (f : failure).
Arguments Ok {A} a s.
Arguments Stop {A} f.

Definition M (A : Type) : Type := vl_state -> result A.

(** The collaborators of [vl.c], as an interface.

    [collab]: what a call does: it returns an [int] and may have changed the
    run state (as [vm_stop] does) and the collaborators' own state, or it
    does not return; the request flags are private to [vl.c].
    [main_loop_wait] of [main-loop.c] runs the I/O handlers and timers; that
    is where requests arrive, so it may change any variable.
    The others are queries. *)
Class Collaborators : Type := {
  collab : extern -> RunState -> World -> option (Z * RunState * World);
  qtest_driver : World -> bool;
  machine_has_reset : World -> bool;        (* current_machine && mc->reset *)
  kvm_enabled : World -> bool;
  xen_enabled : World -> bool;
  hax_enabled : World -> bool;
  main_loop_wait : bool -> M Z
}.

Context {collaborators : Collaborators}.

Definition ret {A : Type} (a : A) : M A := fun s => Ok a s.

Definition bind {A B : Type} (m : M A) (k : A -> M B) : M B :=
  fun s => match m s with
           | Ok a s' => k a s'
           | Stop f => Stop f
           end.

Local Notation "x <- m ;; k" := (bind m (fun x => k))
  (at level 61, m at next level, right associativity).
Local Notation "m ;; k" := (bind m (fun _ => k))
  (at level 61, right associativity).

Definition get {A : Type} (f : vl_state -> A) : M A := fun s => Ok (f s) s.
Definition modify (f : vl_state -> vl_state) : M unit := fun s => Ok tt (f s).
Definition fail {A : Type} (f : failure) : M A := fun _ => Stop f.
Definition when (b : bool) (m : M unit) : M unit := if b then m else ret tt.

(** C truth of an [int]. *)
Definition nonzero (z : Z) : bool := negb (z =? 0).

(** A call to a collaborator, keeping its return value. *)
Definition call_int (c : extern) : M Z :=
  fun s => match collab c (current_run_state s) (world s) with
           | Some (v, r, w) => Ok v (set_world w (set_current_run_state r s))
           | None => Stop (ExternStopped c)
           end.

(** A call whose return value is dropped. *)
Definition call (c : extern) : M unit := _ <- call_int c ;; ret tt.

(** [qemu_mutex_init], [qemu_mutex_lock] and [qemu_mutex_unlock] on
    [vmstop_lock], the one mutex of the file.  The model is sequential:
    locking a mutex that is held never returns. *)
Definition qemu_mutex_init : M unit := modify (set_vmstop_lock false).

Definition qemu_mutex_lock : M unit :=
  fun s => if vmstop_lock s then Stop MutexHeld
           else Ok tt (set_vmstop_lock true s).

Definition qemu_mutex_unlock : M unit := modify (set_vmstop_lock false).

(** *** QEMU state *)

(** The values the variables have when the program starts. *)
Definition initial_state (w : World) : vl_state :=
  {| current_run_state := RUN_STATE_PRELAUNCH;
     vmstop_requested := RUN_STATE_MAX;
     vmstop_lock := false;
     runstate_valid_transitions := fun _ _ => false;
     reset_handlers := [];
     reset_requested := 0;
     shutdown_requested := 0;
     shutdown_signal := -1;
     shutdown_pid := 0;
     powerdown_requested := 0;
     debug_requested := 0;
     suspend_requested := 0;
     wakeup_reason := 0;
     wakeup_reason_mask := 0xFFFFFFFE;  (* ~(1 << QEMU_WAKEUP_REASON_NONE) *)
     no_reboot := 0;
     no_shutdown := 0;
     world := w |}.

Definition runstate_check (state : RunState) : M bool :=
  get (fun s => RunState_eqb (current_run_state s) state).

(** [runstate_valid_transitions[f][t] = true] *)
Definition matrix_set (m : RunState -> RunState -> bool) (f t : RunState)
  : RunState -> RunState -> bool :=
  fun a b => if RunState_eqb a f && RunState_eqb b t then true else m a b.

(** The loop of [runstate_init]: walk the table up to the entry whose [from]
    is [RUN_STATE_MAX]. *)
Fixpoint runstate_init_loop (p : list RunStateTransition)
    (m : RunState -> RunState -> bool) : RunState -> RunState -> bool :=
  match p with
  | [] => m
  | e :: p' =>
      if RunState_eqb (from e) RUN_STATE_MAX then m
      else runstate_init_loop p' (matrix_set m (from e) (to e))
  end.

Definition runstate_init : M unit :=
  (* memset(&runstate_valid_transitions, 0, ...) and the loop *)
  modify (set_runstate_valid_transitions
            (runstate_init_loop runstate_transitions_def (fun _ _ => false))) ;;
  qemu_mutex_init.

(** This function will abort() on invalid state transitions *)
Definition runstate_set (new_state : RunState) : M unit :=
  if negb (RunState_ltb new_state RUN_STATE_MAX) then fail AssertionFailed
  else
    cur <- get current_run_state ;;
    valid <- get (fun s => runstate_valid_transitions s cur new_state) ;;
    if negb valid then fail (InvalidTransition cur new_state)
    else modify (set_current_run_state new_state).

Definition runstate_is_running : M bool :=
  runstate_check RUN_STATE_RUNNING.

Definition runstate_needs_reset : M bool :=
  a <- runstate_check RUN_STATE_INTERNAL_ERROR ;;
  if a then ret true else runstate_check RUN_STATE_SHUTDOWN.

(** Returns the C return value and what is stored through [r]. *)
Definition qemu_vmstop_requested : M (bool * RunState) :=
  qemu_mutex_lock ;;
  r <- get vmstop_requested ;;
  modify (set_vmstop_requested RUN_STATE_MAX) ;;
  qemu_mutex_unlock ;;
  ret (RunState_ltb r RUN_STATE_MAX, r).

Definition qemu_system_vmstop_request_prepare : M unit :=
  qemu_mutex_lock.

Definition qemu_system_vmstop_request (state : RunState) : M unit :=
  modify (set_vmstop_requested state) ;;
  qemu_mutex_unlock ;;
  call qemu_notify_event.

(** *** reset/shutdown handler *)

Definition qemu_shutdown_requested_get : M Z := get shutdown_requested.

Definition qemu_reset_requested_get : M Z := get reset_requested.

(** [atomic_xchg(&shutdown_requested, 0)] *)
Definition qemu_shutdown_requested : M Z :=
  r <- get shutdown_requested ;;
  modify (set_shutdown_requested 0) ;;
  ret r.

Definition qemu_kill_report : M unit :=
  q <- get (fun s => qtest_driver (world s)) ;;
  sig <- get shutdown_signal ;;
  when (negb q && negb (sig =? -1))
    (pid <- get shutdown_pid ;;
     call (fprintf_terminating_on_signal sig
             (if pid =? 0 then None else Some pid)) ;;
     modify (set_shutdown_signal (-1))).

Definition qemu_reset_requested : M Z :=
  r <- get reset_requested ;;
  modify (set_reset_requested 0) ;;
  ret r.

Definition qemu_suspend_requested : M Z :=
  r <- get suspend_requested ;;
  modify (set_suspend_requested 0) ;;
  ret r.

Definition qemu_wakeup_requested : M WakeupReason :=
  get wakeup_reason.

Definition qemu_powerdown_requested : M Z :=
  r <- get powerdown_requested ;;
  modify (set_powerdown_requested 0) ;;
  ret r.

Definition qemu_debug_requested : M Z :=
  r <- get debug_requested ;;
  modify (set_debug_requested 0) ;;
  ret r.

Fixpoint call_reset_handlers (l : list QEMUResetEntry) : M unit :=
  match l with
  | [] => ret tt
  | re :: l' => call (reset_handler re) ;; call_reset_handlers l'
  end.

Definition qemu_devices_reset : M unit :=
  (* reset all devices *)
  l <- get reset_handlers ;;
  call_reset_handlers l.

(** [sysemu.h]: [#define VMRESET_SILENT false], [#define VMRESET_REPORT true] *)
Definition VMRESET_SILENT : bool := false.
Definition VMRESET_REPORT : bool := true.

Definition qemu_system_reset (report : bool) : M unit :=
  mc <- get (fun s => machine_has_reset (world s)) ;;
  (if mc then call mc_reset else qemu_devices_reset) ;;
  when report (call qapi_event_send_reset) ;;
  call cpu_synchronize_all_post_reset.

Definition qemu_system_reset_request : M unit :=
  nr <- get no_reboot ;;
  (if nonzero nr then modify (set_shutdown_requested 1)
   else modify (set_reset_requested 1)) ;;
  call cpu_stop_current ;;
  call qemu_notify_event.

Definition qemu_system_suspend : M unit :=
  call pause_all_vcpus ;;
  call (notifier_list_notify suspend_notifiers None) ;;
  runstate_set RUN_STATE_SUSPENDED ;;
  call qapi_event_send_suspend.

Definition qemu_system_suspend_request : M unit :=
  b <- runstate_check RUN_STATE_SUSPENDED ;;
  if b then ret tt
  else
    modify (set_suspend_requested 1) ;;
    call cpu_stop_current ;;
    call qemu_notify_event.

Definition qemu_system_wakeup_request (reason : WakeupReason) : M unit :=
  b <- runstate_check RUN_STATE_SUSPENDED ;;
  if negb b then ret tt
  else
    mask <- get wakeup_reason_mask ;;
    if negb (nonzero (Z.land mask (Z.shiftl 1 reason))) then ret tt
    else
      runstate_set RUN_STATE_RUNNING ;;
      modify (set_wakeup_reason reason) ;;
      call qemu_notify_event.

(** [wakeup_reason_mask] is a [uint32_t]. *)
Definition qemu_system_wakeup_enable (reason : WakeupReason) (enabled : bool)
  : M unit :=
  mask <- get wakeup_reason_mask ;;
  if enabled then
    modify (set_wakeup_reason_mask (Z.lor mask (Z.shiftl 1 reason) mod 2 ^ 32))
  else
    modify (set_wakeup_reason_mask
              (Z.land mask (Z.lnot (Z.shiftl 1 reason)) mod 2 ^ 32)).

Definition qemu_system_shutdown_request : M unit :=
  modify (set_shutdown_requested 1) ;;
  call qemu_notify_event.

Definition qemu_system_killed (signal pid : Z) : M unit :=
  modify (set_shutdown_signal signal) ;;
  modify (set_shutdown_pid pid) ;;
  modify (set_no_shutdown 0) ;;
  qemu_system_shutdown_request.

Definition qemu_system_powerdown : M unit :=
  call qapi_event_send_powerdown ;;
  call (notifier_list_notify powerdown_notifiers None).

Definition qemu_system_powerdown_request : M unit :=
  modify (set_powerdown_requested 1) ;;
  call qemu_notify_event.

Definition qemu_system_debug_request : M unit :=
  modify (set_debug_requested 1) ;;
  call qemu_notify_event.

(** *** main execution loop *)

(** The statements of [main_loop_should_exit] that follow the shutdown
    block; its [return true] skips them. *)
Definition main_loop_should_exit_rest : M bool :=
  re <- qemu_reset_requested ;;
  when (nonzero re)
    (call pause_all_vcpus ;;
     call cpu_synchronize_all_states ;;
     qemu_system_reset VMRESET_REPORT ;;
     call resume_all_vcpus ;;
     nr <- runstate_needs_reset ;;
     when nr (runstate_set RUN_STATE_PAUSED)) ;;
  wk <- qemu_wakeup_requested ;;
  when (nonzero wk)
    (call pause_all_vcpus ;;
     call cpu_synchronize_all_states ;;
     qemu_system_reset VMRESET_SILENT ;;
     (* the notifiers are handed &wakeup_reason: what they are given is
        the value the variable has when they are called *)
     reason <- get wakeup_reason ;;
     call (notifier_list_notify wakeup_notifiers (Some reason)) ;;
     modify (set_wakeup_reason QEMU_WAKEUP_REASON_NONE) ;;
     call resume_all_vcpus ;;
     call qapi_event_send_wakeup) ;;
  pd <- qemu_powerdown_requested ;;
  when (nonzero pd) qemu_system_powerdown ;;
  v <- qemu_vmstop_requested ;;
  when (fst v) (call (vm_stop (snd v))) ;;
  ret false.

Definition main_loop_should_exit : M bool :=
  dbg <- qemu_debug_requested ;;
  when (nonzero dbg) (call (vm_stop RUN_STATE_DEBUG)) ;;
  su <- qemu_suspend_requested ;;
  when (nonzero su) qemu_system_suspend ;;
  sh <- qemu_shutdown_requested ;;
  if nonzero sh then
    qemu_kill_report ;;
    call qapi_event_send_shutdown ;;
    ns <- get no_shutdown ;;
    if nonzero ns then
      call (vm_stop RUN_STATE_SHUTDOWN) ;;
      main_loop_should_exit_rest
    else ret true
  else main_loop_should_exit_rest.

(** The [do ... while (!main_loop_should_exit())] of [main_loop], unrolled at
    most [fuel] times: [Some tt] when the loop has ended, [None] when it is
    still running. *)
Fixpoint main_loop_do (fuel : nat) (last_io : Z) : M (option unit) :=
  match fuel with
  | O => ret None
  | S fuel' =>
      nonblocking <- get (fun s => negb (kvm_enabled (world s))
                                   && negb (xen_enabled (world s))
                                   && negb (hax_enabled (world s))
                                   && (0 <? last_io)) ;;
      last_io' <- main_loop_wait nonblocking ;;
      e <- main_loop_should_exit ;;
      if e then ret (Some tt) else main_loop_do fuel' last_io'
  end.

Definition main_loop (fuel : nat) : M (option unit) :=
  r <- call_int hax_sync_vcpus ;;
  if r <? 0 then call fprintf_hax_sync_failed ;; ret (Some tt)
  else main_loop_do fuel 0.

(** *** Notions used to state the properties *)

(** The transition matrix of [s] is the one [runstate_init] builds. *)
Definition built_from_table (s : vl_state) : Prop :=
  exists s0 s1, runstate_init s0 = Ok tt s1 /\
    forall a b, runstate_valid_transitions s a b
                = runstate_valid_transitions s1 a b.

(** Running [m] from [s]: [P] holds of the result and the state when it
    returns, [Q] of the reason when it does not. *)
Definition runs {A : Type} (m : M A) (s : vl_state)
    (P : A -> vl_state -> Prop) (Q : failure -> Prop) : Prop :=
  match m s with
  | Ok a s' => P a s'
  | Stop f => Q f
  end.

(** A collaborator did not return. *)
Definition extern_stopped (f : failure) : Prop :=
  match f with
  | ExternStopped c => exists r w, collab c r w = None
  | _ => False
  end.

(** A drain function is read-and-clear on its flag: it returns the value the
    flag had, leaves the flag at 0, and a drain repeated at once returns 0. *)
Definition read_and_clear (drain : M Z) (flag : vl_state -> Z) : Prop :=
  forall s, exists s',
    drain s = Ok (flag s) s' /\ flag s' = 0 /\
    exists s'', drain s' = Ok 0 s''.

(** The variables a collaborator cannot reach keep their values from [s] to
    [s']; the run state, the world and the bookkeeping of [qemu_kill_report]
    may differ. *)
Definition same_requests (s s' : vl_state) : Prop :=
  vmstop_requested s' = vmstop_requested s /\
  vmstop_lock s' = vmstop_lock s /\
  reset_requested s' = reset_requested s /\
  shutdown_requested s' = shutdown_requested s /\
  powerdown_requested s' = powerdown_requested s /\
  debug_requested s' = debug_requested s /\
  suspend_requested s' = suspend_requested s /\
  wakeup_reason s' = wakeup_reason s /\
  no_reboot s' = no_reboot s /\
  no_shutdown s' = no_shutdown s /\
  reset_handlers s' = reset_handlers s.

(** [m] leaves the requests alone and stops only for a reason in [Q]. *)
Definition preserves {A : Type} (Q : failure -> Prop) (m : M A) : Prop :=
  forall s, runs m s (fun _ s' => same_requests s s') Q.

(** How one pass of [main_loop_should_exit] from [s] can fail to return. *)
Definition pass_stopped (s : vl_state) (f : failure) : Prop :=
  match f with
  | ExternStopped c => exists r w, collab c r w = None
  | InvalidTransition _ new =>
      (new = RUN_STATE_SUSPENDED /\ nonzero (suspend_requested s) = true) \/
      (new = RUN_STATE_PAUSED /\ nonzero (reset_requested s) = true)
  | MutexHeld => vmstop_lock s = true
  | AssertionFailed => False
  end.

(** The wakeup notifiers return, in some state of the collaborators, from a
    call that hands them [reason]. *)
Definition wakeup_notified (reason : WakeupReason) : Prop :=
  exists r w res,
    collab (notifier_list_notify wakeup_notifiers (Some reason)) r w
    = Some res.

End Machine.

Arguments Ok {World A} a s.
Arguments Stop {World A} f.

(** Collaborators that always return and change nothing, over a world
    without content: the plainest instance of the interface. *)
Definition quiet_collaborators : @Collaborators unit :=
  {| collab := fun _ r w => Some (0, r, w);
     qtest_driver := fun _ => false;
     machine_has_reset := fun _ => false;
     kvm_enabled := fun _ => false;
     xen_enabled := fun _ => false;
     hax_enabled := fun _ => false;
     main_loop_wait := fun _ s => Ok 0 s |}.

End Vl.

(* ===================================================================== *)
(** ** hw/arm/ranchu.c: the 'ranchu' board                                *)
(* ===================================================================== *)

Module Ranchu.

Local Open Scope string_scope.
Local Open Scope list_scope.
Local Open Scope Z_scope.

(** Maximum number of emulators that can run at once (affects how far through
    the TCP port space from 5554 we will scan to find a pair of ports we can
    listen on) *)
Definition MAX_ANDROID_EMULATORS : Z := 64.
Definition ANDROID_CONSOLE_BASEPORT : Z := 5554.

Definition NUM_VIRTIO_TRANSPORTS : Z := 32.

(** Number of external interrupt lines to configure the GIC with *)
Definition NUM_IRQS : Z := 128.

Definition GIC_FDT_IRQ_TYPE_SPI : Z := 0.
Definition GIC_FDT_IRQ_TYPE_PPI : Z := 1.

Definition GIC_FDT_IRQ_FLAGS_EDGE_LO_HI : Z := 1.
Definition GIC_FDT_IRQ_FLAGS_EDGE_HI_LO : Z := 2.
Definition GIC_FDT_IRQ_FLAGS_LEVEL_HI : Z := 4.
Definition GIC_FDT_IRQ_FLAGS_LEVEL_LO : Z := 8.

Definition GIC_FDT_IRQ_PPI_CPU_START : Z := 8.
Definition GIC_FDT_IRQ_PPI_CPU_WIDTH : Z := 8.

(** The anonymous enumeration of device slots, the index type of [memmap]
    and [irqmap]. *)
Inductive slot : Set :=
  | RANCHU_FLASH
  | RANCHU_MEM
  | RANCHU_CPUPERIPHS
  | RANCHU_GIC_DIST
  | RANCHU_GIC_CPU
  | RANCHU_UART
  | RANCHU_GF_FB
  | RANCHU_GF_BATTERY
  | RANCHU_GF_AUDIO
  | RANCHU_GF_EVDEV
  | RANCHU_ANDROID_PIPE
  | RANCHU_MMIO.

Definition slot_index (d : slot) : Z :=
  match d with
  | RANCHU_FLASH => 0
  | RANCHU_MEM => 1
  | RANCHU_CPUPERIPHS => 2
  | RANCHU_GIC_DIST => 3
  | RANCHU_GIC_CPU => 4
  | RANCHU_UART => 5
  | RANCHU_GF_FB => 6
  | RANCHU_GF_BATTERY => 7
  | RANCHU_GF_AUDIO => 8
  | RANCHU_GF_EVDEV => 9
  | RANCHU_ANDROID_PIPE => 10
  | RANCHU_MMIO => 11
  end.

(** [hwaddr] is an unsigned 64-bit integer. *)
Definition hwaddr : Set := Z.
Definition hwaddr_wrap (z : Z) : hwaddr := z mod 2 ^ 64.

Record MemMapEntry : Set := mkMemMapEntry {
  base : hwaddr;
  size : hwaddr
}.

(** Addresses and sizes of our components.
    0..128MB is space for a flash device so we can run bootrom code such as UEFI.
    128MB..256MB is used for miscellaneous device I/O.
    256MB..1GB is reserved for possible future PCI support.
    1GB and up is RAM. *)
Definition memmap (d : slot) : MemMapEntry :=
  match d with
  (* Space up to 0x8000000 is reserved for a boot ROM *)
  | RANCHU_FLASH => mkMemMapEntry 0 0x8000000
  | RANCHU_CPUPERIPHS => mkMemMapEntry 0x8000000 0x20000
  (* GIC distributor and CPU interfaces sit inside the CPU peripheral space *)
  | RANCHU_GIC_DIST => mkMemMapEntry 0x8000000 0x10000
  | RANCHU_GIC_CPU => mkMemMapEntry 0x8010000 0x10000
  | RANCHU_UART => mkMemMapEntry 0x9000000 0x1000
  | RANCHU_GF_FB => mkMemMapEntry 0x9010000 0x100
  | RANCHU_GF_BATTERY => mkMemMapEntry 0x9020000 0x1000
  | RANCHU_GF_AUDIO => mkMemMapEntry 0x9030000 0x100
  | RANCHU_GF_EVDEV => mkMemMapEntry 0x9040000 0x1000
  | RANCHU_MMIO => mkMemMapEntry 0xa000000 0x200
  | RANCHU_ANDROID_PIPE => mkMemMapEntry 0xa010000 0x2000
  (* ...repeating for a total of NUM_VIRTIO_TRANSPORTS, each of that size *)
  (* 0x10000000 .. 0x40000000 reserved for PCI *)
  | RANCHU_MEM => mkMemMapEntry 0x40000000 (30 * 1024 * 1024 * 1024)
  end.

(** The slots without an initialiser hold 0. *)
Definition irqmap (d : slot) : Z :=
  match d with
  | RANCHU_UART => 1
  | RANCHU_GF_FB => 2
  | RANCHU_GF_BATTERY => 3
  | RANCHU_GF_AUDIO => 4
  | RANCHU_GF_EVDEV => 5
  | RANCHU_ANDROID_PIPE => 6
  | RANCHU_MMIO => 16 (* ...to 16 + NUM_VIRTIO_TRANSPORTS - 1 *)
  | _ => 0
  end.

(** The half-open address range of an entry, and overlap of two ranges. *)
Definition range_end (e : MemMapEntry) : Z := base e + size e.

Definition ranges_overlap (a b : MemMapEntry) : bool :=
  (base a <? range_end b) && (base b <? range_end a).

(** [struct arm_boot_info], the fields [ranchu_init] fills in; [get_dtb] is
    always [ranchu_dtb]. *)
Record arm_boot_info : Set := mkBootInfo {
  bi_ram_size : Z;
  kernel_filename : option string;
  kernel_cmdline : option string;
  initrd_filename : option string;
  nb_cpus : Z;
  board_id : Z;
  loader_start : hwaddr
}.

(** [MachineState], the fields the board reads. *)
Record MachineState : Set := mkMachine {
  ram_size : Z;                          (* ram_addr_t *)
  cpu_model : option string;
  machine_kernel_filename : option string;
  machine_kernel_cmdline : option string;
  machine_initrd_filename : option string
}.

(** The PSCI function identifiers; their values are macros of a header that
    is not at hand. *)
Inductive psci_fn : Set :=
  | QEMU_PSCI_0_2_FN_CPU_OFF
  | QEMU_PSCI_0_2_FN64_CPU_SUSPEND
  | QEMU_PSCI_0_2_FN64_CPU_ON
  | QEMU_PSCI_0_2_FN64_MIGRATE
  | QEMU_PSCI_0_2_FN_CPU_SUSPEND
  | QEMU_PSCI_0_2_FN_CPU_ON
  | QEMU_PSCI_0_2_FN_MIGRATE
  | QEMU_PSCI_0_1_FN_CPU_SUSPEND
  | QEMU_PSCI_0_1_FN_CPU_OFF
  | QEMU_PSCI_0_1_FN_CPU_ON
  | QEMU_PSCI_0_1_FN_MIGRATE.

(** [ARMCPU], the members [create_fdt] reads through the pointer it gets
    from [qemu_get_cpu(0)]: [psci_version], and the answer of
    [arm_feature(&armcpu->env, ARM_FEATURE_AARCH64)]. *)
Record ARMCPU : Set := mkARMCPU {
  psci_version : Z;
  arm_feature_aarch64 : bool
}.

(** What the board is given from outside [ranchu.c]: the globals of [vl.c],
    the answers of the accelerator and CPU queries, whether the fallible
    library calls succeed, the macros of absent headers, and what the
    compiled code gives for an [int] expression that C leaves undefined. *)
Record Env : Type := mkEnv {
  smp_cpus : Z;                                  (* int smp_cpus of vl.c *)
  kvm_enabled : bool;
  kvm_irqchip_in_kernel : bool;
  create_device_tree_ok : bool;                  (* result is not NULL *)
  cpu_class_by_name : string -> option string;   (* for TYPE_ARM_CPU: the class name *)
  object_property_find : string -> string -> bool; (* class, property *)
  dtb_compatible : Z -> string;                  (* of qemu_get_cpu(cpu) *)
  cpu_mask_outside_int : Z -> Z;                 (* (1 << n) - 1 where C leaves
                                                    the int shift undefined *)
  psci_fn_id : psci_fn -> Z;
  deposit32 : Z -> Z -> Z -> Z -> Z;              (* qemu/bitops.h *)
  ARM_CPU_IRQ : Z;
  console_chardev_ok : Z -> bool;                (* qemu_chr_new_from_opts on the port *)
  adb_server_ok : Z -> bool                      (* qemu2_adb_server_init on the port *)
}.

(** The calls the board makes on the device tree library, the object model,
    the system bus and the monitor, with their arguments.  A CPU object is
    named by its index, the GIC by its type name. *)
Inductive call : Set :=
  | create_device_tree
  | qemu_fdt_add_subnode (path : string)
  | qemu_fdt_setprop_string (path name value : string)
  | qemu_fdt_setprop_cell (path name : string) (value : Z)
  | qemu_fdt_setprop_cells (path name : string) (values : list Z)
  | qemu_fdt_setprop_sized_cells (path name : string) (values : list (Z * Z))
  | qemu_fdt_setprop (path name : string) (value : list string) (len : Z)
  | object_new (typename : string)
  | object_property_set_bool (obj : Z) (value : bool) (name : string)
  | object_property_set_int (obj : Z) (value : Z) (name : string)
  | qdev_create (name : string)
  | qdev_prop_set_uint32 (dev name : string) (value : Z)
  | qdev_init_nofail (dev : string)
  | sysbus_mmio_map (dev : string) (n : Z) (addr : hwaddr)
  | qdev_connect_gpio_out (cpu n : Z) (gic_in : Z)
  | sysbus_connect_irq (dev : string) (n : Z) (cpu cpu_in : Z)
  | sysbus_create_simple (name : string) (addr : hwaddr) (gic_in : Z)
  | memory_region_init_ram (name : string) (size : Z)
  | vmstate_register_ram_global
  | memory_region_add_subregion (offset : hwaddr)
  | qemu_chr_new_from_opts (port : Z)
  | qemu_opts_del
  | qemu_chr_fe_claim_no_fail
  | qemu2_adb_server_init (port : Z)
  | qemu_chr_delete
  | monitor_init
  | printf_console_on_port (console adb : Z)
  | error_report (msg : string)
  | fprintf_stderr (msg : string)
  | arm_load_kernel (info : arm_boot_info).

(** [struct VirtBoardInfo]; the members [cpu_model], [memmap] and [irqmap]
    are never written or read. *)
Record VirtBoardInfo : Set := mkVbi {
  bootinfo : option arm_boot_info;
  vbi_smp_cpus : Z;
  fdt : bool;               (* a device tree has been created *)
  clock_phandle : Z
}.

(** The board under construction: the [VirtBoardInfo], the phandle
    allocator of the device tree and the global [android_base_port]. *)
Record board : Set := mkBoard {
  vbi : VirtBoardInfo;
  next_phandle : Z;
  android_base_port : Z
}.

(** The construction goes on, or leaves through [exit(status)], or is
    killed when it reads through a NULL pointer. *)
Inductive outcome (A : Type) : Type :=
  | Done (a : A) (b : board)
  | Exit (status : Z)
  | Crash.
Arguments Done {A} a b.
Arguments Exit {A} status.
Arguments Crash {A}.

(** A step of the construction: from the board, the calls it makes, in the
    order it makes them, and how it ends. *)
Definition B (A : Type) : Type := board -> list call * outcome A.

Definition ret {A : Type} (a : A) : B A := fun b => ([], Done a b).

Definition bind {A C : Type} (m : B A) (k : A -> B C) : B C :=
  fun b => match m b with
           | (t, Done a b') => let (t', o) := k a b' in (t ++ t', o)
           | (t, Exit st) => (t, Exit st)
           | (t, Crash) => (t, Crash)
           end.

Local Notation "x <- m ;; k" := (bind m (fun x => k))
  (at level 61, m at next level, right associativity).
Local Notation "m ;; k" := (bind m (fun _ => k))
  (at level 61, right associativity).

Definition exit {A : Type} (status : Z) : B A := fun _ => ([], Exit status).

(** [p->member]: the read of a member through a pointer, which kills the
    process when the pointer is NULL. *)
Definition member {S A : Type} (p : option S) (f : S -> A) : B A :=
  fun b => match p with
           | Some s => ([], Done (f s) b)
           | None => ([], Crash)
           end.

Definition emit (c : call) : B unit := fun b => ([c], Done tt b).

Definition get_vbi : B VirtBoardInfo := fun b => ([], Done (vbi b) b).

Definition set_vbi (v : VirtBoardInfo) : B unit :=
  fun b => ([], Done tt (mkBoard v (next_phandle b) (android_base_port b))).

Definition when (c : bool) (m : B unit) : B unit := if c then m else ret tt.

(** A [for] loop over the listed values of its variable. *)
Fixpoint for_each (l : list Z) (body : Z -> B unit) : B unit :=
  match l with
  | [] => ret tt
  | i :: l' => body i ;; for_each l' body
  end.

(** [for (i = 0; i < n; i++)] and [for (i = n - 1; i >= 0; i--)] *)
Definition range_up (n : Z) : list Z := map Z.of_nat (seq 0 (Z.to_nat n)).
Definition range_down (n : Z) : list Z := rev (range_up n).

(** [%d] and [%" PRIx64 "] *)
Definition fmt_d (z : Z) : string :=
  DecimalString.NilZero.string_of_int (Z.to_int z).
Definition fmt_x64 (z : Z) : string :=
  HexadecimalString.NilZero.string_of_uint (N.to_hex_uint (Z.to_N z)).

(** Modelled from the spec: the phandle allocator of the device tree library
    ([qemu_fdt_alloc_phandle], not at hand).  Section 4.1: [alloc_phandle()]
    returns a unique integer, monotonically increasing, never reused. *)
Definition qemu_fdt_alloc_phandle : B Z :=
  fun b => ([], Done (next_phandle b)
                     (mkBoard (vbi b) (next_phandle b + 1)
                              (android_base_port b))).

Definition get_android_base_port : B Z :=
  fun b => ([], Done (android_base_port b) b).

Definition set_android_base_port (port : Z) : B unit :=
  fun b => ([], Done tt (mkBoard (vbi b) (next_phandle b) port)).

Local Notation "a +++ b" := (String.append a b)
  (at level 60, right associativity).

(** The newline of the C string constants. *)
Definition nl : string := String (ascii_of_nat 10) EmptyString.

(** [for (i = 0; i < n; i++) sz += strlen(s + sz) + 1;] where [s] is a
    constant of NUL-separated strings, given as the list of its pieces. *)
Fixpoint nul_separated_size (pieces : list string) (n : nat) : Z :=
  match n, pieces with
  | S n', p :: ps => Z.of_nat (String.length p) + 1 + nul_separated_size ps n'
  | _, _ => 0
  end.

Section Board.

Variable env : Env.

(** [ARM_CPU(qemu_get_cpu(0))] as [create_fdt] evaluates it.  The CPU
    objects are created by the loop of [ranchu_init], and [ranchu_init], the
    only caller of [create_fdt], calls it before that loop: no CPU has index
    0 yet, [qemu_get_cpu] returns NULL and the cast hands NULL on. *)
Definition first_cpu_in_create_fdt : option ARMCPU := None.

Definition create_fdt : B unit :=
  emit create_device_tree ;;
  if negb (create_device_tree_ok env) then
    emit (error_report "create_device_tree() failed") ;;
    exit 1
  else
    v <- get_vbi ;;
    set_vbi (mkVbi (bootinfo v) (vbi_smp_cpus v) true (clock_phandle v)) ;;

    (* Header *)
    emit (qemu_fdt_setprop_string "/" "compatible" "ranchu") ;;
    emit (qemu_fdt_setprop_cell "/" "#address-cells" 0x2) ;;
    emit (qemu_fdt_setprop_cell "/" "#size-cells" 0x2) ;;

    (* Firmware node *)
    emit (qemu_fdt_add_subnode "/firmware") ;;
    emit (qemu_fdt_add_subnode "/firmware/android") ;;
    emit (qemu_fdt_setprop_string "/firmware/android" "compatible"
            "android,firmware") ;;
    emit (qemu_fdt_setprop_string "/firmware/android" "hardware" "ranchu") ;;

    (* /chosen and /memory nodes must exist for load_dtb
       to fill in necessary properties later *)
    emit (qemu_fdt_add_subnode "/chosen") ;;
    emit (qemu_fdt_add_subnode "/memory") ;;
    emit (qemu_fdt_setprop_string "/memory" "device_type" "memory") ;;

    (* Clock node, for the benefit of the UART. *)
    ph <- qemu_fdt_alloc_phandle ;;
    v <- get_vbi ;;
    set_vbi (mkVbi (bootinfo v) (vbi_smp_cpus v) (fdt v) ph) ;;
    emit (qemu_fdt_add_subnode "/apb-pclk") ;;
    emit (qemu_fdt_setprop_string "/apb-pclk" "compatible" "fixed-clock") ;;
    emit (qemu_fdt_setprop_cell "/apb-pclk" "#clock-cells" 0x0) ;;
    emit (qemu_fdt_setprop_cell "/apb-pclk" "clock-frequency" 24000000) ;;
    emit (qemu_fdt_setprop_string "/apb-pclk" "clock-output-names"
            "clk24mhz") ;;
    emit (qemu_fdt_setprop_cell "/apb-pclk" "phandle" ph) ;;

    (* No PSCI for TCG yet *)
    when (kvm_enabled env)
      (let armcpu := first_cpu_in_create_fdt in

       emit (qemu_fdt_add_subnode "/psci") ;;
       version <- member armcpu psci_version ;;
       fns <-
         (if version =? 2 then
            emit (qemu_fdt_setprop "/psci" "compatible"
                    ["arm,psci-0.2"; "arm,psci"] 22) ;;
            aarch64 <- member armcpu arm_feature_aarch64 ;;
            if aarch64 then
              ret (QEMU_PSCI_0_2_FN64_CPU_SUSPEND, QEMU_PSCI_0_2_FN_CPU_OFF,
                   QEMU_PSCI_0_2_FN64_CPU_ON, QEMU_PSCI_0_2_FN64_MIGRATE)
            else
              ret (QEMU_PSCI_0_2_FN_CPU_SUSPEND, QEMU_PSCI_0_2_FN_CPU_OFF,
                   QEMU_PSCI_0_2_FN_CPU_ON, QEMU_PSCI_0_2_FN_MIGRATE)
          else
            emit (qemu_fdt_setprop_string "/psci" "compatible" "arm,psci") ;;
            ret (QEMU_PSCI_0_1_FN_CPU_SUSPEND, QEMU_PSCI_0_1_FN_CPU_OFF,
                 QEMU_PSCI_0_1_FN_CPU_ON, QEMU_PSCI_0_1_FN_MIGRATE)) ;;
       let '(cpu_suspend_fn, cpu_off_fn, cpu_on_fn, migrate_fn) := fns in

       emit (qemu_fdt_setprop_string "/psci" "method" "hvc") ;;

       emit (qemu_fdt_setprop_cell "/psci" "cpu_suspend"
               (psci_fn_id env cpu_suspend_fn)) ;;
       emit (qemu_fdt_setprop_cell "/psci" "cpu_off"
               (psci_fn_id env cpu_off_fn)) ;;
       emit (qemu_fdt_setprop_cell "/psci" "cpu_on"
               (psci_fn_id env cpu_on_fn)) ;;
       emit (qemu_fdt_setprop_cell "/psci" "migrate"
               (psci_fn_id env migrate_fn))).

Definition fdt_add_timer_nodes : B unit :=
  v <- get_vbi ;;
  (* Note that on A15 h/w these interrupts are level-triggered,
     but for the GIC implementation provided by both QEMU and KVM
     they are edge-triggered. *)
  let irqflags := GIC_FDT_IRQ_FLAGS_EDGE_LO_HI in
  (* (1 << vbi->smp_cpus) - 1 is computed on int: C defines the shift for a
     count from 0 to 30; the result is then converted to uint32_t. *)
  let cpu_mask :=
    if (0 <=? vbi_smp_cpus v) && (vbi_smp_cpus v <? 31)
    then Z.shiftl 1 (vbi_smp_cpus v) - 1
    else cpu_mask_outside_int env (vbi_smp_cpus v) in
  let irqflags :=
    deposit32 env irqflags GIC_FDT_IRQ_PPI_CPU_START GIC_FDT_IRQ_PPI_CPU_WIDTH
              (cpu_mask mod 2 ^ 32) in
  emit (qemu_fdt_add_subnode "/timer") ;;
  emit (qemu_fdt_setprop_string "/timer" "compatible" "arm,armv7-timer") ;;
  emit (qemu_fdt_setprop_cells "/timer" "interrupts"
          [ GIC_FDT_IRQ_TYPE_PPI; 13; irqflags;
            GIC_FDT_IRQ_TYPE_PPI; 14; irqflags;
            GIC_FDT_IRQ_TYPE_PPI; 11; irqflags;
            GIC_FDT_IRQ_TYPE_PPI; 10; irqflags ]).

Definition fdt_add_cpu_nodes : B unit :=
  v <- get_vbi ;;
  emit (qemu_fdt_add_subnode "/cpus") ;;
  emit (qemu_fdt_setprop_cell "/cpus" "#address-cells" 0x1) ;;
  emit (qemu_fdt_setprop_cell "/cpus" "#size-cells" 0x0) ;;

  for_each (range_down (vbi_smp_cpus v)) (fun cpu =>
    let nodename := "/cpus/cpu@" +++ fmt_d cpu in
    (* armcpu = ARM_CPU(qemu_get_cpu(cpu)): by now the loop of ranchu_init
       has created the CPUs *)

    emit (qemu_fdt_add_subnode nodename) ;;
    emit (qemu_fdt_setprop_string nodename "device_type" "cpu") ;;
    emit (qemu_fdt_setprop_string nodename "compatible"
            (dtb_compatible env cpu)) ;;

    when (vbi_smp_cpus v >? 1)
      (emit (qemu_fdt_setprop_string nodename "enable-method" "psci")) ;;

    emit (qemu_fdt_setprop_cell nodename "reg" cpu)).

Definition fdt_add_gic_node : B unit :=
  gic_phandle <- qemu_fdt_alloc_phandle ;;
  emit (qemu_fdt_setprop_cell "/" "interrupt-parent" gic_phandle) ;;

  emit (qemu_fdt_add_subnode "/intc") ;;
  (* 'cortex-a15-gic' means 'GIC v2' *)
  emit (qemu_fdt_setprop_string "/intc" "compatible" "arm,cortex-a15-gic") ;;
  emit (qemu_fdt_setprop_cell "/intc" "#interrupt-cells" 3) ;;
  emit (qemu_fdt_setprop "/intc" "interrupt-controller" [] 0) ;;
  emit (qemu_fdt_setprop_sized_cells "/intc" "reg"
          [ (2, base (memmap RANCHU_GIC_DIST));
            (2, size (memmap RANCHU_GIC_DIST));
            (2, base (memmap RANCHU_GIC_CPU));
            (2, size (memmap RANCHU_GIC_CPU)) ]) ;;
  emit (qemu_fdt_setprop_cell "/intc" "phandle" gic_phandle).

(** [pic[i] = qdev_get_gpio_in(gicdev, i)]: the entry for line [i] is input
    [i] of the GIC. *)
Definition pic (i : Z) : Z := i.

Definition create_gic : B unit :=
  (* We create a standalone GIC v2 *)
  let gictype := if kvm_irqchip_in_kernel env then "kvm-arm-gic"
                 else "arm_gic" in
  emit (qdev_create gictype) ;;
  emit (qdev_prop_set_uint32 gictype "revision" 2) ;;
  emit (qdev_prop_set_uint32 gictype "num-cpu" (smp_cpus env)) ;;
  (* Note that the num-irq property counts both internal and external
     interrupts; there are always 32 of the former (mandated by GIC spec). *)
  emit (qdev_prop_set_uint32 gictype "num-irq" (NUM_IRQS + 32)) ;;
  emit (qdev_init_nofail gictype) ;;
  emit (sysbus_mmio_map gictype 0 (base (memmap RANCHU_GIC_DIST))) ;;
  emit (sysbus_mmio_map gictype 1 (base (memmap RANCHU_GIC_CPU))) ;;

  (* Wire the outputs from each CPU's generic timer to the
     appropriate GIC PPI inputs, and the GIC's IRQ output to
     the CPU's IRQ input. *)
  for_each (range_up (smp_cpus env)) (fun i =>
    let ppibase := NUM_IRQS + i * 32 in
    (* physical timer; we wire it up to the non-secure timer's ID,
       since a real A15 always has TrustZone but QEMU doesn't. *)
    emit (qdev_connect_gpio_out i 0 (ppibase + 30)) ;;
    (* virtual timer *)
    emit (qdev_connect_gpio_out i 1 (ppibase + 27)) ;;

    emit (sysbus_connect_irq gictype i i (ARM_CPU_IRQ env))) ;;

  fdt_add_gic_node.

(** Create a simple device with one interrupt and an uncomplicated
    device tree node (one reg tuple, one interrupt, optional clocks). *)
Definition create_simple_device (devid : slot) (sysbus_name : string)
    (compat : list string) (num_compat_strings : Z)
    (clocks : list string) (num_clocks : Z) : B unit :=
  v <- get_vbi ;;
  let irq := irqmap devid in
  let base := base (memmap devid) in
  let size := size (memmap devid) in
  let compat_sz := nul_separated_size compat (Z.to_nat num_compat_strings) in
  let clocks_sz := nul_separated_size clocks (Z.to_nat num_clocks) in

  emit (sysbus_create_simple sysbus_name base (pic irq)) ;;

  let nodename := "/" +++ sysbus_name +++ "@" +++ fmt_x64 base in
  emit (qemu_fdt_add_subnode nodename) ;;
  emit (qemu_fdt_setprop nodename "compatible" compat compat_sz) ;;
  emit (qemu_fdt_setprop_sized_cells nodename "reg" [(2, base); (2, size)]) ;;
  when (negb (irq =? 0))
    (emit (qemu_fdt_setprop_cells nodename "interrupts"
             [GIC_FDT_IRQ_TYPE_SPI; irq; GIC_FDT_IRQ_FLAGS_LEVEL_HI])) ;;
  when (negb (num_clocks =? 0))
    (emit (qemu_fdt_setprop_cells nodename "clocks"
             [clock_phandle v; clock_phandle v]) ;;
     emit (qemu_fdt_setprop nodename "clock-names" clocks clocks_sz)).

Definition create_virtio_devices : B unit :=
  let size := size (memmap RANCHU_MMIO) in

  (* Note that we have to create the transports in forwards order
     so that command line devices are inserted lowest address first,
     and then add dtb nodes in reverse order so that they appear in
     the finished device tree lowest address first. *)
  for_each (range_up NUM_VIRTIO_TRANSPORTS) (fun i =>
    let irq := irqmap RANCHU_MMIO + i in
    let base := hwaddr_wrap (base (memmap RANCHU_MMIO) + i * size) in

    emit (sysbus_create_simple "virtio-mmio" base (pic irq))) ;;

  for_each (range_down NUM_VIRTIO_TRANSPORTS) (fun i =>
    let irq := irqmap RANCHU_MMIO + i in
    let base := hwaddr_wrap (base (memmap RANCHU_MMIO) + i * size) in

    let nodename := "/virtio_mmio@" +++ fmt_x64 base in
    emit (qemu_fdt_add_subnode nodename) ;;
    emit (qemu_fdt_setprop_string nodename "compatible" "virtio,mmio") ;;
    emit (qemu_fdt_setprop_sized_cells nodename "reg" [(2, base); (2, size)]) ;;
    emit (qemu_fdt_setprop_cells nodename "interrupts"
            [GIC_FDT_IRQ_TYPE_SPI; irq; GIC_FDT_IRQ_FLAGS_EDGE_LO_HI])).

(** Try to create the chardev for the Android console on the specified
    port; the result says whether a chardev was obtained. *)
Definition try_to_create_console_chardev (portno : Z) : B bool :=
  emit (qemu_chr_new_from_opts portno) ;;
  if negb (console_chardev_ok env portno) then
    (* Assume this was port-in-use *)
    emit qemu_opts_del ;;
    ret false
  else
    emit qemu_chr_fe_claim_no_fail ;;
    ret true.

(** [for (; tries > 0; tries--, baseport += 2)] and what follows it. *)
Fixpoint initialize_console_and_adb_loop (tries : nat) (baseport : Z)
  : B unit :=
  match tries with
  | O =>
      emit (error_report
              ("it seems too many emulator instances are running "
               +++ "on this machine. Aborting" +++ nl)) ;;
      exit 1
  | S tries' =>
      chr <- try_to_create_console_chardev baseport ;;
      if negb chr then
        initialize_console_and_adb_loop tries' (baseport + 2)
      else
        emit (qemu2_adb_server_init (baseport + 1)) ;;
        if negb (adb_server_ok env (baseport + 1)) then
          emit qemu_chr_delete ;;
          initialize_console_and_adb_loop tries' (baseport + 2)
        else
          (* Confirmed we have both ports, now we can create the console
             itself. *)
          emit monitor_init ;;
          emit (printf_console_on_port baseport (baseport + 1)) ;;
          set_android_base_port baseport
  end.

(** Initialize the console and ADB, which must listen on two consecutive TCP
    ports starting from 5555 and working up until we manage to open both
    connections. *)
Definition initialize_console_and_adb : B unit :=
  port <- get_android_base_port ;;
  let baseport := if port >? ANDROID_CONSOLE_BASEPORT then port
                  else ANDROID_CONSOLE_BASEPORT in
  initialize_console_and_adb_loop (Z.to_nat MAX_ANDROID_EMULATORS) baseport.

Definition ranchu_init (machine : MachineState) : B unit :=
  let cpu_model := match cpu_model machine with
                   | None => "cortex-a57"
                   | Some m => m
                   end in

  (* vbi = g_new0(VirtBoardInfo, 1); vbi->smp_cpus = smp_cpus; *)
  set_vbi (mkVbi None (smp_cpus env) false 0) ;;

  if ram_size machine >? size (memmap RANCHU_MEM) then
    emit (error_report "ranchu: cannot model more than 30GB RAM") ;;
    exit 1
  else
    create_fdt ;;
    fdt_add_timer_nodes ;;

    for_each (range_up (smp_cpus env)) (fun n =>
      match cpu_class_by_name env cpu_model with
      | None =>
          emit (fprintf_stderr ("Unable to find CPU definition" +++ nl)) ;;
          exit 1
      | Some oc =>
          emit (object_new oc) ;;

          (* Secondary CPUs start in PSCI powered-down state *)
          when (n >? 0)
            (emit (object_property_set_bool n true "start-powered-off")) ;;

          when (object_property_find env oc "reset-cbar")
            (emit (object_property_set_int n
                     (base (memmap RANCHU_CPUPERIPHS)) "reset-cbar")) ;;

          emit (object_property_set_bool n true "realized")
      end) ;;
    fdt_add_cpu_nodes ;;

    emit (memory_region_init_ram "ranchu.ram" (ram_size machine)) ;;
    emit vmstate_register_ram_global ;;
    emit (memory_region_add_subregion (base (memmap RANCHU_MEM))) ;;

    create_gic ;;
    create_simple_device RANCHU_UART "pl011"
      ["arm,pl011"; "arm,primecell"] 2 ["uartclk"; "apb_pclk"] 2 ;;
    create_simple_device RANCHU_GF_FB "goldfish_fb"
      ["generic,goldfish-fb"] 1 [] 0 ;;
    create_simple_device RANCHU_GF_BATTERY "goldfish_battery"
      ["generic,goldfish-battery"] 1 [] 0 ;;
    create_simple_device RANCHU_GF_AUDIO "goldfish_audio"
      ["generic,goldfish-audio"] 1 [] 0 ;;
    create_simple_device RANCHU_GF_EVDEV "goldfish-events"
      ["generic,goldfish-events-keypad"] 1 [] 0 ;;
    create_simple_device RANCHU_ANDROID_PIPE "android_pipe"
      ["generic,android-pipe"] 1 [] 0 ;;

    (* Create mmio transports, so the user can create virtio backends
       (which will be automatically plugged in to the transports). *)
    create_virtio_devices ;;

    (* Initialize the Android console and adb connection
       (must be done after the pipe has been realized). *)
    initialize_console_and_adb ;;

    v <- get_vbi ;;
    let info := mkBootInfo (ram_size machine)
                           (machine_kernel_filename machine)
                           (machine_kernel_cmdline machine)
                           (machine_initrd_filename machine)
                           (smp_cpus env) (-1)
                           (base (memmap RANCHU_MEM)) in
    set_vbi (mkVbi (Some info) (vbi_smp_cpus v) (fdt v) (clock_phandle v)) ;;
    emit (arm_load_kernel info).

End Board.

(** The board before [ranchu_init]. *)
Definition board_start (first_phandle port : Z) : board :=
  mkBoard (mkVbi None 0 false 0) first_phandle port.

(** [.max_cpus = 1] of [ranchu_machine]. *)
Definition ranchu_machine_max_cpus : Z := 1.

(** *** Notions used to state the properties *)

(** Two ranges do not meet; one range lies inside another. *)
Definition ranges_disjoint (a b : MemMapEntry) : Prop :=
  range_end a <= base b \/ range_end b <= base a.

Definition range_inside (a b : MemMapEntry) : Prop :=
  base b <= base a /\ range_end a <= range_end b.

(** The whole array of virtio transports, of which [memmap[RANCHU_MMIO]]
    describes the first. *)
Definition virtio_array : MemMapEntry :=
  mkMemMapEntry (base (memmap RANCHU_MMIO))
                (NUM_VIRTIO_TRANSPORTS * size (memmap RANCHU_MMIO)).

(** Readings of a sequence of calls: the nodes added to the device tree, the
    [reg] base and the [interrupts] cells given to nodes, the devices put on
    the system bus, the CPU objects created and those among them that were
    given [start-powered-off], each in the order of the calls. *)
Definition subnodes (t : list call) : list string :=
  flat_map (fun c => match c with
                     | qemu_fdt_add_subnode path => [path]
                     | _ => []
                     end) t.

Definition fdt_regs (t : list call) : list (string * hwaddr) :=
  flat_map (fun c => match c with
                     | qemu_fdt_setprop_sized_cells path "reg" ((_, b) :: _) =>
                         [(path, b)]
                     | _ => []
                     end) t.

Definition fdt_interrupts (t : list call) : list (string * list Z) :=
  flat_map (fun c => match c with
                     | qemu_fdt_setprop_cells path "interrupts" cells =>
                         [(path, cells)]
                     | _ => []
                     end) t.

Definition sysbus_devices (t : list call) : list (string * hwaddr * Z) :=
  flat_map (fun c => match c with
                     | sysbus_create_simple name addr irq => [(name, addr, irq)]
                     | _ => []
                     end) t.

Definition cpu_objects (t : list call) : list string :=
  flat_map (fun c => match c with
                     | object_new typename => [typename]
                     | _ => []
                     end) t.

Definition powered_off (t : list call) : list Z :=
  flat_map (fun c => match c with
                     | object_property_set_bool obj true "start-powered-off" =>
                         [obj]
                     | _ => []
                     end) t.

(** The children of [/cpus] among the nodes added. *)
Definition cpu_nodes (t : list call) : list string :=
  filter (String.prefix "/cpus/") (subnodes t).

(** The node name [fdt_add_cpu_nodes] prints for a CPU, the one
    [create_virtio_devices] prints for a transport, and the address and
    interrupt line of transport [i]. *)
Definition cpu_nodename (cpu : Z) : string := "/cpus/cpu@" +++ fmt_d cpu.

Definition virtio_base (i : Z) : hwaddr :=
  base (memmap RANCHU_MMIO) + i * size (memmap RANCHU_MMIO).

Definition virtio_irq (i : Z) : Z := irqmap RANCHU_MMIO + i.

Definition virtio_nodename (i : Z) : string :=
  "/virtio_mmio@" +++ fmt_x64 (virtio_base i).

(** A sequence of calls that creates no CPU object, powers none off and
    adds no child of [/cpus]; a step that makes only such calls; a step
    that always goes on, leaving [android_base_port] as it was. *)
Definition no_cpu_calls (t : list call) : Prop :=
  cpu_objects t = [] /\ powered_off t = [] /\ cpu_nodes t = [].

Definition harmless {A : Type} (m : B A) : Prop :=
  forall b, no_cpu_calls (fst (m b)).

Definition returns {A : Type} (m : B A) : Prop :=
  forall b, exists a b',
    snd (m b) = Done a b' /\ android_base_port b' = android_base_port b.

(** The calls of one round of the CPU loop of [ranchu_init], for a CPU
    class [oc] that was found. *)
Definition cpu_calls (env : Env) (oc : string) (n : Z) : list call :=
  object_new oc
  :: (if n >? 0 then [object_property_set_bool n true "start-powered-off"]
      else [])
  ++ (if object_property_find env oc "reset-cbar"
      then [object_property_set_int n (base (memmap RANCHU_CPUPERIPHS))
              "reset-cbar"]
      else [])
  ++ [object_property_set_bool n true "realized"].

(** The first port [initialize_console_and_adb] tries. *)
Definition first_console_port (b : board) : Z :=
  if android_base_port b >? ANDROID_CONSOLE_BASEPORT then android_base_port b
  else ANDROID_CONSOLE_BASEPORT.

(** The CPU model [ranchu_init] asks for. *)
Definition chosen_cpu_model (machine : MachineState) : string :=
  match cpu_model machine with
  | None => "cortex-a57"
  | Some m => m
  end.

Fixpoint strictly_ascending (l : list Z) : bool :=
  match l with
  | a :: (b :: _) as r => (a <? b) && strictly_ascending r
  | _ => true
  end.

Fixpoint strictly_descending (l : list Z) : bool :=
  match l with
  | a :: (b :: _) as r => (b <? a) && strictly_descending r
  | _ => true
  end.

(** An environment in which nothing fails: TCG, every CPU model known under
    its own name, the device tree allocated, and the port pair [port],
    [port + 1] free; a shift count outside of [int] is taken modulo 32. *)
Definition plain_env (cpus port : Z) : Env :=
  {| smp_cpus := cpus;
     kvm_enabled := false;
     kvm_irqchip_in_kernel := false;
     create_device_tree_ok := true;
     cpu_class_by_name := fun model => Some (model +++ "-arm-cpu");
     object_property_find := fun _ _ => true;
     dtb_compatible := fun _ => "arm,arm-v8";
     cpu_mask_outside_int := fun n => Z.shiftl 1 (n mod 32) - 1;
     psci_fn_id := fun _ => 0;
     deposit32 := fun value start length fieldval =>
       let mask := Z.shiftl (Z.shiftr 0xFFFFFFFF (32 - length)) start in
       Z.lor (Z.land value (Z.lnot mask))
             (Z.land (Z.shiftl fieldval start) mask);
     ARM_CPU_IRQ := 0;
     console_chardev_ok := fun p => p =? port;
     adb_server_ok := fun p => p =? port + 1 |}.

Definition plain_machine (ram : Z) : MachineState :=
  mkMachine ram None None None None.

End Ranchu.

(* ===================================================================== *)
(** ** vl.c: handler lists, option parsing and the checks made at start-up *)
(* ===================================================================== *)

Module Startup.

Local Open Scope string_scope.
Local Open Scope list_scope.
Local Open Scope Z_scope.

Local Notation "a +++ b" := (String.append a b)
  (at level 60, right associativity).

(** The value of an [unsigned] and of an [int] holding [z], 32 bits wide. *)
Definition to_unsigned (z : Z) : Z := z mod 2 ^ 32.

Definition to_int (z : Z) : Z :=
  let u := z mod 2 ^ 32 in if u <? 2 ^ 31 then u else u - 2 ^ 32.

(** The code of a character, and the characters of the messages that a
    string literal cannot hold. *)
Definition char_code (c : ascii) : Z := Z.of_nat (nat_of_ascii c).

Definition nl : string := String (ascii_of_nat 10) EmptyString.
Definition dquote : string := String (ascii_of_nat 34) EmptyString.
Definition quote : string := String (ascii_of_nat 39) EmptyString.

(** *** Boot properties given on the command line *)

Definition MAX_N_CMD_PROPS : Z := 16.

(** [cmd_props[0 .. n_cmd_props - 1]] is the list; the result carries what
    went to [stderr]. *)
Definition save_cmd_property (propStr : string) (cmd_props : list string)
  : list string * list string :=
  if Z.of_nat (List.length cmd_props) >=? MAX_N_CMD_PROPS then
    (cmd_props,
     ["Too many command-line boot properties. "
      +++ "This property is ignored: " +++ dquote +++ propStr +++ dquote +++ nl])
  else (cmd_props ++ [propStr], []).

(** [strchr(s, c)]: the offset of the first [c] in [s] and what follows
    it, if there is one.  A C string is given by the characters before its
    NUL. *)
Fixpoint strchr (s : string) (c : ascii) : option (Z * string) :=
  match s with
  | EmptyString => None
  | String a s' =>
      if Ascii.eqb a c then Some (0, s')
      else match strchr s' c with
           | Some (n, rest) => Some (n + 1, rest)
           | None => None
           end
  end.

(** A call [boot_property_add2(name, namelen, value, valuelen)]. *)
Record boot_property : Set := boot_property_add2 {
  bp_name : string;
  bp_namelen : Z;
  bp_value : string;
  bp_valuelen : Z
}.

(** Provide the saved System boot parameters from the command line: the
    calls made, in order. *)
Fixpoint process_cmd_properties (cmd_props : list string) : list boot_property :=
  match cmd_props with
  | [] => []
  | pkey :: rest =>
      (* The string should be of the form "keyname=value" *)
      match strchr pkey "=" with
      | Some (n, after) =>
          (* Pass ptr and length for both parts *)
          boot_property_add2 pkey n after (Z.of_nat (String.length after))
          :: process_cmd_properties rest
      | None => process_cmd_properties rest
      end
  end.

(** *** Boot devices *)

Inductive boot_diagnostic : Set :=
  | Invalid_boot_device (c : ascii)          (* "Invalid boot device '%c'\n" *)
  | Boot_device_given_twice (c : ascii).     (* "Boot device '%c' was given twice\n" *)

(** The loop of [validate_bootdevices], from position [p] with the devices
    seen so far in [bitmap].  A [char] above 127 is refused with the same
    diagnostic whether [char] is signed (it is below 'a') or not (it is
    above 'p'). *)
Fixpoint validate_bootdevices_from (p : string) (bitmap : Z)
  : bool * option boot_diagnostic :=
  match p with
  | EmptyString => (true, None)
  | String c p' =>
      if char_code c =? 0 then (true, None)
      else if (char_code c <? char_code "a") || (char_code c >? char_code "p")
      then (false, Some (Invalid_boot_device c))
      else if negb (Z.land bitmap (Z.shiftl 1 (char_code c - char_code "a"))
                    =? 0)
      then (false, Some (Boot_device_given_twice c))
      else validate_bootdevices_from p'
             (Z.lor bitmap (Z.shiftl 1 (char_code c - char_code "a")))
  end.

(** We just do some generic consistency checks *)
Definition validate_bootdevices (devices : string)
  : bool * option boot_diagnostic :=
  validate_bootdevices_from devices 0.

(** The characters of a C string: those before the first NUL. *)
Fixpoint c_chars (s : string) : list Z :=
  match s with
  | EmptyString => []
  | String c s' => if char_code c =? 0 then [] else char_code c :: c_chars s'
  end.

(** *** [-smp] *)

(** What [qemu_opt_get_number] gives for the options of [-smp]: a
    [uint64_t], 0 for an option that was not given. *)
Record SmpOpts : Set := mkSmpOpts {
  opt_cpus : Z;
  opt_sockets : Z;
  opt_cores : Z;
  opt_threads : Z;
  opt_maxcpus : Z
}.

(** The four [int] variables [smp_parse] writes. *)
Record SmpVars : Set := mkSmpVars {
  smp_cpus : Z;
  max_cpus : Z;
  smp_cores : Z;
  smp_threads : Z
}.

(** [int smp_cpus = 1; int max_cpus = 0; int smp_cores = 1;
    int smp_threads = 1;] *)
Definition smp_defaults : SmpVars := mkSmpVars 1 0 1 1.

Inductive smp_outcome : Set :=
  | SmpReturn (ok : bool) (vars : SmpVars) (stderr : list string)
  | SmpDivisionByZero.

Section Smp.

(** [MAX_CPUMASK_BITS] is a macro of [sysemu.h]. *)
Variable MAX_CPUMASK_BITS : Z.

(** The part of [smp_parse] after the options have been read. *)
Definition smp_check (v : SmpVars) : smp_outcome :=
  let max_cpus' := if max_cpus v =? 0 then smp_cpus v else max_cpus v in
  let v' := mkSmpVars (smp_cpus v) max_cpus' (smp_cores v) (smp_threads v) in
  if max_cpus' >? MAX_CPUMASK_BITS then
    SmpReturn false v' ["Unsupported number of maxcpus" +++ nl]
  else if max_cpus' <? smp_cpus v then
    SmpReturn false v' ["maxcpus must be equal to or greater than smp" +++ nl]
  else SmpReturn true v' [].

Definition smp_parse (opts : option SmpOpts) (v : SmpVars) : smp_outcome :=
  match opts with
  | None => smp_check v
  | Some o =>
      let cpus := to_unsigned (opt_cpus o) in
      let sockets := to_unsigned (opt_sockets o) in
      let cores := to_unsigned (opt_cores o) in
      let threads := to_unsigned (opt_threads o) in
      let store cpus cores threads :=
        smp_check (mkSmpVars (to_int cpus)
                             (to_int (opt_maxcpus o))
                             (to_int (if cores >? 0 then cores else 1))
                             (to_int (if threads >? 0 then threads else 1))) in
      (* compute missing values, prefer sockets over cores over threads *)
      if (cpus =? 0) || (sockets =? 0) then
        let sockets := if sockets >? 0 then sockets else 1 in
        let cores := if cores >? 0 then cores else 1 in
        let threads := if threads >? 0 then threads else 1 in
        let cpus := if cpus =? 0 then to_unsigned (cores * threads * sockets)
                    else cpus in
        store cpus cores threads
      else if cores =? 0 then
        let threads := if threads >? 0 then threads else 1 in
        let d := to_unsigned (sockets * threads) in
        if d =? 0 then SmpDivisionByZero
        else store cpus (cpus / d) threads
      else
        let d := to_unsigned (cores * sockets) in
        if d =? 0 then SmpDivisionByZero
        else store cpus cores (cpus / d)
  end.

(** The two checks [run_qemu_main] makes on the number of CPUs, for a
    machine class called [machine_name] whose [max_cpus] is
    [machine_max_cpus]: it returns a status, or goes on with the variables
    and the [max_cpus] of the machine class as it has set them. *)
Inductive smp_checked : Set :=
  | MainReturn (status : Z) (stderr : list string)
  | MainGoesOn (vars : SmpVars) (machine_max_cpus : Z)
  | MainDivisionByZero.

Definition check_smp (opts : option SmpOpts) (v : SmpVars)
    (machine_name : string) (machine_max_cpus : Z) : smp_checked :=
  match smp_parse opts v with
  | SmpDivisionByZero => MainDivisionByZero
  | SmpReturn false _ err => MainReturn 0 err               (* return false; *)
  | SmpReturn true v' err =>
      (* Default to UP *)
      let machine_max_cpus :=
        if machine_max_cpus =? 0 then 1 else machine_max_cpus in
      if smp_cpus v' >? machine_max_cpus then
        MainReturn 1
          (err ++ ["Number of SMP cpus requested ("
                   +++ Ranchu.fmt_d (smp_cpus v')
                   +++ "), exceeds max cpus supported by machine `"
                   +++ machine_name +++ "' ("
                   +++ Ranchu.fmt_d machine_max_cpus +++ ")" +++ nl])
      else MainGoesOn v' machine_max_cpus
  end.

End Smp.

(** *** Device configurations *)

Inductive device_type : Set :=
  | DEV_USB       (* -usbdevice     *)
  | DEV_BT        (* -bt            *)
  | DEV_SERIAL    (* -serial        *)
  | DEV_PARALLEL  (* -parallel      *)
  | DEV_VIRTCON   (* -virtioconsole *)
  | DEV_DEBUGCON  (* -debugcon *)
  | DEV_GDB       (* -gdb, -s *)
  | DEV_SCLP.     (* s390 sclp *)

Definition device_type_index (t : device_type) : Z :=
  match t with
  | DEV_USB => 0 | DEV_BT => 1 | DEV_SERIAL => 2 | DEV_PARALLEL => 3
  | DEV_VIRTCON => 4 | DEV_DEBUGCON => 5 | DEV_GDB => 6 | DEV_SCLP => 7
  end.

Definition device_type_eqb (a b : device_type) : bool :=
  device_type_index a =? device_type_index b.

(** [struct device_config]; the saved location [loc] only says where an
    error message points and is left out. *)
Record device_config : Set := mkDeviceConfig {
  type : device_type;
  cmdline : string
}.

(** [QTAILQ_INSERT_TAIL(&device_configs, conf, next)] *)
Definition add_device_config (type : device_type) (cmdline : string)
    (device_configs : list device_config) : list device_config :=
  device_configs ++ [mkDeviceConfig type cmdline].

Section Foreach.

(** The variables [func] reads and writes. *)
Variable Vars : Type.

Fixpoint foreach_device_config (type : device_type)
    (func : string -> Vars -> Z * Vars) (device_configs : list device_config)
    (st : Vars) : Z * Vars :=
  match device_configs with
  | [] => (0, st)
  | conf :: rest =>
      if negb (device_type_eqb (Startup.type conf) type) then
        foreach_device_config type func rest st
      else
        let (rc, st') := func (cmdline conf) st in
        if negb (rc =? 0) then (rc, st')
        else foreach_device_config type func rest st'
  end.

End Foreach.

Arguments foreach_device_config {Vars} type func device_configs st.

Section Serial.

(** [MAX_SERIAL_PORTS] is a macro of [sysemu.h]; [qemu_chr_new(label,
    filename, NULL)] gives a character device or NULL. *)
Variable MAX_SERIAL_PORTS : Z.
Variable CharDriverState : Type.
Variable qemu_chr_new : string -> string -> option CharDriverState.

(** The [static int index] of [serial_parse], the array [serial_hds] and
    what was written to [stderr]. *)
Record serial_state : Type := mkSerial {
  index : Z;
  serial_hds : Z -> option CharDriverState;
  serial_stderr : list string
}.

Definition serial_start : serial_state := mkSerial 0 (fun _ => None) [].

Definition serial_parse (devname : string) (st : serial_state)
  : Z * serial_state :=
  if String.eqb devname "none" then (0, st)
  else if index st =? MAX_SERIAL_PORTS then
    (-1, mkSerial (index st) (serial_hds st)
                  (serial_stderr st ++ ["qemu: too many serial ports" +++ nl]))
  else
    let label := "serial" +++ Ranchu.fmt_d (index st) in
    let chr := qemu_chr_new label devname in
    let hds := fun i => if i =? index st then chr else serial_hds st i in
    match chr with
    | None =>
        (-1, mkSerial (index st) hds
                      (serial_stderr st
                       ++ ["qemu: could not connect serial device"
                           +++ " to character backend " +++ quote +++ devname
                           +++ quote +++ nl]))
    | Some _ => (0, mkSerial (index st + 1) hds (serial_stderr st))
    end.

End Serial.

Arguments mkSerial {CharDriverState} index serial_hds serial_stderr.
Arguments index {CharDriverState} s.
Arguments serial_hds {CharDriverState} s _.
Arguments serial_stderr {CharDriverState} s.
Arguments serial_start {CharDriverState}.
Arguments serial_parse MAX_SERIAL_PORTS {CharDriverState} qemu_chr_new
  devname st.

(** *** Looking up a command-line option *)

(** [QEMUOption]; the table [qemu_options] is generated from a file that is
    not among the sources, and ends where the C array has its entry
    without a name. *)
Record QEMUOption : Set := mkOption {
  name : string;
  flags : Z;
  opt_index : Z;
  arch_mask : Z
}.

Definition HAS_ARG : Z := 0x0001.

Inductive lookup_result : Set :=
  | Found (popt : QEMUOption) (optarg : option string) (optind : Z)
  | NoOption (report : string)        (* error_report(...); return NULL *)
  | OutsideArgv.                      (* argv[optind] is not an argument *)

(** The walk over the table: the first entry called [key]. *)
Fixpoint find_option (popt : list QEMUOption) (key : string)
  : option QEMUOption :=
  match popt with
  | [] => None
  | o :: popt' => if String.eqb (name o) key then Some o
                  else find_option popt' key
  end.

Definition lookup_opt (qemu_options : list QEMUOption) (argv : list string)
    (optind : Z) : lookup_result :=
  let argc := Z.of_nat (List.length argv) in
  if optind <? 0 then OutsideArgv
  else
    match nth_error argv (Z.to_nat optind) with
    | None | Some EmptyString => OutsideArgv
    | Some (String _ r1) =>
        let optind := optind + 1 in
        (* Treat --foo the same as -foo.  *)
        let key := match r1 with
                   | String "-" r2 => r2
                   | _ => r1
                   end in
        match find_option qemu_options key with
        | None => NoOption "invalid option"
        | Some popt =>
            if negb (Z.land (flags popt) HAS_ARG =? 0) then
              if optind >=? argc then NoOption "requires an argument"
              else Found popt (nth_error argv (Z.to_nat optind)) (optind + 1)
            else Found popt None optind
        end
    end.

(** *** Machine types *)

(** [MachineClass], the members the searches read ([mc_name] is its member
    [name]); the list [machines] is what
    [object_class_get_list(TYPE_MACHINE, false)] gives. *)
Record MachineClass : Set := mkMachineClass {
  mc_name : string;
  alias : option string;
  is_default : bool
}.

Fixpoint find_machine (machines : list MachineClass) (name : string)
  : option MachineClass :=
  match machines with
  | [] => None
  | temp :: el =>
      if String.eqb (mc_name temp) name then Some temp
      else match alias temp with
           | Some a => if String.eqb a name then Some temp
                       else find_machine el name
           | None => find_machine el name
           end
  end.

Fixpoint find_default_machine (machines : list MachineClass)
  : option MachineClass :=
  match machines with
  | [] => None
  | temp :: el => if is_default temp then Some temp
                  else find_default_machine el
  end.

End Startup.

(* ===================================================================== *)
(** ** vl.c: the list of reset handlers                                  *)
(* ===================================================================== *)

Module Handlers.

Import Vl.

Local Open Scope list_scope.
Local Open Scope Z_scope.

Section Reset.

Context {World : Type}.
Context {collaborators : @Collaborators World}.

Local Notation "x <- m ;; k" := (bind m (fun x => k))
  (at level 61, m at next level, right associativity).
Local Notation "m ;; k" := (bind m (fun _ => k))
  (at level 61, right associativity).

Definition set_reset_handlers (v : list QEMUResetEntry) (s : @vl_state World)
  : @vl_state World :=
  mkState (current_run_state s) (vmstop_requested s) (vmstop_lock s)
    (runstate_valid_transitions s) v (reset_requested s)
    (shutdown_requested s) (shutdown_signal s) (shutdown_pid s)
    (powerdown_requested s) (debug_requested s) (suspend_requested s)
    (wakeup_reason s) (wakeup_reason_mask s) (no_reboot s) (no_shutdown s)
    (world s).

(** [QTAILQ_INSERT_TAIL(&reset_handlers, re, entry)] *)
Definition qemu_register_reset (func opaque : Z) : M unit :=
  l <- get reset_handlers ;;
  modify (set_reset_handlers (l ++ [mkResetEntry func opaque])).

(** The loop of [qemu_unregister_reset]: the list without the first entry
    for [func] and [opaque]. *)
Fixpoint unregister_first (func opaque : Z) (l : list QEMUResetEntry)
  : list QEMUResetEntry :=
  match l with
  | [] => []
  | re :: l' =>
      if (Vl.func re =? func) && (Vl.opaque re =? opaque) then l'
      else re :: unregister_first func opaque l'
  end.

Definition qemu_unregister_reset (func opaque : Z) : M unit :=
  l <- get reset_handlers ;;
  modify (set_reset_handlers (unregister_first func opaque l)).

(** [qemu_register_reset] for each entry of a list, first entry first. *)
Fixpoint register_all (l : list QEMUResetEntry) : M unit :=
  match l with
  | [] => ret tt
  | re :: l' =>
      qemu_register_reset (func re) (opaque re) ;; register_all l'
  end.

(** The state once [runstate_init] has run at program start. *)
Definition booted_state (w : World) : @vl_state World :=
  set_vmstop_lock false
    (set_runstate_valid_transitions
       (runstate_init_loop runstate_transitions_def (fun _ _ => false))
       (initial_state w)).

(** No request is pending in [s] and the mutex is free. *)
Definition no_request (s : @vl_state World) : Prop :=
  debug_requested s = 0 /\ suspend_requested s = 0 /\
  shutdown_requested s = 0 /\ reset_requested s = 0 /\
  wakeup_reason s = QEMU_WAKEUP_REASON_NONE /\ powerdown_requested s = 0 /\
  vmstop_requested s = RUN_STATE_MAX /\ vmstop_lock s = false.

(** The wakeup reason [reason] is enabled in [s]. *)
Definition wakeup_enabled (reason : WakeupReason) (s : @vl_state World) : bool :=
  nonzero (Z.land (wakeup_reason_mask s) (Z.shiftl 1 reason)).

End Reset.

(** Collaborators that always return 0 and keep the list of the calls made,
    oldest first, as their state. *)
Definition recording_collaborators : @Collaborators (list extern) :=
  {| collab := fun c r w => Some (0, r, w ++ [c]);
     qtest_driver := fun _ => false;
     machine_has_reset := fun _ => false;
     kvm_enabled := fun _ => false;
     xen_enabled := fun _ => false;
     hax_enabled := fun _ => false;
     main_loop_wait := fun _ s => Ok 0 s |}.

End Handlers.

(* ===================================================================== *)
(** ** hw/arm/ranchu.c: further readings of the calls of the board       *)
(* ===================================================================== *)

Module Wiring.

Import Ranchu.

Local Open Scope string_scope.
Local Open Scope list_scope.
Local Open Scope Z_scope.

Local Notation "a +++ b" := (String.append a b)
  (at level 60, right associativity).

(** The console port [port] and the ADB port after it can both be
    opened. *)
Definition port_pair_free (env : Env) (port : Z) : bool :=
  console_chardev_ok env port && adb_server_ok env (port + 1).

(** Further readings of a sequence of calls: the ports on which a console
    was tried, the values given to the cell property [name] of nodes, the
    [clocks] cells given to nodes, the timer outputs of CPUs wired to inputs
    of the GIC and the outputs of the GIC wired to inputs of CPUs, each in
    the order of the calls. *)
Definition console_ports_tried (t : list call) : list Z :=
  flat_map (fun c => match c with
                     | qemu_chr_new_from_opts port => [port]
                     | _ => []
                     end) t.

Definition fdt_cell (name : string) (t : list call) : list (string * Z) :=
  flat_map (fun c => match c with
                     | qemu_fdt_setprop_cell path n value =>
                         if String.eqb n name then [(path, value)] else []
                     | _ => []
                     end) t.

Definition fdt_clocks (t : list call) : list (string * list Z) :=
  flat_map (fun c => match c with
                     | qemu_fdt_setprop_cells path "clocks" cells =>
                         [(path, cells)]
                     | _ => []
                     end) t.

Definition timer_wires (t : list call) : list (Z * Z * Z) :=
  flat_map (fun c => match c with
                     | qdev_connect_gpio_out cpu n gic_in => [(cpu, n, gic_in)]
                     | _ => []
                     end) t.

Definition irq_wires (t : list call) : list (Z * Z * Z) :=
  flat_map (fun c => match c with
                     | sysbus_connect_irq _ n cpu cpu_in => [(n, cpu, cpu_in)]
                     | _ => []
                     end) t.

(** The devices [ranchu_init] creates with [create_simple_device], in the
    order of its calls, and the node name [create_simple_device] prints. *)
Definition simple_devices : list (slot * string) :=
  [ (RANCHU_UART, "pl011");
    (RANCHU_GF_FB, "goldfish_fb");
    (RANCHU_GF_BATTERY, "goldfish_battery");
    (RANCHU_GF_AUDIO, "goldfish_audio");
    (RANCHU_GF_EVDEV, "goldfish-events");
    (RANCHU_ANDROID_PIPE, "android_pipe") ].

Definition simple_nodename (d : slot * string) : string :=
  "/" +++ snd d +++ "@" +++ fmt_x64 (base (memmap (fst d))).

(** The calls on the device tree, on devices and on the system bus. *)
Definition board_call (c : call) : bool :=
  match c with
  | create_device_tree
  | qemu_fdt_add_subnode _
  | qemu_fdt_setprop_string _ _ _
  | qemu_fdt_setprop_cell _ _ _
  | qemu_fdt_setprop_cells _ _ _
  | qemu_fdt_setprop_sized_cells _ _ _
  | qemu_fdt_setprop _ _ _ _
  | qdev_create _
  | qdev_prop_set_uint32 _ _ _
  | qdev_init_nofail _
  | sysbus_mmio_map _ _ _
  | qdev_connect_gpio_out _ _ _
  | sysbus_connect_irq _ _ _ _
  | sysbus_create_simple _ _ _ => true
  | _ => false
  end.

(** A step whose calls the reading [f] does not see. *)
Definition unseen {X A : Type} (f : call -> list X) (m : B A) : Prop :=
  forall b, flat_map f (fst (m b)) = [].

(** The board as [ranchu_init] has it when it calls [create_fdt], once the
    device tree is created, and once the interrupt controller is. *)
Definition board_without_fdt (env : Env) (b : board) : board :=
  mkBoard (mkVbi None (smp_cpus env) false 0)
          (next_phandle b) (android_base_port b).

Definition board_with_fdt (env : Env) (b : board) : board :=
  mkBoard (mkVbi None (smp_cpus env) true (next_phandle b))
          (next_phandle b + 1) (android_base_port b).

Definition board_with_gic (env : Env) (b : board) : board :=
  mkBoard (mkVbi None (smp_cpus env) true (next_phandle b))
          (next_phandle b + 2) (android_base_port b).

(** The six calls of [create_simple_device] in [ranchu_init]. *)
Definition create_simple_devices : B unit :=
  bind (create_simple_device RANCHU_UART "pl011"
          ["arm,pl011"; "arm,primecell"] 2 ["uartclk"; "apb_pclk"] 2) (fun _ =>
  bind (create_simple_device RANCHU_GF_FB "goldfish_fb"
          ["generic,goldfish-fb"] 1 [] 0) (fun _ =>
  bind (create_simple_device RANCHU_GF_BATTERY "goldfish_battery"
          ["generic,goldfish-battery"] 1 [] 0) (fun _ =>
  bind (create_simple_device RANCHU_GF_AUDIO "goldfish_audio"
          ["generic,goldfish-audio"] 1 [] 0) (fun _ =>
  bind (create_simple_device RANCHU_GF_EVDEV "goldfish-events"
          ["generic,goldfish-events-keypad"] 1 [] 0) (fun _ =>
  create_simple_device RANCHU_ANDROID_PIPE "android_pipe"
    ["generic,android-pipe"] 1 [] 0))))).

(** The boot information [ranchu_init] hands to [arm_load_kernel]. *)
Definition ranchu_bootinfo (env : Env) (machine : MachineState)
  : arm_boot_info :=
  mkBootInfo (ram_size machine)
             (machine_kernel_filename machine)
             (machine_kernel_cmdline machine)
             (machine_initrd_filename machine)
             (smp_cpus env) (-1)
             (base (memmap RANCHU_MEM)).

(** The environment [env], except that no CPU model is known. *)
Definition with_unknown_cpu (env : Env) : Env :=
  {| smp_cpus := smp_cpus env;
     kvm_enabled := kvm_enabled env;
     kvm_irqchip_in_kernel := kvm_irqchip_in_kernel env;
     create_device_tree_ok := create_device_tree_ok env;
     cpu_class_by_name := fun _ => None;
     object_property_find := object_property_find env;
     dtb_compatible := dtb_compatible env;
     cpu_mask_outside_int := cpu_mask_outside_int env;
     psci_fn_id := psci_fn_id env;
     deposit32 := deposit32 env;
     ARM_CPU_IRQ := ARM_CPU_IRQ env;
     console_chardev_ok := console_chardev_ok env;
     adb_server_ok := adb_server_ok env |}.

(** The environment [env], except that KVM is enabled. *)
Definition with_kvm (env : Env) : Env :=
  {| smp_cpus := smp_cpus env;
     kvm_enabled := true;
     kvm_irqchip_in_kernel := kvm_irqchip_in_kernel env;
     create_device_tree_ok := create_device_tree_ok env;
     cpu_class_by_name := cpu_class_by_name env;
     object_property_find := object_property_find env;
     dtb_compatible := dtb_compatible env;
     cpu_mask_outside_int := cpu_mask_outside_int env;
     psci_fn_id := psci_fn_id env;
     deposit32 := deposit32 env;
     ARM_CPU_IRQ := ARM_CPU_IRQ env;
     console_chardev_ok := console_chardev_ok env;
     adb_server_ok := adb_server_ok env |}.

(** The calls of [create_fdt] under KVM, when the device tree is created,
    with [ph] the phandle it allocates: the last one adds [/psci]. *)
Definition create_fdt_calls_kvm (ph : Z) : list call :=
  [ create_device_tree;
    qemu_fdt_setprop_string "/" "compatible" "ranchu";
    qemu_fdt_setprop_cell "/" "#address-cells" 0x2;
    qemu_fdt_setprop_cell "/" "#size-cells" 0x2;
    qemu_fdt_add_subnode "/firmware";
    qemu_fdt_add_subnode "/firmware/android";
    qemu_fdt_setprop_string "/firmware/android" "compatible" "android,firmware";
    qemu_fdt_setprop_string "/firmware/android" "hardware" "ranchu";
    qemu_fdt_add_subnode "/chosen";
    qemu_fdt_add_subnode "/memory";
    qemu_fdt_setprop_string "/memory" "device_type" "memory";
    qemu_fdt_add_subnode "/apb-pclk";
    qemu_fdt_setprop_string "/apb-pclk" "compatible" "fixed-clock";
    qemu_fdt_setprop_cell "/apb-pclk" "#clock-cells" 0x0;
    qemu_fdt_setprop_cell "/apb-pclk" "clock-frequency" 24000000;
    qemu_fdt_setprop_string "/apb-pclk" "clock-output-names" "clk24mhz";
    qemu_fdt_setprop_cell "/apb-pclk" "phandle" ph;
    qemu_fdt_add_subnode "/psci" ].

End Wiring.

(* ===================================================================== *)
(** ** Properties of the run-state machine and the main loop             *)
(* ===================================================================== *)

Section VlFacts.
Import Vl.
Context {World : Type} {collaborators : @Collaborators World}.
Local Abbreviation vl_state := (@Vl.vl_state World).
Local Abbreviation M := (@Vl.M World).
Implicit Types s : vl_state.

Lemma RunState_eqb_eq (a b : RunState) : RunState_eqb a b = true <-> a = b.
Proof.
  split.
  - destruct a, b; intro H; try reflexivity; discriminate H.
  - intros ->. unfold RunState_eqb. apply Z.eqb_refl.
Qed.

Lemma runstate_init_loop_table (a b : RunState) :
  RunState_ltb a RUN_STATE_MAX = true ->
  (runstate_init_loop runstate_transitions_def (fun _ _ => false) a b = true
   <-> In (mkTransition a b) runstate_transitions_def).
Proof.
  intro Ha.
  destruct a; try discriminate Ha; destruct b; vm_compute; split; intro H;
    try reflexivity; try discriminate H;
    try (repeat (first [left; reflexivity | right]); fail);
    repeat (destruct H as [H | H]; [discriminate H |]); contradiction.
Qed.

Lemma runs_bind {A B : Type} (m : M A) (k : A -> M B) s
    (P : B -> vl_state -> Prop) (Q : failure -> Prop) :
  runs m s (fun a s' => runs (k a) s' P Q) Q -> runs (bind m k) s P Q.
Proof. unfold runs, bind. destruct (m s); auto. Qed.

Lemma runs_weaken {A : Type} (m : M A) s
    (P P' : A -> vl_state -> Prop) (Q Q' : failure -> Prop) :
  runs m s P Q ->
  (forall a s', P a s' -> P' a s') -> (forall f, Q f -> Q' f) ->
  runs m s P' Q'.
Proof. unfold runs. destruct (m s); auto. Qed.

(** A block with a known behaviour, then the rest. *)
Lemma runs_seq {A B : Type} (R : A -> vl_state -> Prop) (Q' : failure -> Prop)
    (m : M A) (k : A -> M B) s
    (P : B -> vl_state -> Prop) (Q : failure -> Prop) :
  runs m s R Q' ->
  (forall f, Q' f -> Q f) ->
  (forall a s', R a s' -> runs (k a) s' P Q) ->
  runs (bind m k) s P Q.
Proof.
  intros Hm HQ Hk. apply runs_bind.
  apply (runs_weaken _ _ _ _ _ _ Hm); auto.
Qed.

(** A step that certainly returns, then the rest. *)
Lemma runs_det {A B : Type} (m : M A) (k : A -> M B) s a s'
    (P : B -> vl_state -> Prop) (Q : failure -> Prop) :
  m s = Ok a s' -> runs (k a) s' P Q -> runs (bind m k) s P Q.
Proof. unfold runs, bind. intros ->. auto. Qed.

Lemma same_requests_refl s : same_requests s s.
Proof. unfold same_requests. tauto. Qed.

Lemma same_requests_trans s1 s2 s3 :
  same_requests s1 s2 -> same_requests s2 s3 -> same_requests s1 s3.
Proof. unfold same_requests. intuition congruence. Qed.

Section Preserves.

Variable Q : failure -> Prop.
Hypothesis Q_extern : forall f, extern_stopped f -> Q f.

Lemma preserves_ret {A : Type} (a : A) : preserves Q (@ret World A a).
Proof. intro s. apply same_requests_refl. Qed.

Lemma preserves_get {A : Type} (f : vl_state -> A) : preserves Q (@get World A f).
Proof. intro s. apply same_requests_refl. Qed.

Lemma preserves_bind {A B : Type} (m : M A) (k : A -> M B) :
  preserves Q m -> (forall a, preserves Q (k a)) -> preserves Q (bind m k).
Proof.
  intros Hm Hk s. eapply runs_seq; [apply Hm | auto |].
  intros a s' H. eapply runs_weaken; [apply Hk | | auto].
  intros b s'' H'. cbv beta in *. eapply same_requests_trans; eauto.
Qed.

Lemma preserves_call_int (c : extern) : preserves Q (call_int c).
Proof.
  intro s. unfold runs, call_int.
  destruct (collab c (current_run_state s) (world s)) as [[[v r] w]|] eqn:E.
  - unfold same_requests. cbn. tauto.
  - apply Q_extern. cbn. eauto.
Qed.

Lemma preserves_call (c : extern) : preserves Q (call c).
Proof.
  apply preserves_bind; [apply preserves_call_int | intro; apply preserves_ret].
Qed.

Lemma preserves_when (c : bool) (m : M unit) :
  preserves Q m -> preserves Q (when c m).
Proof. destruct c; cbn [when]; auto using @preserves_ret. Qed.

Lemma preserves_if {A : Type} (c : bool) (m1 m2 : M A) :
  preserves Q m1 -> preserves Q m2 -> preserves Q (if c then m1 else m2).
Proof. destruct c; auto. Qed.

Lemma preserves_set_shutdown_signal (v : Z) :
  preserves Q (@modify World (set_shutdown_signal v)).
Proof. intro s. unfold runs, modify, same_requests. cbn. tauto. Qed.

Lemma preserves_call_reset_handlers (l : list QEMUResetEntry) :
  preserves Q (call_reset_handlers l).
Proof.
  induction l as [| re l IH]; cbn [call_reset_handlers].
  - apply preserves_ret.
  - apply preserves_bind; auto using preserves_call.
Qed.

(** Blocks made of calls, reads and branches. *)
Ltac preserves_block :=
  repeat (first [ apply preserves_call
                | apply preserves_call_int
                | apply preserves_call_reset_handlers
                | apply preserves_set_shutdown_signal
                | apply preserves_get
                | apply preserves_ret
                | apply preserves_when
                | apply preserves_if
                | apply preserves_bind; [| intro ] ]).

Lemma preserves_qemu_system_reset (report : bool) :
  preserves Q (qemu_system_reset report).
Proof. unfold qemu_system_reset, qemu_devices_reset. preserves_block. Qed.

Lemma preserves_qemu_kill_report : preserves Q qemu_kill_report.
Proof. unfold qemu_kill_report. preserves_block. Qed.

Lemma preserves_qemu_system_powerdown : preserves Q qemu_system_powerdown.
Proof. unfold qemu_system_powerdown. preserves_block. Qed.

Lemma preserves_runstate_needs_reset : preserves Q (@runstate_needs_reset World).
Proof.
  unfold runstate_needs_reset, runstate_check.
  apply preserves_bind; [apply preserves_get | intro a].
  apply preserves_if; [apply preserves_ret | apply preserves_get].
Qed.

Lemma preserves_runstate_set (new : RunState) :
  RunState_ltb new RUN_STATE_MAX = true ->
  (forall cur, Q (InvalidTransition cur new)) ->
  preserves Q (@runstate_set World new).
Proof.
  intros Hnew HQ s. unfold runs, runstate_set. rewrite Hnew. cbn.
  unfold bind, get. 
  destruct (runstate_valid_transitions s (current_run_state s) new); cbn.
  - unfold same_requests. cbn. tauto.
  - apply HQ.
Qed.

End Preserves.


Ltac same_solve :=
  unfold same_requests, QEMU_WAKEUP_REASON_NONE in *; cbn in *;
  repeat match goal with H : _ /\ _ |- _ => destruct H end;
  repeat split; congruence.

(** A collaborator call in a sequence. *)
Ltac step_with L :=
  match goal with
  | |- runs (bind _ _) ?s _ _ =>
      eapply (runs_seq (fun _ s' => same_requests s s') _);
      [ apply L | | intros ? ? ?; cbv beta in * ]
  end.

Lemma nonzero_false (z : Z) : nonzero z = false -> z = 0.
Proof. unfold nonzero. destruct (Z.eqb_spec z 0); [auto | discriminate]. Qed.

(** What the tail of a pass does to the requests, and how it can stop. *)
Lemma main_loop_should_exit_rest_runs s :
  runs main_loop_should_exit_rest s
    (fun b s' =>
       b = false /\
       same_requests
         (set_vmstop_requested RUN_STATE_MAX
            (set_powerdown_requested 0
               (set_wakeup_reason QEMU_WAKEUP_REASON_NONE
                  (set_reset_requested 0 s)))) s')
    (fun f =>
       extern_stopped f \/
       (f = MutexHeld /\ vmstop_lock s = true) \/
       (exists cur, f = InvalidTransition cur RUN_STATE_PAUSED /\
                    nonzero (reset_requested s) = true)).
Proof.
  unfold main_loop_should_exit_rest.
  set (Q := fun f : failure => extern_stopped f \/ _).
  assert (Qx : forall f, extern_stopped f -> Q f) by (intros f H; left; exact H).
  (* reset *)
  eapply runs_det; [reflexivity |].
  eapply (runs_seq (fun _ s' => same_requests (set_reset_requested 0 s) s') Q).
  { destruct (nonzero (reset_requested s)) eqn:E; cbn [when].
    - apply (preserves_bind Q); [apply preserves_call; exact Qx | intros _].
      apply (preserves_bind Q); [apply preserves_call; exact Qx | intros _].
      apply (preserves_bind Q);
        [apply preserves_qemu_system_reset; exact Qx | intros _].
      apply (preserves_bind Q); [apply preserves_call; exact Qx | intros _].
      apply (preserves_bind Q);
        [apply preserves_runstate_needs_reset | intros nr].
      apply preserves_when. apply preserves_runstate_set; [reflexivity |].
      intro cur. right. right. exists cur. split; [reflexivity | first [exact E | reflexivity]].
    - apply same_requests_refl. }
  { auto. }
  intros ? s1 H1. cbv beta in H1.
  (* wakeup *)
  eapply runs_det; [reflexivity |].
  eapply (runs_seq
            (fun _ s' => same_requests
                           (set_wakeup_reason 0 (set_reset_requested 0 s)) s')
            Q).
  { destruct (nonzero (wakeup_reason s1)) eqn:E; cbn [when].
    - step_with (preserves_call Q Qx); [auto |].
      step_with (preserves_call Q Qx); [auto |].
      step_with (preserves_qemu_system_reset Q Qx); [auto |].
      eapply runs_det; [reflexivity |].
      step_with (preserves_call Q Qx); [auto |].
      eapply runs_det; [reflexivity |].
      step_with (preserves_call Q Qx); [auto |].
      eapply runs_weaken; [apply (preserves_call Q Qx) | | auto].
      intros; cbv beta in *. same_solve.
    - apply nonzero_false in E. unfold runs, ret. same_solve. }
  { auto. }
  intros ? s2 H2. cbv beta in H2.
  (* powerdown *)
  eapply runs_det; [reflexivity |].
  eapply (runs_seq
            (fun _ s' => same_requests
                           (set_powerdown_requested 0
                              (set_wakeup_reason 0 (set_reset_requested 0 s)))
                           s')
            Q).
  { eapply runs_weaken;
      [apply preserves_when, (preserves_qemu_system_powerdown Q Qx) | | auto].
    intros; cbv beta in *. same_solve. }
  { auto. }
  intros ? s3 H3. cbv beta in H3.
  (* vmstop *)
  unfold qemu_vmstop_requested, qemu_mutex_lock.
  apply runs_bind. unfold runs at 1, bind at 1.
  destruct (vmstop_lock s3) eqn:L.
  { unfold Q. right. left. split; [reflexivity |]. same_solve. }
  cbn.
  eapply (runs_seq
            (fun _ s' => same_requests
                           (set_vmstop_requested RUN_STATE_MAX
                              (set_powerdown_requested 0
                                 (set_wakeup_reason 0
                                    (set_reset_requested 0 s))))
                           s')
            Q).
  { eapply runs_weaken;
      [apply preserves_when, (preserves_call Q Qx) | | auto].
    intros; cbv beta in *. same_solve. }
  { auto. }
  intros ? s4 H4. cbv beta in H4.
  unfold runs, ret. split; [reflexivity | exact H4].
Qed.

Lemma pass_stopped_extern s (f : failure) :
  extern_stopped f -> pass_stopped s f.
Proof. destruct f; cbn; tauto. Qed.

(** What one pass does to the requests, when it returns [true], and how it
    can stop. *)
Lemma main_loop_should_exit_runs s :
  runs main_loop_should_exit s
    (fun b s' =>
       b = nonzero (shutdown_requested s) && negb (nonzero (no_shutdown s)) /\
       same_requests
         (if b then
            set_shutdown_requested 0
              (set_suspend_requested 0 (set_debug_requested 0 s))
          else
            set_vmstop_requested RUN_STATE_MAX
              (set_powerdown_requested 0
                 (set_wakeup_reason QEMU_WAKEUP_REASON_NONE
                    (set_reset_requested 0
                       (set_shutdown_requested 0
                          (set_suspend_requested 0
                             (set_debug_requested 0 s))))))) s')
    (pass_stopped s).
Proof.
  unfold main_loop_should_exit.
  pose proof (pass_stopped_extern s) as Qx.
  (* debug *)
  eapply runs_det; [reflexivity |].
  eapply (runs_seq (fun _ s' => same_requests (set_debug_requested 0 s) s')
                   (pass_stopped s)).
  { apply preserves_when, preserves_call, Qx. }
  { auto. }
  intros ? s1 H1. cbv beta in H1.
  (* suspend *)
  eapply runs_det; [reflexivity |].
  eapply (runs_seq
            (fun _ s' => same_requests
                           (set_suspend_requested 0 (set_debug_requested 0 s))
                           s')
            (pass_stopped s)).
  { destruct (nonzero (suspend_requested s1)) eqn:E; cbn [when].
    - assert (Es : nonzero (suspend_requested s) = true).
      { rewrite <- E. f_equal. symmetry. same_solve. }
      unfold qemu_system_suspend.
      step_with (preserves_call (pass_stopped s) Qx); [auto |].
      step_with (preserves_call (pass_stopped s) Qx); [auto |].
      assert (Hs : forall cur,
                 pass_stopped s (InvalidTransition cur RUN_STATE_SUSPENDED)).
      { intro cur. cbn. left. split; [reflexivity | exact Es]. }
      step_with (preserves_runstate_set (pass_stopped s)
                   RUN_STATE_SUSPENDED eq_refl Hs); [auto |].
      eapply runs_weaken; [apply (preserves_call (pass_stopped s) Qx) | | auto].
      intros; cbv beta in *. same_solve.
    - unfold runs, ret. same_solve. }
  { auto. }
  intros ? s2 H2. cbv beta in H2.
  (* shutdown *)
  eapply runs_det; [reflexivity |].
  assert (Esh : shutdown_requested s2 = shutdown_requested s) by same_solve.
  rewrite Esh.
  destruct (nonzero (shutdown_requested s)) eqn:E.
  - step_with (preserves_qemu_kill_report (pass_stopped s) Qx); [auto |].
    step_with (preserves_call (pass_stopped s) Qx); [auto |].
    eapply runs_det; [reflexivity |].
    match goal with
    | |- context [nonzero (no_shutdown ?x)] =>
        assert (Ens : no_shutdown x = no_shutdown s) by same_solve
    end.
    rewrite Ens.
    destruct (nonzero (no_shutdown s)) eqn:E2.
    + step_with (preserves_call (pass_stopped s) Qx); [auto |].
      eapply runs_weaken; [apply main_loop_should_exit_rest_runs | |].
      * intros b sf [-> Hsf]. split; [reflexivity |]. cbv iota. same_solve.
      * intros f [Hf | [[-> Hf] | [cur [-> Hf]]]].
        -- auto.
        -- cbn. rewrite <- Hf. symmetry. same_solve.
        -- cbn. right. split; [reflexivity |]. rewrite <- Hf. f_equal.
           symmetry. same_solve.
    + unfold runs, ret. split; [reflexivity |]. cbv iota. same_solve.
  - eapply runs_weaken; [apply main_loop_should_exit_rest_runs | |].
    + intros b sf [-> Hsf]. split; [reflexivity |]. cbv iota. same_solve.
    + intros f [Hf | [[-> Hf] | [cur [-> Hf]]]].
      * auto.
      * cbn. rewrite <- Hf. symmetry. same_solve.
      * cbn. right. split; [reflexivity |]. rewrite <- Hf. f_equal.
        symmetry. same_solve.
Qed.

(** [runstate_init] always returns, and installs the table; [runstate_set]
    keeps it installed. *)
Lemma runstate_init_builds s :
  exists s', runstate_init s = Ok tt s' /\ built_from_table s' /\
             current_run_state s' = current_run_state s.
Proof.
  eexists. split; [reflexivity |]. split; [| reflexivity].
  exists s. eexists. split; reflexivity.
Qed.

Lemma runstate_set_keeps_table s s' (new : RunState) :
  built_from_table s -> runstate_set new s = Ok tt s' -> built_from_table s'.
Proof.
  intros (s0 & s1 & Hi & Hm) H. exists s0, s1. split; [exact Hi |].
  unfold runstate_set, bind, get, modify, fail in H.
  destruct (negb (RunState_ltb new RUN_STATE_MAX)); [discriminate |].
  destruct (negb (runstate_valid_transitions s (current_run_state s) new));
    [discriminate |].
  injection H as <-. exact Hm.
Qed.

(** C1. With the matrix that [runstate_init] builds from the table: for a
    current state and a new state that are both run states, [runstate_set]
    succeeds and makes the new state current when the pair is in the table,
    and aborts with the invalid-transition diagnostic when it is not. *)
Theorem runstate_set_follows_table s (new : RunState) :
  built_from_table s ->
  RunState_ltb (current_run_state s) RUN_STATE_MAX = true ->
  RunState_ltb new RUN_STATE_MAX = true ->
  (In (mkTransition (current_run_state s) new) runstate_transitions_def ->
     runstate_set new s = Ok tt (set_current_run_state new s) /\
     current_run_state (set_current_run_state new s) = new /\
     runstate_check new (set_current_run_state new s)
       = Ok true (set_current_run_state new s)) /\
  (~ In (mkTransition (current_run_state s) new) runstate_transitions_def ->
     runstate_set new s
       = Stop (InvalidTransition (current_run_state s) new)).
Proof.
  intros [s0 [s1 [Hinit Hm]]] Hcur Hnew.
  assert (Hv : runstate_valid_transitions s (current_run_state s) new = true
               <-> In (mkTransition (current_run_state s) new)
                      runstate_transitions_def).
  { rewrite Hm. unfold runstate_init, bind, modify, qemu_mutex_init in Hinit.
    injection Hinit as <-. cbn [runstate_valid_transitions set_vmstop_lock
      set_runstate_valid_transitions].
    apply runstate_init_loop_table. exact Hcur. }
  unfold runstate_set, runstate_check, bind, get, modify, fail.
  rewrite Hnew. cbn [negb].
  split; intro Hin.
  - apply Hv in Hin. rewrite Hin. cbn.
    repeat split. f_equal. apply RunState_eqb_eq. reflexivity.
  - destruct (runstate_valid_transitions s (current_run_state s) new) eqn:E.
    + exfalso. apply Hin, Hv. reflexivity.
    + reflexivity.
Qed.

(** C2. In an iteration of the main loop (after [main_loop_wait] has
    returned), the pass over the requests returns [true] exactly when
    [shutdown_requested] was set and [no_shutdown] was not, whatever the other
    requests are; the loop returns in that iteration exactly in this case and
    goes on to the next iteration otherwise; a pass that does not return has
    stopped the process for one of the listed reasons. *)
Theorem main_loop_returns_iff_shutdown (fuel : nat) (last_io : Z) s s1
    (last_io' : Z) :
  main_loop_wait
    (negb (kvm_enabled (world s)) && negb (xen_enabled (world s))
     && negb (hax_enabled (world s)) && (0 <? last_io)) s = Ok last_io' s1 ->
  match main_loop_should_exit s1 with
  | Ok b s2 =>
      b = nonzero (shutdown_requested s1) && negb (nonzero (no_shutdown s1)) /\
      main_loop_do (S fuel) last_io s
        = (if b then Ok (Some tt) s2 else main_loop_do fuel last_io' s2)
  | Stop f =>
      pass_stopped s1 f /\ main_loop_do (S fuel) last_io s = Stop f
  end.
Proof.
  intro Hw.
  assert (Eq : main_loop_do (S fuel) last_io s
               = match main_loop_should_exit s1 with
                 | Ok e s2 =>
                     if e then Ok (Some tt) s2 else main_loop_do fuel last_io' s2
                 | Stop f => Stop f
                 end).
  { cbn [main_loop_do]. unfold bind, get. rewrite Hw.
    destruct (main_loop_should_exit s1) as [[] ?|]; reflexivity. }
  rewrite Eq.
  pose proof (main_loop_should_exit_runs s1) as H. unfold runs in H.
  destruct (main_loop_should_exit s1) as [b s2 | f].
  - destruct H as [Hb _]. split; [exact Hb | reflexivity].
  - split; [exact H | reflexivity].
Qed.

(** C3. After two requests in a row, for [t1] and then for the run state
    [t2], the first drain reports a pending request for [t2] and the next
    drain reports none. *)
Theorem vmstop_request_last_write_wins s sA (t1 t2 : RunState) :
  RunState_ltb t2 RUN_STATE_MAX = true ->
  bind qemu_system_vmstop_request_prepare (fun _ =>
  bind (qemu_system_vmstop_request t1) (fun _ =>
  bind qemu_system_vmstop_request_prepare (fun _ =>
  qemu_system_vmstop_request t2))) s = Ok tt sA ->
  exists sB,
    qemu_vmstop_requested sA = Ok (true, t2) sB /\
    exists sC, qemu_vmstop_requested sB = Ok (false, RUN_STATE_MAX) sC.
Proof.
  intros Ht2.
  unfold qemu_system_vmstop_request_prepare, qemu_system_vmstop_request,
    qemu_vmstop_requested, qemu_mutex_lock, qemu_mutex_unlock, call, call_int,
    bind, modify, get, ret.
  destruct (vmstop_lock s); [discriminate |].
  cbn.
  destruct (collab qemu_notify_event _ _) as [[[v r] w] |]; [| discriminate].
  cbn.
  destruct (collab qemu_notify_event _ _) as [[[v' r'] w'] |]; [| discriminate].
  intro H. injection H as <-. cbn. rewrite Ht2.
  eexists. split; [reflexivity |]. eexists. reflexivity.
Qed.

Lemma runs_both {A : Type} (m : M A) s
    (P P' : A -> vl_state -> Prop) (Q Q' : failure -> Prop) :
  runs m s P Q -> runs m s P' Q' ->
  runs m s (fun a s' => P a s' /\ P' a s') (fun f => Q f /\ Q' f).
Proof. unfold runs. destruct (m s); auto. Qed.

Lemma runs_known {A : Type} (m : M A) s (P : Prop) :
  P -> runs m s (fun _ _ => P) (fun _ => True).
Proof. unfold runs. destruct (m s); auto. Qed.

Lemma runs_bind_known {A B : Type} (m : M A) (k : A -> M B) s (P : Prop) :
  runs m s (fun _ _ => P) (fun _ => True) ->
  runs (bind m k) s (fun _ _ => P) (fun _ => True).
Proof.
  unfold runs, bind. destruct (m s) as [a s' |]; [| auto].
  intro H. destruct (k a s'); auto.
Qed.

(** What follows a call has the collaborator's return behind it. *)
Lemma runs_call_returned {B : Type} (c : extern) (k : unit -> M B) s
    (P : Prop) :
  ((exists r w res, collab c r w = Some res) -> P) ->
  runs (bind (call c) k) s (fun _ _ => P) (fun _ => True).
Proof.
  intro H. cbv [runs bind call call_int ret].
  destruct (collab c (current_run_state s) (world s)) as [[[v r] w] |] eqn:C;
    [| exact I].
  destruct (k tt _); [apply H; eauto | exact I].
Qed.

(** The tail of a pass does not come to its end, when a wakeup reason is
    pending, unless the wakeup notifiers return from the call that hands
    them that reason. *)
Lemma main_loop_should_exit_rest_notifies s :
  runs main_loop_should_exit_rest s
    (fun _ _ => nonzero (wakeup_reason s) = true ->
                wakeup_notified (wakeup_reason s))
    (fun _ => True).
Proof.
  unfold main_loop_should_exit_rest.
  set (Q := fun _ : failure => True).
  assert (Qx : forall f, extern_stopped f -> Q f) by (intros; exact I).
  (* reset *)
  eapply runs_det; [reflexivity |].
  eapply (runs_seq (fun _ s' => same_requests (set_reset_requested 0 s) s') Q).
  { destruct (nonzero (reset_requested s)) eqn:E; cbn [when].
    - apply (preserves_bind Q); [apply preserves_call; exact Qx | intros _].
      apply (preserves_bind Q); [apply preserves_call; exact Qx | intros _].
      apply (preserves_bind Q);
        [apply preserves_qemu_system_reset; exact Qx | intros _].
      apply (preserves_bind Q); [apply preserves_call; exact Qx | intros _].
      apply (preserves_bind Q);
        [apply preserves_runstate_needs_reset | intros nr].
      apply preserves_when. apply preserves_runstate_set; [reflexivity |].
      intro cur. exact I.
    - apply same_requests_refl. }
  { auto. }
  intros ? s1 H1. cbv beta in H1.
  (* wakeup *)
  eapply runs_det; [reflexivity |].
  assert (E1 : wakeup_reason s1 = wakeup_reason s) by same_solve.
  rewrite E1.
  destruct (nonzero (wakeup_reason s)) eqn:E; cbn [when].
  2:{ apply runs_known. discriminate. }
  apply runs_bind_known.
  step_with (preserves_call Q Qx); [auto |].
  step_with (preserves_call Q Qx); [auto |].
  step_with (preserves_qemu_system_reset Q Qx); [auto |].
  eapply runs_det; [reflexivity |].
  match goal with
  | |- context [notifier_list_notify wakeup_notifiers (Some (wakeup_reason ?x))] =>
      assert (E2 : wakeup_reason x = wakeup_reason s) by same_solve;
      rewrite E2
  end.
  apply runs_call_returned. intros H3 _. exact H3.
Qed.

(** The same for a whole pass that returns [false]. *)
Lemma main_loop_should_exit_notifies s :
  runs main_loop_should_exit s
    (fun b _ => b = false -> nonzero (wakeup_reason s) = true ->
                wakeup_notified (wakeup_reason s))
    (fun _ => True).
Proof.
  unfold main_loop_should_exit.
  set (Q := fun _ : failure => True).
  assert (Qx : forall f, extern_stopped f -> Q f) by (intros; exact I).
  assert (Hrest : forall s', wakeup_reason s' = wakeup_reason s ->
            runs main_loop_should_exit_rest s'
              (fun b _ => b = false -> nonzero (wakeup_reason s) = true ->
                          wakeup_notified (wakeup_reason s)) Q).
  { intros s' E.
    eapply runs_weaken; [apply main_loop_should_exit_rest_notifies | | auto].
    intros b sf H _. rewrite E in H. exact H. }
  (* debug *)
  eapply runs_det; [reflexivity |].
  eapply (runs_seq (fun _ s' => same_requests (set_debug_requested 0 s) s') Q).
  { apply preserves_when, preserves_call, Qx. }
  { auto. }
  intros ? s1 H1. cbv beta in H1.
  (* suspend *)
  eapply runs_det; [reflexivity |].
  eapply (runs_seq
            (fun _ s' => same_requests
                           (set_suspend_requested 0 (set_debug_requested 0 s))
                           s')
            Q).
  { destruct (nonzero (suspend_requested s1)) eqn:E; cbn [when].
    - unfold qemu_system_suspend.
      step_with (preserves_call Q Qx); [auto |].
      step_with (preserves_call Q Qx); [auto |].
      step_with (preserves_runstate_set Q RUN_STATE_SUSPENDED eq_refl
                   (fun _ => I)); [auto |].
      eapply runs_weaken; [apply (preserves_call Q Qx) | | auto].
      intros; cbv beta in *. same_solve.
    - unfold runs, ret. same_solve. }
  { auto. }
  intros ? s2 H2. cbv beta in H2.
  (* shutdown *)
  eapply runs_det; [reflexivity |].
  destruct (nonzero (shutdown_requested s2)) eqn:E.
  - step_with (preserves_qemu_kill_report Q Qx); [auto |].
    step_with (preserves_call Q Qx); [auto |].
    eapply runs_det; [reflexivity |].
    match goal with
    | |- context [nonzero (no_shutdown ?x)] =>
        destruct (nonzero (no_shutdown x)) eqn:E2
    end.
    + step_with (preserves_call Q Qx); [auto |].
      apply Hrest. same_solve.
    + unfold runs, ret. discriminate.
  - apply Hrest. same_solve.
Qed.

(** C4, as amended.  The drains of the debug, suspend, shutdown, reset and
    powerdown requests are read-and-clear.  [qemu_wakeup_requested] only
    reads: it returns the wakeup reason and changes nothing.  The reason is
    handled by the wakeup block of [main_loop_should_exit]: after a pass
    that does not leave the loop the reason is [QEMU_WAKEUP_REASON_NONE] and
    [qemu_wakeup_requested] returns it, and when a reason was pending at the
    start of the pass, the wakeup notifiers have returned from a call that
    handed them that reason, not [QEMU_WAKEUP_REASON_NONE]: with notifiers
    that do not return from such a call the pass does not come to its
    end. *)
Theorem drains_clear_and_loop_clears_wakeup :
  @read_and_clear World qemu_debug_requested debug_requested /\
  @read_and_clear World qemu_suspend_requested suspend_requested /\
  @read_and_clear World qemu_shutdown_requested shutdown_requested /\
  @read_and_clear World qemu_reset_requested reset_requested /\
  @read_and_clear World qemu_powerdown_requested powerdown_requested /\
  (forall s, qemu_wakeup_requested s = Ok (wakeup_reason s) s) /\
  (forall s,
     runs main_loop_should_exit s
       (fun b s' =>
          if b then True
          else wakeup_reason s' = QEMU_WAKEUP_REASON_NONE /\
               qemu_wakeup_requested s' = Ok QEMU_WAKEUP_REASON_NONE s' /\
               (nonzero (wakeup_reason s) = true ->
                wakeup_notified (wakeup_reason s)))
       (pass_stopped s)).
Proof.
  repeat split;
    try (intro s; eexists; split; [reflexivity |]; split; [reflexivity |];
         eexists; reflexivity).
  intro s.
  eapply runs_weaken;
    [apply (runs_both _ _ _ _ _ _ (main_loop_should_exit_runs s)
              (main_loop_should_exit_notifies s)) |
     | intros f [Hf _]; exact Hf].
  intros b s' [[_ H] Hn]. destruct b; [exact I |].
  assert (E : wakeup_reason s' = QEMU_WAKEUP_REASON_NONE) by same_solve.
  split; [exact E |]. split.
  - unfold qemu_wakeup_requested, get. rewrite E. reflexivity.
  - exact (Hn eq_refl).
Qed.

(** A variable is written, then two collaborators are called. *)
Lemma runs_modify_call2 (g : vl_state -> vl_state) (c1 c2 : extern) s :
  runs (bind (modify g) (fun _ => bind (call c1) (fun _ => call c2))) s
       (fun _ s' => same_requests (g s) s') extern_stopped.
Proof.
  eapply runs_det; [reflexivity |].
  step_with (preserves_call extern_stopped (fun f H => H)); [auto |].
  eapply runs_weaken;
    [apply (preserves_call extern_stopped (fun f H => H)) | | auto].
  intros; cbv beta in *. same_solve.
Qed.

(** C10. [qemu_system_reset_request] with [no_reboot] set raises
    [shutdown_requested] and leaves [reset_requested] as it was, and the next
    pass of the main loop then returns [true] unless [no_shutdown] is set;
    with [no_reboot] clear it raises [reset_requested] and leaves
    [shutdown_requested] as it was.  It returns whenever [cpu_stop_current]
    and [qemu_notify_event] do. *)
Theorem reset_request_honours_no_reboot s :
  runs qemu_system_reset_request s
    (fun _ s' =>
       if nonzero (no_reboot s) then
         shutdown_requested s' = 1 /\
         reset_requested s' = reset_requested s /\
         runs main_loop_should_exit s'
              (fun b _ => b = negb (nonzero (no_shutdown s)))
              (pass_stopped s')
       else
         reset_requested s' = 1 /\
         shutdown_requested s' = shutdown_requested s)
    extern_stopped.
Proof.
  unfold qemu_system_reset_request.
  eapply runs_det; [reflexivity |].
  destruct (nonzero (no_reboot s)) eqn:E.
  - eapply runs_weaken;
      [apply (runs_modify_call2 (set_shutdown_requested 1)) | | auto].
    intros ? s' H. cbv beta in H.
    assert (E1 : shutdown_requested s' = 1) by same_solve.
    assert (E2 : reset_requested s' = reset_requested s) by same_solve.
    assert (E3 : no_shutdown s' = no_shutdown s) by same_solve.
    repeat split; auto.
    eapply runs_weaken; [apply main_loop_should_exit_runs | | auto].
    intros b s'' [-> _]. rewrite E1, E3. reflexivity.
  - eapply runs_weaken;
      [apply (runs_modify_call2 (set_reset_requested 1)) | | auto].
    intros ? s' H. cbv beta in H. split; same_solve.
Qed.

End VlFacts.

Section VlInstances.

Import Vl.

(** The state after [runstate_init], at program start. *)
Local Abbreviation booted :=
  (set_vmstop_lock false
     (set_runstate_valid_transitions
        (runstate_init_loop runstate_transitions_def (fun _ _ => false))
        (initial_state tt))).

Lemma runstate_set_follows_table_witness :
  built_from_table booted /\
  runstate_set RUN_STATE_RUNNING booted
    = Ok tt (set_current_run_state RUN_STATE_RUNNING booted).
Proof.
  assert (Hb : built_from_table booted).
  { exists (initial_state tt), booted. split; reflexivity. }
  split; [exact Hb |].
  apply (proj1 (runstate_set_follows_table booted RUN_STATE_RUNNING
                  Hb eq_refl eq_refl)).
  simpl. tauto.
Defined.

Lemma main_loop_returns_iff_shutdown_witness :
  let s := set_shutdown_requested 1 booted in
  main_loop_do (collaborators := quiet_collaborators) 1 0 s
    = Ok (Some tt) (set_shutdown_requested 0 booted).
Proof.
  intro s.
  exact (proj2 (main_loop_returns_iff_shutdown
                  (collaborators := quiet_collaborators) 0 0 s s 0 eq_refl)).
Defined.

Lemma vmstop_request_last_write_wins_witness :
  exists sA sB sC,
    bind qemu_system_vmstop_request_prepare (fun _ =>
    bind (qemu_system_vmstop_request (collaborators := quiet_collaborators)
            RUN_STATE_PAUSED) (fun _ =>
    bind qemu_system_vmstop_request_prepare (fun _ =>
    qemu_system_vmstop_request (collaborators := quiet_collaborators)
      RUN_STATE_DEBUG))) booted = Ok tt sA /\
    qemu_vmstop_requested sA = Ok (true, RUN_STATE_DEBUG) sB /\
    qemu_vmstop_requested sB = Ok (false, RUN_STATE_MAX) sC.
Proof.
  destruct (vmstop_request_last_write_wins
              (collaborators := quiet_collaborators)
              booted (set_vmstop_requested RUN_STATE_DEBUG booted)
              RUN_STATE_PAUSED RUN_STATE_DEBUG eq_refl eq_refl)
    as [sB [HB [sC HC]]].
  exists (set_vmstop_requested RUN_STATE_DEBUG booted), sB, sC.
  split; [reflexivity |]. split; assumption.
Defined.

(** A suspend and a shutdown request pending together, in a running machine
    without [no_shutdown]: the pass makes the machine [RUN_STATE_SUSPENDED]
    and returns [true] all the same. *)
Example suspend_and_shutdown_same_pass :
  let s := set_suspend_requested 1
             (set_shutdown_requested 1
                (set_current_run_state RUN_STATE_RUNNING booted)) in
  exists s',
    main_loop_should_exit (collaborators := quiet_collaborators) s = Ok true s' /\
    current_run_state s' = RUN_STATE_SUSPENDED /\
    suspend_requested s' = 0 /\ shutdown_requested s' = 0.
Proof. eexists. vm_compute. repeat split. Qed.

(** The same requests in a paused machine: [runstate_set] refuses the
    transition to [RUN_STATE_SUSPENDED] and the process aborts. *)
Example suspend_in_paused_machine_aborts :
  let s := set_suspend_requested 1
             (set_shutdown_requested 1
                (set_current_run_state RUN_STATE_PAUSED booted)) in
  main_loop_should_exit (collaborators := quiet_collaborators) s
  = Stop (InvalidTransition RUN_STATE_PAUSED RUN_STATE_SUSPENDED).
Proof. vm_compute. reflexivity. Qed.

(** C4 as stated fails for the wakeup reason.  With the reason set to 1,
    [qemu_wakeup_requested] returns 1 and leaves it at 1, and returns 1
    again when repeated; so the six drains are not all read-and-clear. *)
Lemma wakeup_drain_does_not_clear :
  let s := set_wakeup_reason 1 (initial_state tt) in
  (qemu_wakeup_requested s = Ok 1 s /\ wakeup_reason s = 1) /\
  ~ (@read_and_clear unit qemu_debug_requested debug_requested /\
     @read_and_clear unit qemu_suspend_requested suspend_requested /\
     @read_and_clear unit qemu_shutdown_requested shutdown_requested /\
     @read_and_clear unit qemu_reset_requested reset_requested /\
     @read_and_clear unit qemu_wakeup_requested wakeup_reason /\
     @read_and_clear unit qemu_powerdown_requested powerdown_requested).
Proof.
  intro s. split; [split; reflexivity |].
  intros (_ & _ & _ & _ & H & _).
  destruct (H s) as [s' [E [Z _]]].
  cbv [qemu_wakeup_requested get] in E.
  injection E as <-. discriminate Z.
Qed.

End VlInstances.


(* ===================================================================== *)
(** ** Properties of the memory map and of the board construction        *)
(* ===================================================================== *)

Section RanchuFacts.
Import Ranchu.

Local Notation "x <- m ;; k" := (bind m (fun x => k))
  (at level 61, m at next level, right associativity).
Local Notation "m ;; k" := (bind m (fun _ => k))
  (at level 61, right associativity).

(** C5, as amended.  Leaving aside [RANCHU_CPUPERIPHS], the ranges of every
    two distinct slots are disjoint; the range of [RANCHU_CPUPERIPHS] is
    disjoint from every other one except those of [RANCHU_GIC_DIST] and
    [RANCHU_GIC_CPU], which lie inside it. *)
Theorem memmap_disjoint_but_gic_in_cpuperiphs (i j : slot) :
  i <> j ->
  (i <> RANCHU_CPUPERIPHS -> j <> RANCHU_CPUPERIPHS ->
     ranges_disjoint (memmap i) (memmap j)) /\
  (i = RANCHU_CPUPERIPHS -> j <> RANCHU_GIC_DIST -> j <> RANCHU_GIC_CPU ->
     ranges_disjoint (memmap i) (memmap j)) /\
  range_inside (memmap RANCHU_GIC_DIST) (memmap RANCHU_CPUPERIPHS) /\
  range_inside (memmap RANCHU_GIC_CPU) (memmap RANCHU_CPUPERIPHS).
Proof.
  intro Hij.
  assert (In1 : range_inside (memmap RANCHU_GIC_DIST) (memmap RANCHU_CPUPERIPHS))
    by (unfold range_inside, range_end; cbn; lia).
  assert (In2 : range_inside (memmap RANCHU_GIC_CPU) (memmap RANCHU_CPUPERIPHS))
    by (unfold range_inside, range_end; cbn; lia).
  repeat split; try assumption;
    destruct i, j; intros; try congruence;
    unfold ranges_disjoint, range_end; cbn; lia.
Qed.

(** The 32 transports together, of which the [RANCHU_MMIO] entry gives the
    first, stay clear of every other entry. *)
Lemma virtio_array_disjoint (j : slot) :
  j <> RANCHU_MMIO -> ranges_disjoint virtio_array (memmap j).
Proof.
  intro H. destruct j; try congruence;
    unfold ranges_disjoint, range_end; cbn; lia.
Qed.

(** C9.  [create_virtio_devices] first puts the 32 transports on the bus,
    transport [i] at [memmap[RANCHU_MMIO].base + i * memmap[RANCHU_MMIO].size]
    with line [irqmap[RANCHU_MMIO] + i], for [i] from 0 up, hence at strictly
    ascending addresses; only then does it add their 32 nodes, for [i] from 31
    down, each with the same address in [reg] and the same line in
    [interrupts], hence at strictly descending addresses. *)
Theorem virtio_devices_ascending_nodes_descending (b : board) :
  let t := fst (create_virtio_devices b) in
  snd (create_virtio_devices b) = Done tt b /\
  firstn 32 t
    = map (fun i => sysbus_create_simple "virtio-mmio" (virtio_base i)
                      (virtio_irq i))
          (range_up NUM_VIRTIO_TRANSPORTS) /\
  sysbus_devices (skipn 32 t) = [] /\
  subnodes (firstn 32 t) = [] /\
  subnodes t = map virtio_nodename (range_down NUM_VIRTIO_TRANSPORTS) /\
  fdt_regs t
    = map (fun i => (virtio_nodename i, virtio_base i))
          (range_down NUM_VIRTIO_TRANSPORTS) /\
  fdt_interrupts t
    = map (fun i => (virtio_nodename i,
                     [GIC_FDT_IRQ_TYPE_SPI; virtio_irq i;
                      GIC_FDT_IRQ_FLAGS_EDGE_LO_HI]))
          (range_down NUM_VIRTIO_TRANSPORTS) /\
  strictly_ascending (map (fun d => snd (fst d)) (sysbus_devices t)) = true /\
  strictly_descending (map snd (fdt_regs t)) = true.
Proof.
  repeat split; vm_compute; reflexivity.
Qed.

Lemma bind_done {A C : Type} (m : B A) (k : A -> B C) b t a b' :
  m b = (t, Done a b') ->
  bind m k b = (t ++ fst (k a b'), snd (k a b')).
Proof. unfold bind. intros ->. destruct (k a b'); reflexivity. Qed.

Lemma bind_exit {A C : Type} (m : B A) (k : A -> B C) b t st :
  m b = (t, Exit st) -> bind m k b = (t, Exit st).
Proof. unfold bind. intros ->. reflexivity. Qed.

Lemma bind_crash {A C : Type} (m : B A) (k : A -> B C) b t :
  m b = (t, Crash) -> bind m k b = (t, Crash).
Proof. unfold bind. intros ->. reflexivity. Qed.

Lemma fst_bind {A C : Type} (m : B A) (k : A -> B C) b :
  fst (bind m k b)
  = fst (m b) ++ match snd (m b) with
                 | Done a b' => fst (k a b')
                 | Exit _ => []
                 | Crash => []
                 end.
Proof.
  unfold bind. destruct (m b) as [t [a b' | st |]]; cbn.
  - destruct (k a b'); reflexivity.
  - symmetry. apply app_nil_r.
  - symmetry. apply app_nil_r.
Qed.

Lemma range_up_nonpos (n : Z) : n <= 0 -> range_up n = [].
Proof.
  intro H. unfold range_up. replace (Z.to_nat n) with 0%nat by lia. reflexivity.
Qed.

Lemma range_up_In (n i : Z) : In i (range_up n) <-> 0 <= i < n.
Proof.
  unfold range_up. rewrite in_map_iff. split.
  - intros [k [<- Hk]]. apply in_seq in Hk. lia.
  - intros H. exists (Z.to_nat i). split; [lia |]. apply in_seq. lia.
Qed.

Lemma range_up_length (n : Z) : List.length (range_up n) = Z.to_nat n.
Proof. unfold range_up. rewrite length_map, length_seq. reflexivity. Qed.

Lemma range_down_snoc (n : Z) : 0 < n -> exists l, range_down n = l ++ [0].
Proof.
  intro H. unfold range_down, range_up.
  destruct (Z.to_nat n) as [| k] eqn:E; [lia |].
  cbn [seq map rev]. eexists. reflexivity.
Qed.

(** *** Steps that only make calls *)

Lemma no_cpu_calls_nil : no_cpu_calls [].
Proof. repeat split. Qed.

Lemma no_cpu_calls_app (t1 t2 : list call) :
  no_cpu_calls t1 -> no_cpu_calls t2 -> no_cpu_calls (t1 ++ t2).
Proof.
  unfold no_cpu_calls, cpu_objects, powered_off, cpu_nodes, subnodes.
  intros (A1 & B1 & C1) (A2 & B2 & C2).
  rewrite !flat_map_app, filter_app, A1, A2, B1, B2, C1, C2. repeat split.
Qed.

Lemma harmless_ret {A : Type} (a : A) : harmless (ret a).
Proof. intro b. apply no_cpu_calls_nil. Qed.

Lemma harmless_bind {A C : Type} (m : B A) (k : A -> B C) :
  harmless m -> (forall a, harmless (k a)) -> harmless (bind m k).
Proof.
  intros Hm Hk b. rewrite fst_bind. apply no_cpu_calls_app; [apply Hm |].
  destruct (snd (m b)); [apply Hk | apply no_cpu_calls_nil ..].
Qed.

Lemma harmless_emit (c : call) : no_cpu_calls [c] -> harmless (emit c).
Proof. intros H b. exact H. Qed.

Lemma harmless_exit {A : Type} (st : Z) : harmless (@exit A st).
Proof. intro b. apply no_cpu_calls_nil. Qed.

Lemma harmless_when (c : bool) (m : B unit) : harmless m -> harmless (when c m).
Proof. destruct c; cbn [when]; auto using @harmless_ret. Qed.

Lemma harmless_for_each (l : list Z) (body : Z -> B unit) :
  (forall i, harmless (body i)) -> harmless (for_each l body).
Proof.
  intro H. induction l as [| i l IH]; cbn [for_each].
  - apply harmless_ret.
  - apply harmless_bind; auto.
Qed.

Lemma returns_ret {A : Type} (a : A) : returns (ret a).
Proof. intro b. exists a, b. split; reflexivity. Qed.

Lemma returns_bind {A C : Type} (m : B A) (k : A -> B C) :
  returns m -> (forall a, returns (k a)) -> returns (bind m k).
Proof.
  intros Hm Hk b. destruct (Hm b) as [a [b1 [E1 P1]]].
  destruct (Hk a b1) as [c [b2 [E2 P2]]].
  exists c, b2. unfold bind. destruct (m b) as [t o]. cbn in E1. subst o.
  destruct (k a b1) as [t' o']. cbn in E2. subst o'. cbn.
  split; [reflexivity | congruence].
Qed.

Lemma returns_emit (c : call) : returns (emit c).
Proof. intro b. exists tt, b. split; reflexivity. Qed.

Lemma returns_when (c : bool) (m : B unit) : returns m -> returns (when c m).
Proof. destruct c; cbn [when]; auto using @returns_ret. Qed.

Lemma returns_for_each (l : list Z) (body : Z -> B unit) :
  (forall i, returns (body i)) -> returns (for_each l body).
Proof.
  intro H. induction l as [| i l IH]; cbn [for_each].
  - apply returns_ret.
  - apply returns_bind; auto.
Qed.

Lemma returns_get_vbi : returns get_vbi.
Proof. intro b. exists (vbi b), b. split; reflexivity. Qed.

Lemma returns_set_vbi (v : VirtBoardInfo) : returns (set_vbi v).
Proof. intro b. eexists tt, _. split; reflexivity. Qed.

Lemma returns_alloc_phandle : returns qemu_fdt_alloc_phandle.
Proof. intro b. eexists _, _. split; reflexivity. Qed.

Lemma harmless_get_vbi : harmless get_vbi.
Proof. intro b. apply no_cpu_calls_nil. Qed.

Lemma harmless_set_vbi (v : VirtBoardInfo) : harmless (set_vbi v).
Proof. intro b. apply no_cpu_calls_nil. Qed.

Lemma harmless_alloc_phandle : harmless qemu_fdt_alloc_phandle.
Proof. intro b. apply no_cpu_calls_nil. Qed.

(** Straight-line construction code: every call it makes is looked at. *)
Ltac harmless_block :=
  repeat (first [ apply harmless_get_vbi
                | apply harmless_set_vbi
                | apply harmless_alloc_phandle
                | apply harmless_ret
                | apply harmless_exit
                | apply harmless_emit; repeat split; reflexivity
                | apply harmless_when
                | apply harmless_for_each; intro
                | apply harmless_bind; [| intro ]
                | match goal with
                  | |- harmless (if ?c then _ else _) => destruct c
                  | |- harmless (let '(_, _) := ?p in _) => destruct p
                  end ]).

Ltac returns_block :=
  repeat (first [ apply returns_get_vbi
                | apply returns_set_vbi
                | apply returns_alloc_phandle
                | apply returns_ret
                | apply returns_emit
                | apply returns_when
                | apply returns_for_each; intro
                | apply returns_bind; [| intro ]
                | match goal with
                  | |- returns (if ?c then _ else _) => destruct c
                  | |- returns (let '(_, _) := ?p in _) => destruct p
                  end ]).

Lemma harmless_create_gic (env : Env) : harmless (create_gic env).
Proof. unfold create_gic, fdt_add_gic_node. harmless_block. Qed.

Lemma returns_create_gic (env : Env) : returns (create_gic env).
Proof. unfold create_gic, fdt_add_gic_node. returns_block. Qed.

Lemma returns_create_simple_device devid name compat n clocks nc :
  returns (create_simple_device devid name compat n clocks nc).
Proof. unfold create_simple_device. returns_block. Qed.

Lemma harmless_create_virtio_devices : harmless create_virtio_devices.
Proof. intro b. repeat split; vm_compute; reflexivity. Qed.

Lemma returns_create_virtio_devices : returns create_virtio_devices.
Proof. unfold create_virtio_devices. returns_block. Qed.

Lemma harmless_console_loop (env : Env) (tries : nat) (port : Z) :
  harmless (initialize_console_and_adb_loop env tries port).
Proof.
  revert port. induction tries as [| n IH]; intro port;
    cbn [initialize_console_and_adb_loop];
    unfold try_to_create_console_chardev, set_android_base_port.
  - harmless_block.
  - harmless_block; try apply IH; intro; apply no_cpu_calls_nil.
Qed.


Lemma harmless_initialize_console_and_adb (env : Env) :
  harmless (initialize_console_and_adb env).
Proof.
  unfold initialize_console_and_adb. apply harmless_bind.
  - intro b. apply no_cpu_calls_nil.
  - intro port. apply harmless_console_loop.
Qed.

(** *** The steps of [ranchu_init] one by one *)

Lemma for_each_run (T : Z -> list call) (body : Z -> B unit) (l : list Z) b :
  (forall i, body i b = (T i, Done tt b)) ->
  for_each l body b = (flat_map T l, Done tt b).
Proof.
  intro H. induction l as [| i l IH]; cbn [for_each flat_map].
  - reflexivity.
  - rewrite (bind_done _ _ _ _ _ _ (H i)), IH. reflexivity.
Qed.

Lemma create_fdt_run (env : Env) b :
  create_device_tree_ok env = true ->
  kvm_enabled env = false ->
  exists t,
    create_fdt env b
    = (create_device_tree :: t,
       Done tt (mkBoard (mkVbi (bootinfo (vbi b)) (vbi_smp_cpus (vbi b)) true
                               (next_phandle b))
                        (next_phandle b + 1) (android_base_port b))) /\
    no_cpu_calls t.
Proof.
  intros Hok K. unfold create_fdt.
  rewrite (bind_done _ _ _ _ _ _ (eq_refl : emit create_device_tree b = _)).
  rewrite Hok, K. cbn [negb].
  unfold bind, when; cbn.
  eexists; split; [reflexivity | repeat split; reflexivity].
Qed.

(** Under KVM [create_fdt] adds [/psci] and is killed by the read of
    [armcpu->psci_version] that follows. *)
Lemma create_fdt_kvm (env : Env) b :
  create_device_tree_ok env = true ->
  kvm_enabled env = true ->
  create_fdt env b = (Wiring.create_fdt_calls_kvm (next_phandle b), Crash).
Proof.
  intros Hok K. unfold create_fdt.
  rewrite (bind_done _ _ _ _ _ _ (eq_refl : emit create_device_tree b = _)).
  rewrite Hok, K. cbn [negb].
  unfold bind, when; cbn. reflexivity.
Qed.

Lemma create_fdt_fails (env : Env) b :
  create_device_tree_ok env = false ->
  create_fdt env b
  = ([create_device_tree; error_report "create_device_tree() failed"], Exit 1).
Proof. intro H. unfold create_fdt, bind. cbn. rewrite H. reflexivity. Qed.

Lemma fdt_add_timer_nodes_run (env : Env) b :
  exists t, fdt_add_timer_nodes env b = (t, Done tt b) /\ no_cpu_calls t.
Proof. eexists. split; [reflexivity | repeat split; reflexivity]. Qed.

Lemma cpu_calls_readings (env : Env) (oc : string) (l : list Z) :
  cpu_objects (flat_map (cpu_calls env oc) l) = map (fun _ => oc) l /\
  powered_off (flat_map (cpu_calls env oc) l) = filter (fun n => n >? 0) l /\
  cpu_nodes (flat_map (cpu_calls env oc) l) = [].
Proof.
  induction l as [| n l (IH1 & IH2 & IH3)]; [repeat split |].
  unfold cpu_objects, powered_off, cpu_nodes, subnodes in *.
  cbn [flat_map map filter]. rewrite !flat_map_app, filter_app.
  rewrite IH1, IH2, IH3. unfold cpu_calls.
  destruct (n >? 0); destruct (object_property_find env oc "reset-cbar");
    repeat split.
Qed.

Lemma fdt_add_cpu_nodes_run (env : Env) b :
  exists t,
    fdt_add_cpu_nodes env b = (t, Done tt b) /\
    cpu_objects t = [] /\ powered_off t = [] /\
    subnodes t
    = "/cpus"%string :: map cpu_nodename (range_down (vbi_smp_cpus (vbi b))).
Proof.
  unfold fdt_add_cpu_nodes.
  set (n := vbi_smp_cpus (vbi b)).
  set (T := fun cpu : Z =>
      [ qemu_fdt_add_subnode (cpu_nodename cpu);
        qemu_fdt_setprop_string (cpu_nodename cpu) "device_type" "cpu";
        qemu_fdt_setprop_string (cpu_nodename cpu) "compatible"
          (dtb_compatible env cpu) ]
      ++ (if n >? 1
          then [qemu_fdt_setprop_string (cpu_nodename cpu) "enable-method"
                  "psci"]
          else [])
      ++ [qemu_fdt_setprop_cell (cpu_nodename cpu) "reg" cpu]).
  exists ([ qemu_fdt_add_subnode "/cpus";
            qemu_fdt_setprop_cell "/cpus" "#address-cells" 1;
            qemu_fdt_setprop_cell "/cpus" "#size-cells" 0 ]
          ++ flat_map T (range_down n)).
  split; [| split; [| split]].
  - rewrite (bind_done _ _ _ _ _ _ (eq_refl : get_vbi b = _)).
    rewrite (bind_done _ _ _ _ _ _ (eq_refl : emit _ b = _)).
    rewrite (bind_done _ _ _ _ _ _ (eq_refl : emit _ b = _)).
    rewrite (bind_done _ _ _ _ _ _ (eq_refl : emit _ b = _)).
    cbn [app fst snd].
    rewrite (for_each_run T); [reflexivity |].
    intro i. subst T. cbv beta. fold n. destruct (n >? 1); reflexivity.
  - unfold cpu_objects. cbn [app flat_map].
    induction (range_down n) as [| i l IH]; [reflexivity |].
    cbn [flat_map]. rewrite flat_map_app, IH. subst T. cbv beta.
    destruct (n >? 1); reflexivity.
  - unfold powered_off. cbn [app flat_map].
    induction (range_down n) as [| i l IH]; [reflexivity |].
    cbn [flat_map]. rewrite flat_map_app, IH. subst T. cbv beta.
    destruct (n >? 1); reflexivity.
  - unfold subnodes. cbn [app flat_map]. f_equal.
    induction (range_down n) as [| i l IH]; [reflexivity |].
    cbn [flat_map map]. rewrite flat_map_app, IH. subst T. cbv beta.
    destruct (n >? 1); reflexivity.
Qed.

Lemma cpu_nodes_of_cpus (l : list Z) :
  filter (String.prefix "/cpus/") ("/cpus"%string :: map cpu_nodename l)
  = map cpu_nodename l.
Proof.
  cbn [filter]. change (String.prefix "/cpus/" "/cpus") with false. cbv iota.
  induction l as [| i l IH]; [reflexivity |].
  cbn [map filter].
  change (String.prefix "/cpus/" (cpu_nodename i)) with true. cbv iota.
  rewrite IH. reflexivity.
Qed.


(** The CPU loop, when the class of the model is found. *)
Lemma cpu_loop_run (env : Env) (model oc : string) (l : list Z) b :
  (l <> [] -> cpu_class_by_name env model = Some oc) ->
  for_each l (fun n =>
      match cpu_class_by_name env model with
      | None =>
          bind (emit (fprintf_stderr
                        ("Unable to find CPU definition" ++ nl)%string))
               (fun _ => exit 1)
      | Some oc =>
          bind (emit (object_new oc)) (fun _ =>
          bind (when (n >? 0)
                  (emit (object_property_set_bool n true "start-powered-off")))
               (fun _ =>
          bind (when (object_property_find env oc "reset-cbar")
                  (emit (object_property_set_int n
                           (base (memmap RANCHU_CPUPERIPHS)) "reset-cbar")))
               (fun _ =>
          emit (object_property_set_bool n true "realized"))))
      end) b
  = (flat_map (cpu_calls env oc) l, Done tt b).
Proof.
  intro H. destruct l as [| i l]; [reflexivity |].
  rewrite H by discriminate.
  apply for_each_run. intro n. unfold cpu_calls.
  destruct (n >? 0); destruct (object_property_find env oc "reset-cbar");
    reflexivity.
Qed.

Lemma returns_then (m : B unit) (k : unit -> B unit) (p0 : Z)
    (Q : board -> Prop) :
  returns m ->
  (forall b, android_base_port b = p0 ->
             exists b', snd (k tt b) = Done tt b' /\ Q b') ->
  forall b, android_base_port b = p0 ->
            exists b', snd (bind m k b) = Done tt b' /\ Q b'.
Proof.
  intros Hm Hk b Hp. destruct (Hm b) as [[] [b1 [E P]]].
  destruct (Hk b1 ltac:(congruence)) as [b2 [E2 HQ]].
  exists b2. split; [| exact HQ].
  unfold bind. destruct (m b) as [t o]. cbn in E. subst o.
  destruct (k tt b1) as [t' o']. exact E2.
Qed.

Lemma initialize_console_and_adb_loop_first (env : Env) (n : nat) (port : Z) b :
  console_chardev_ok env port = true ->
  adb_server_ok env (port + 1) = true ->
  exists t,
    initialize_console_and_adb_loop env (S n) port b
    = (t, Done tt (mkBoard (vbi b) (next_phandle b) port)).
Proof.
  intros Hc Ha. cbn [initialize_console_and_adb_loop].
  unfold try_to_create_console_chardev, bind. cbn. rewrite Hc. cbn.
  rewrite Ha. cbn. eexists. reflexivity.
Qed.

Lemma initialize_console_and_adb_run (env : Env) b :
  console_chardev_ok env (first_console_port b) = true ->
  adb_server_ok env (first_console_port b + 1) = true ->
  exists t,
    initialize_console_and_adb env b
    = (t, Done tt (mkBoard (vbi b) (next_phandle b) (first_console_port b))).
Proof.
  intros Hc Ha. unfold initialize_console_and_adb.
  change (Z.to_nat MAX_ANDROID_EMULATORS) with (S 63).
  rewrite (bind_done _ _ _ _ _ _ (eq_refl : get_android_base_port b = _)).
  fold (first_console_port b).
  destruct (initialize_console_and_adb_loop_first env 63 _ b Hc Ha) as [t E].
  rewrite E. eexists. reflexivity.
Qed.

(** What follows the CPU nodes in [ranchu_init]. *)
Lemma ranchu_init_tail_run (env : Env) (machine : MachineState) b :
  let info := mkBootInfo (ram_size machine)
                         (machine_kernel_filename machine)
                         (machine_kernel_cmdline machine)
                         (machine_initrd_filename machine)
                         (smp_cpus env) (-1)
                         (base (memmap RANCHU_MEM)) in
  let tail :=
    emit (memory_region_init_ram "ranchu.ram" (ram_size machine)) ;;
    emit vmstate_register_ram_global ;;
    emit (memory_region_add_subregion (base (memmap RANCHU_MEM))) ;;

    create_gic env ;;
    create_simple_device RANCHU_UART "pl011"
      ["arm,pl011"; "arm,primecell"]%string 2
      ["uartclk"; "apb_pclk"]%string 2 ;;
    create_simple_device RANCHU_GF_FB "goldfish_fb"
      ["generic,goldfish-fb"%string] 1 [] 0 ;;
    create_simple_device RANCHU_GF_BATTERY "goldfish_battery"
      ["generic,goldfish-battery"%string] 1 [] 0 ;;
    create_simple_device RANCHU_GF_AUDIO "goldfish_audio"
      ["generic,goldfish-audio"%string] 1 [] 0 ;;
    create_simple_device RANCHU_GF_EVDEV "goldfish-events"
      ["generic,goldfish-events-keypad"%string] 1 [] 0 ;;
    create_simple_device RANCHU_ANDROID_PIPE "android_pipe"
      ["generic,android-pipe"%string] 1 [] 0 ;;
    create_virtio_devices ;;
    initialize_console_and_adb env ;;
    v <- get_vbi ;;
    set_vbi (mkVbi (Some info) (vbi_smp_cpus v) (fdt v) (clock_phandle v)) ;;
    emit (arm_load_kernel info) in
  exists t o,
    tail b = (memory_region_init_ram "ranchu.ram" (ram_size machine) :: t, o) /\
    no_cpu_calls t /\
    (console_chardev_ok env (first_console_port b) = true ->
     adb_server_ok env (first_console_port b + 1) = true ->
     exists b', o = Done tt b' /\ bootinfo (vbi b') = Some info).
Proof.
  intros info tail.
  assert (Hh : harmless tail).
  { subst tail.
    repeat lazymatch goal with
      | |- harmless (bind _ _) => apply harmless_bind; [| intro ]
      | |- harmless (emit _) => apply harmless_emit; repeat split; reflexivity
      | |- harmless (create_gic _) => apply harmless_create_gic
      | |- harmless create_virtio_devices =>
          apply harmless_create_virtio_devices
      | |- harmless (initialize_console_and_adb _) =>
          apply harmless_initialize_console_and_adb
      | |- harmless get_vbi => apply harmless_get_vbi
      | |- harmless (set_vbi _) => apply harmless_set_vbi
      | |- harmless (create_simple_device _ _ _ _ _ _) =>
          intro; repeat split; vm_compute; reflexivity
      end. }
  specialize (Hh b).
  subst tail.
  rewrite (bind_done _ _ _ _ _ _ (eq_refl : emit _ b = _)) in *.
  cbn [app fst] in Hh.
  eexists _, _. split; [reflexivity |]. split.
  { destruct Hh as (A1 & A2 & A3). repeat split; assumption. }
  intros Hc Ha.
  enough (G : forall b0, android_base_port b0 = android_base_port b ->
            exists b', snd
              ((emit vmstate_register_ram_global ;;
                emit (memory_region_add_subregion (base (memmap RANCHU_MEM))) ;;
                create_gic env ;;
                create_simple_device RANCHU_UART "pl011"
                  ["arm,pl011"; "arm,primecell"]%string 2
                  ["uartclk"; "apb_pclk"]%string 2 ;;
                create_simple_device RANCHU_GF_FB "goldfish_fb"
                  ["generic,goldfish-fb"%string] 1 [] 0 ;;
                create_simple_device RANCHU_GF_BATTERY "goldfish_battery"
                  ["generic,goldfish-battery"%string] 1 [] 0 ;;
                create_simple_device RANCHU_GF_AUDIO "goldfish_audio"
                  ["generic,goldfish-audio"%string] 1 [] 0 ;;
                create_simple_device RANCHU_GF_EVDEV "goldfish-events"
                  ["generic,goldfish-events-keypad"%string] 1 [] 0 ;;
                create_simple_device RANCHU_ANDROID_PIPE "android_pipe"
                  ["generic,android-pipe"%string] 1 [] 0 ;;
                create_virtio_devices ;;
                initialize_console_and_adb env ;;
                v <- get_vbi ;;
                set_vbi (mkVbi (Some info) (vbi_smp_cpus v) (fdt v)
                               (clock_phandle v)) ;;
                emit (arm_load_kernel info)) b0) = Done tt b' /\
              bootinfo (vbi b') = Some info).
  { exact (G b eq_refl). }
  repeat lazymatch goal with
    | |- forall b0, _ -> exists b', snd (bind (initialize_console_and_adb _) _ b0) = _ /\ _ =>
        fail
    | |- forall b0, _ -> exists b', snd (bind _ _ b0) = _ /\ _ =>
        apply returns_then;
        [ lazymatch goal with
          | |- returns (emit _) => apply returns_emit
          | |- returns (create_gic _) => apply returns_create_gic
          | |- returns (create_simple_device _ _ _ _ _ _) =>
              apply returns_create_simple_device
          | |- returns create_virtio_devices =>
              apply returns_create_virtio_devices
          end |]
    end.
  intros b0 Hp.
  assert (Hf : first_console_port b0 = first_console_port b)
    by (unfold first_console_port; rewrite Hp; reflexivity).
  destruct (initialize_console_and_adb_run env b0) as [t E];
    [rewrite Hf; exact Hc | rewrite Hf; exact Ha |].
  rewrite (bind_done _ _ _ _ _ _ E). cbn [snd].
  eexists. split; reflexivity.
Qed.

(** [ranchu_init] when the RAM fits, the device tree is allocated and the
    CPU class is found: the calls it makes, in order, and how it ends. *)
Lemma ranchu_init_run (env : Env) (machine : MachineState) (oc : string) b :
  ram_size machine <= size (memmap RANCHU_MEM) ->
  create_device_tree_ok env = true ->
  kvm_enabled env = false ->
  (0 < smp_cpus env ->
   cpu_class_by_name env (chosen_cpu_model machine) = Some oc) ->
  exists t1 t2 t3 o,
    ranchu_init env machine b
    = (create_device_tree :: t1
         ++ flat_map (cpu_calls env oc) (range_up (smp_cpus env))
         ++ t2
         ++ memory_region_init_ram "ranchu.ram" (ram_size machine) :: t3, o) /\
    no_cpu_calls t1 /\
    (cpu_objects t2 = [] /\ powered_off t2 = [] /\
     subnodes t2
     = "/cpus"%string :: map cpu_nodename (range_down (smp_cpus env))) /\
    no_cpu_calls t3 /\
    (console_chardev_ok env (first_console_port b) = true ->
     adb_server_ok env (first_console_port b + 1) = true ->
     exists b',
       o = Done tt b' /\
       bootinfo (vbi b')
       = Some (mkBootInfo (ram_size machine)
                          (machine_kernel_filename machine)
                          (machine_kernel_cmdline machine)
                          (machine_initrd_filename machine)
                          (smp_cpus env) (-1) (base (memmap RANCHU_MEM)))).
Proof.
  intros Hram Hfdt Hkvm Hcpu. unfold ranchu_init.
  rewrite (bind_done _ _ _ _ _ _ (eq_refl : set_vbi _ b = _)).
  replace (ram_size machine >? size (memmap RANCHU_MEM)) with false
    by (symmetry; rewrite Z.gtb_ltb; apply Z.ltb_ge; exact Hram).
  set (b0 := mkBoard (mkVbi None (smp_cpus env) false 0) (next_phandle b)
                     (android_base_port b)).
  destruct (create_fdt_run env b0 Hfdt Hkvm) as (tf & Ef & Hf).
  rewrite (bind_done _ _ _ _ _ _ Ef).
  match type of Ef with _ = (_, Done tt ?x) => set (b1 := x) in * end.
  destruct (fdt_add_timer_nodes_run env b1) as (tt' & Et & Ht).
  rewrite (bind_done _ _ _ _ _ _ Et).
  assert (Hc' : range_up (smp_cpus env) <> [] ->
                cpu_class_by_name env (chosen_cpu_model machine) = Some oc).
  { intro Hne. apply Hcpu.
    destruct (Z_lt_le_dec 0 (smp_cpus env)) as [| Hle]; [assumption |].
    rewrite (range_up_nonpos _ Hle) in Hne. contradiction. }
  rewrite (bind_done _ _ _ _ _ _
             (cpu_loop_run env (chosen_cpu_model machine) oc _ b1 Hc')).
  destruct (fdt_add_cpu_nodes_run env b1) as (tn & En & Hn1 & Hn2 & Hn3).
  rewrite (bind_done _ _ _ _ _ _ En).
  destruct (ranchu_init_tail_run env machine b1) as (t3 & o & E3 & H3 & Hend).
  cbv zeta in E3. rewrite E3. cbn [fst snd].
  exists (tf ++ tt'), tn, t3, o.
  split; [| split; [| split; [| split]]].
  - cbn [app]. rewrite <- !app_assoc. reflexivity.
  - apply no_cpu_calls_app; assumption.
  - repeat split; assumption.
  - exact H3.
  - exact Hend.
Qed.


Lemma in_subnodes (p : string) (t : list call) :
  In p (subnodes t) -> In (qemu_fdt_add_subnode p) t.
Proof.
  unfold subnodes. intro H. apply in_flat_map in H.
  destruct H as [c [Hc Hp]]. destruct c; try contradiction.
  destruct Hp as [<- | []]. exact Hc.
Qed.

(** The readings of the calls of [ranchu_init], under the conditions of
    [ranchu_init_run]. *)
Lemma ranchu_init_readings (env : Env) (machine : MachineState) (oc : string) b :
  ram_size machine <= size (memmap RANCHU_MEM) ->
  create_device_tree_ok env = true ->
  kvm_enabled env = false ->
  (0 < smp_cpus env ->
   cpu_class_by_name env (chosen_cpu_model machine) = Some oc) ->
  let t := fst (ranchu_init env machine b) in
  cpu_objects t = map (fun _ => oc) (range_up (smp_cpus env)) /\
  powered_off t = filter (fun n => n >? 0) (range_up (smp_cpus env)) /\
  cpu_nodes t = map cpu_nodename (range_down (smp_cpus env)) /\
  In (qemu_fdt_add_subnode "/cpus") t /\
  In (memory_region_init_ram "ranchu.ram" (ram_size machine)) t /\
  (console_chardev_ok env (first_console_port b) = true ->
   adb_server_ok env (first_console_port b + 1) = true ->
   exists b',
     snd (ranchu_init env machine b) = Done tt b' /\
     bootinfo (vbi b')
     = Some (mkBootInfo (ram_size machine)
                        (machine_kernel_filename machine)
                        (machine_kernel_cmdline machine)
                        (machine_initrd_filename machine)
                        (smp_cpus env) (-1) (base (memmap RANCHU_MEM)))).
Proof.
  intros Hram Hfdt Hkvm Hcpu t.
  destruct (ranchu_init_run env machine oc b Hram Hfdt Hkvm Hcpu)
    as (t1 & t2 & t3 & o & E & (A1 & B1 & C1) & (A2 & B2 & S2)
        & (A3 & B3 & C3) & Hend).
  subst t. rewrite E. cbn [fst snd].
  destruct (cpu_calls_readings env oc (range_up (smp_cpus env)))
    as (Ac & Bc & Cc).
  change (create_device_tree :: t1 ++ ?x) with ([create_device_tree] ++ t1 ++ x).
  change (memory_region_init_ram "ranchu.ram" (ram_size machine) :: t3)
    with ([memory_region_init_ram "ranchu.ram" (ram_size machine)] ++ t3).
  split; [| split; [| split; [| split; [| split]]]].
  - unfold cpu_objects in *. rewrite !flat_map_app, A1, Ac, A2, A3.
    cbn. rewrite app_nil_r. reflexivity.
  - unfold powered_off in *. rewrite !flat_map_app, B1, Bc, B2, B3.
    cbn. rewrite app_nil_r. reflexivity.
  - unfold cpu_nodes, subnodes in *.
    rewrite !flat_map_app, !filter_app, C1, Cc, C3, S2, cpu_nodes_of_cpus.
    cbn. rewrite app_nil_r. reflexivity.
  - apply in_or_app. right. apply in_or_app. right. apply in_or_app. right.
    apply in_or_app. left. apply in_subnodes. rewrite S2. left. reflexivity.
  - apply in_or_app. right. apply in_or_app. right. apply in_or_app. right.
    apply in_or_app. right. apply in_or_app. left. left. reflexivity.
  - exact Hend.
Qed.

Lemma ranchu_init_starts_with_fdt (env : Env) (machine : MachineState) b :
  ram_size machine <= size (memmap RANCHU_MEM) ->
  hd_error (fst (ranchu_init env machine b)) = Some create_device_tree.
Proof.
  intro Hram. unfold ranchu_init.
  rewrite (bind_done _ _ _ _ _ _ (eq_refl : set_vbi _ b = _)).
  replace (ram_size machine >? size (memmap RANCHU_MEM)) with false
    by (symmetry; rewrite Z.gtb_ltb; apply Z.ltb_ge; exact Hram).
  cbn [app fst]. rewrite fst_bind. unfold create_fdt at 1.
  rewrite (bind_done _ _ _ _ _ _ (eq_refl : emit create_device_tree _ = _)).
  reflexivity.
Qed.

(** C6.  A machine asking for exactly the size of the RAM slot, 30 GiB,
    passes the check: the first thing [ranchu_init] does is create the device
    tree, and when the later steps do not fail (the device tree is created,
    KVM is not enabled, the CPU model is known, the console ports can be
    opened) it completes, with that RAM size in the boot information.  A
    machine asking for one byte more is refused before anything else: the
    only call made is the report of the diagnostic, and the process exits
    with status 1. *)
Theorem ram_size_boundary (env : Env) (machine : MachineState) (b : board) :
  size (memmap RANCHU_MEM) = 30 * 2 ^ 30 /\
  (ram_size machine = size (memmap RANCHU_MEM) ->
     hd_error (fst (ranchu_init env machine b)) = Some create_device_tree /\
     forall oc,
       create_device_tree_ok env = true ->
       kvm_enabled env = false ->
       (0 < smp_cpus env ->
        cpu_class_by_name env (chosen_cpu_model machine) = Some oc) ->
       console_chardev_ok env (first_console_port b) = true ->
       adb_server_ok env (first_console_port b + 1) = true ->
       exists b' info,
         snd (ranchu_init env machine b) = Done tt b' /\
         bootinfo (vbi b') = Some info /\
         bi_ram_size info = 30 * 2 ^ 30) /\
  (ram_size machine = size (memmap RANCHU_MEM) + 1 ->
     ranchu_init env machine b
     = ([error_report "ranchu: cannot model more than 30GB RAM"], Exit 1)).
Proof.
  split; [reflexivity |]. split.
  - intro Hram. split.
    + apply ranchu_init_starts_with_fdt. lia.
    + intros oc Hfdt Hkvm Hcpu Hc Ha.
      destruct (ranchu_init_readings env machine oc b ltac:(lia) Hfdt Hkvm Hcpu)
        as (_ & _ & _ & _ & _ & Hend).
      destruct (Hend Hc Ha) as [b' [E Hb]].
      eexists b', _. split; [exact E |]. split; [exact Hb |].
      cbn [bi_ram_size]. rewrite Hram. reflexivity.
  - intro Hram. unfold ranchu_init.
    rewrite (bind_done _ _ _ _ _ _ (eq_refl : set_vbi _ b = _)).
    replace (ram_size machine >? size (memmap RANCHU_MEM)) with true
      by (symmetry; rewrite Z.gtb_ltb; apply Z.ltb_lt; lia).
    reflexivity.
Qed.

(** C7, as amended.  [ranchu_init] does not look at the CPU count before it
    builds: with 0 CPUs requested (and the RAM fitting, the device tree
    allocated, KVM not enabled) it creates no CPU object, adds [/cpus]
    without a child, goes on to the RAM region and the devices, and
    completes when the console can be set up. *)
Theorem zero_cpus_builds_no_cpu (env : Env) (machine : MachineState) (b : board) :
  smp_cpus env = 0 ->
  ram_size machine <= size (memmap RANCHU_MEM) ->
  create_device_tree_ok env = true ->
  kvm_enabled env = false ->
  let t := fst (ranchu_init env machine b) in
  cpu_objects t = [] /\
  cpu_nodes t = [] /\
  In (qemu_fdt_add_subnode "/cpus") t /\
  In (memory_region_init_ram "ranchu.ram" (ram_size machine)) t /\
  (console_chardev_ok env (first_console_port b) = true ->
   adb_server_ok env (first_console_port b + 1) = true ->
   exists b' info,
     snd (ranchu_init env machine b) = Done tt b' /\
     bootinfo (vbi b') = Some info /\ nb_cpus info = 0).
Proof.
  intros Hn Hram Hfdt Hkvm t.
  destruct (ranchu_init_readings env machine "" b Hram Hfdt Hkvm ltac:(lia))
    as (H1 & _ & H3 & H4 & H5 & Hend).
  fold t in H1, H3, H4, H5. rewrite Hn in H1, H3.
  repeat split; try assumption.
  intros Hc Ha. destruct (Hend Hc Ha) as [b' [E Hb]].
  eexists b', _. split; [exact E |]. split; [exact Hb |]. exact Hn.
Qed.

(** C8.  When [ranchu_init] gets to build its CPUs (the RAM fits, the device
    tree is allocated, KVM is not enabled so that [create_fdt] returns, the
    CPU class is found), it creates one CPU object per
    requested CPU; the objects given [start-powered-off] are exactly those of
    index greater than 0, so not CPU 0; and the children of [/cpus] are added
    for the indices from the highest down to 0, the node of CPU 0 last. *)
Theorem secondary_cpus_powered_off_nodes_descending
    (env : Env) (machine : MachineState) (oc : string) (b : board) :
  ram_size machine <= size (memmap RANCHU_MEM) ->
  create_device_tree_ok env = true ->
  kvm_enabled env = false ->
  cpu_class_by_name env (chosen_cpu_model machine) = Some oc ->
  let t := fst (ranchu_init env machine b) in
  cpu_objects t = map (fun _ => oc) (range_up (smp_cpus env)) /\
  List.length (cpu_objects t) = Z.to_nat (smp_cpus env) /\
  powered_off t = filter (fun n => n >? 0) (range_up (smp_cpus env)) /\
  (forall i, In i (powered_off t) <-> 0 < i < smp_cpus env) /\
  ~ In 0 (powered_off t) /\
  cpu_nodes t = map cpu_nodename (range_down (smp_cpus env)) /\
  (0 < smp_cpus env -> last (cpu_nodes t) "" = "/cpus/cpu@0")%string.
Proof.
  intros Hram Hfdt Hkvm Hcpu t.
  destruct (ranchu_init_readings env machine oc b Hram Hfdt Hkvm
              (fun _ => Hcpu))
    as (H1 & H2 & H3 & _).
  fold t in H1, H2, H3.
  assert (Hin : forall i, In i (powered_off t) <-> 0 < i < smp_cpus env).
  { intro i. rewrite H2, filter_In, range_up_In, Z.gtb_ltb, Z.ltb_lt. lia. }
  split; [exact H1 |]. split.
  { rewrite H1, length_map. apply range_up_length. }
  split; [exact H2 |]. split; [exact Hin |]. split.
  { intro H0. apply Hin in H0. lia. }
  split; [exact H3 |].
  intro Hpos. rewrite H3.
  destruct (range_down_snoc _ Hpos) as [l ->].
  rewrite map_app. cbn [map]. apply last_last.
Qed.

End RanchuFacts.

Section RanchuInstances.

Import Ranchu.

(** C5 as stated fails: the CPU peripheral space and the GIC distributor are
    distinct slots whose ranges overlap. *)
Lemma memmap_cpuperiphs_overlaps_gic :
  RANCHU_CPUPERIPHS <> RANCHU_GIC_DIST /\
  ranges_overlap (memmap RANCHU_CPUPERIPHS) (memmap RANCHU_GIC_DIST) = true /\
  ~ (forall i j : slot, i <> j -> ranges_disjoint (memmap i) (memmap j)).
Proof.
  split; [discriminate |]. split; [reflexivity |].
  intro H.
  destruct (H RANCHU_CPUPERIPHS RANCHU_GIC_DIST ltac:(discriminate)) as [D | D];
    vm_compute in D; apply D; reflexivity.
Qed.

Lemma memmap_disjoint_but_gic_in_cpuperiphs_witness :
  RANCHU_UART <> RANCHU_MEM /\
  ranges_disjoint (memmap RANCHU_UART) (memmap RANCHU_MEM).
Proof.
  split; [discriminate |].
  apply (proj1 (memmap_disjoint_but_gic_in_cpuperiphs RANCHU_UART RANCHU_MEM
                  ltac:(discriminate)));
    discriminate.
Defined.

Lemma ram_size_boundary_witness :
  (exists b' info,
     snd (ranchu_init (plain_env 1 5554) (plain_machine (30 * 2 ^ 30))
            (board_start 0x8000 0)) = Done tt b' /\
     bootinfo (vbi b') = Some info /\ bi_ram_size info = 30 * 2 ^ 30) /\
  ranchu_init (plain_env 1 5554) (plain_machine (30 * 2 ^ 30 + 1))
    (board_start 0x8000 0)
  = ([error_report "ranchu: cannot model more than 30GB RAM"], Exit 1).
Proof.
  split.
  - apply (proj2 (proj1 (proj2 (ram_size_boundary (plain_env 1 5554)
                     (plain_machine (30 * 2 ^ 30)) (board_start 0x8000 0)))
                   eq_refl))
      with (oc := "cortex-a57-arm-cpu"%string); reflexivity.
  - apply (proj2 (proj2 (ram_size_boundary (plain_env 1 5554)
                     (plain_machine (30 * 2 ^ 30 + 1))
                     (board_start 0x8000 0)))).
    reflexivity.
Defined.

(** C7 as stated fails: with 0 CPUs requested and 256 MiB of RAM, in an
    environment where nothing else fails, [ranchu_init] runs to its end and
    has created no CPU; so a CPU count of 0 does not make it exit. *)
Lemma zero_cpus_is_not_rejected :
  (exists b',
     snd (ranchu_init (plain_env 0 5554) (plain_machine (256 * 2 ^ 20))
            (board_start 0x8000 0)) = Done tt b') /\
  cpu_objects (fst (ranchu_init (plain_env 0 5554)
                      (plain_machine (256 * 2 ^ 20))
                      (board_start 0x8000 0))) = [] /\
  ~ (forall env machine b,
       smp_cpus env = 0 ->
       exists status, snd (ranchu_init env machine b) = Exit status).
Proof.
  split; [eexists; vm_compute; reflexivity |].
  split; [vm_compute; reflexivity |].
  intro H.
  destruct (H (plain_env 0 5554) (plain_machine (256 * 2 ^ 20))
              (board_start 0x8000 0) eq_refl) as [st E].
  vm_compute in E. discriminate E.
Qed.

Lemma zero_cpus_builds_no_cpu_witness :
  cpu_objects (fst (ranchu_init (plain_env 0 5554)
                      (plain_machine (256 * 2 ^ 20))
                      (board_start 0x8000 0))) = [].
Proof.
  destruct (zero_cpus_builds_no_cpu (plain_env 0 5554)
              (plain_machine (256 * 2 ^ 20)) (board_start 0x8000 0))
    as (H & _);
    [reflexivity | vm_compute; discriminate | reflexivity | reflexivity |].
  exact H.
Defined.

Lemma secondary_cpus_powered_off_nodes_descending_witness :
  let t := fst (ranchu_init (plain_env 2 5554) (plain_machine (256 * 2 ^ 20))
                  (board_start 0x8000 0)) in
  powered_off t = [1] /\
  cpu_nodes t = ["/cpus/cpu@1"; "/cpus/cpu@0"]%string.
Proof.
  intro t.
  destruct (secondary_cpus_powered_off_nodes_descending (plain_env 2 5554)
              (plain_machine (256 * 2 ^ 20)) "cortex-a57-arm-cpu"
              (board_start 0x8000 0))
    as (_ & _ & H2 & _ & _ & H3 & _);
    [vm_compute; discriminate | reflexivity | reflexivity | reflexivity |].
  split; [exact H2 | exact H3].
Defined.

End RanchuInstances.

(* ===================================================================== *)
(** ** Further properties of the requests, the main loop and the handlers *)
(* ===================================================================== *)

Lemma land_bit_test (m r : Z) :
  (0 <= r)%Z -> (Z.land m (Z.shiftl 1 r) =? 0)%Z = negb (Z.testbit m r).
Proof.
  intro Hr. rewrite Z.shiftl_1_l.
  destruct (Z.testbit m r) eqn:Eb; cbn [negb].
  - apply Z.eqb_neq. intro H.
    apply (f_equal (fun z => Z.testbit z r)) in H.
    rewrite Z.land_spec, Eb, Z.pow2_bits_true, Z.bits_0 in H by assumption.
    discriminate.
  - apply Z.eqb_eq. apply Z.bits_inj'. intros i Hi.
    rewrite Z.land_spec, Z.bits_0, Z.pow2_bits_eqb by assumption.
    destruct (Z.eqb_spec r i) as [<- |]; [rewrite Eb |]; auto using andb_false_r.
Qed.

Section VlMore.

Import Vl Handlers.

Context {World : Type} {collaborators : @Collaborators World}.

Local Abbreviation vl_state := (@Vl.vl_state World).
Local Abbreviation M := (@Vl.M World).

(** X1.  A pass of [main_loop_should_exit] with no request pending and the
    mutex free returns [false], leaves every variable as it was and calls no
    collaborator. *)
Theorem idle_pass_changes_nothing (s : vl_state) :
  no_request s -> main_loop_should_exit s = Ok false s.
Proof.
  intros (H1 & H2 & H3 & H4 & H5 & H6 & H7 & H8).
  destruct s; cbn in *; subst.
  reflexivity.
Qed.

(** X2.  [qemu_system_killed] records the signal and the sender, clears
    [no_shutdown] and raises [shutdown_requested]; whatever [no_shutdown] was
    before, the next pass of [main_loop_should_exit] that returns returns
    [true].  It returns whenever [qemu_notify_event] does. *)
Theorem killed_leaves_on_next_pass (signal pid : Z) (s : vl_state) :
  runs (qemu_system_killed signal pid) s
    (fun _ s' =>
       shutdown_signal s' = signal /\ shutdown_pid s' = pid /\
       shutdown_requested s' = 1 /\ no_shutdown s' = 0 /\
       runs main_loop_should_exit s' (fun b _ => b = true) (pass_stopped s'))
    extern_stopped.
Proof.
  unfold runs at 1.
  unfold qemu_system_killed, qemu_system_shutdown_request, call, call_int,
    bind, modify, ret.
  cbn.
  destruct (collab qemu_notify_event (current_run_state s) (world s))
    as [[[v r] w] |] eqn:E.
  - cbn. repeat split.
    eapply runs_weaken; [apply main_loop_should_exit_runs | | auto].
    intros b s'' [-> _]. reflexivity.
  - cbn. eauto.
Qed.

(** X3.  [qemu_kill_report] does nothing when no signal is recorded, and
    nothing under the qtest driver; otherwise, once it has returned, the
    recorded signal is -1 again, so that a second report at once does
    nothing. *)
Theorem kill_report_prints_once (s : vl_state) :
  (shutdown_signal s = -1 -> qemu_kill_report s = Ok tt s) /\
  (qtest_driver (world s) = true -> qemu_kill_report s = Ok tt s) /\
  runs qemu_kill_report s
    (fun _ s' => qtest_driver (world s) = false ->
                 shutdown_signal s' = -1 /\ qemu_kill_report s' = Ok tt s')
    extern_stopped.
Proof.
  assert (A : forall s : vl_state,
             shutdown_signal s = -1 -> qemu_kill_report s = Ok tt s).
  { intros s0 H. unfold qemu_kill_report, bind, get, when, ret.
    rewrite H. rewrite andb_false_r. reflexivity. }
  split; [apply A |]. split.
  - intro H. unfold qemu_kill_report, bind, get, when, ret. rewrite H.
    reflexivity.
  - unfold runs.
    destruct (qemu_kill_report s) as [[] s' | f] eqn:E.
    + intro Hq.
      assert (Hs : shutdown_signal s' = -1).
      { revert E. cbv [qemu_kill_report bind get when ret call call_int modify].
        rewrite Hq. cbn [negb andb].
        destruct (shutdown_signal s =? -1) eqn:Es; cbn [negb].
        - intro H. injection H as <-. apply Z.eqb_eq. exact Es.
        - match goal with
          | |- context [collab ?c ?r ?w] =>
              destruct (collab c r w) as [[[v r'] w'] |]; [| discriminate]
          end.
          intro H. injection H as <-. reflexivity. }
      split; [exact Hs | apply A; exact Hs].
    + revert E. cbv [qemu_kill_report bind get when ret call call_int modify].
      destruct (negb (qtest_driver (world s)) && negb (shutdown_signal s =? -1));
        [| discriminate].
      match goal with
      | |- context [collab ?c ?r ?w] =>
          destruct (collab c r w) as [[[v r'] w'] |] eqn:Ec; [discriminate |]
      end.
      intro H. injection H as <-. cbn. eauto.
Qed.

Lemma main_loop_do_ends (fuel : nat) (last_io : Z) (s s' : vl_state) :
  main_loop_do fuel last_io s = Ok (Some tt) s' ->
  exists s1,
    main_loop_should_exit s1 = Ok true s' /\
    nonzero (shutdown_requested s1) = true /\
    nonzero (no_shutdown s1) = false /\
    shutdown_requested s' = 0.
Proof.
  revert last_io s. induction fuel as [| fuel IH]; intros last_io s.
  - discriminate.
  - cbn [main_loop_do]. unfold bind at 1, get. unfold bind at 1.
    destruct (main_loop_wait _ s) as [io s1 |]; [| discriminate].
    unfold bind at 1.
    pose proof (main_loop_should_exit_runs s1) as H. unfold runs in H.
    destruct (main_loop_should_exit s1) as [b s2 | f] eqn:E; [| discriminate].
    destruct H as [Hb Hs]. destruct b.
    + intro H. injection H as <-. exists s1.
      symmetry in Hb. apply andb_true_iff in Hb. destruct Hb as [Hb1 Hb2].
      split; [exact E |]. split; [exact Hb1 |].
      split; [apply negb_true_iff; exact Hb2 |].
      unfold same_requests in Hs. cbn in Hs. tauto.
    + apply IH.
Qed.

(** X4.  However many iterations it takes, [main_loop] ends only in one of
    two ways: [hax_sync_vcpus] returned a negative value at the start, or the
    last pass of [main_loop_should_exit] returned [true], having found
    [shutdown_requested] set and [no_shutdown] clear; in that case
    [shutdown_requested] is 0 when the loop ends. *)
Theorem main_loop_ends_only_on_shutdown (fuel : nat) (s s' : vl_state) :
  main_loop fuel s = Ok (Some tt) s' ->
  (exists v r w,
     collab hax_sync_vcpus (current_run_state s) (world s) = Some (v, r, w) /\
     v < 0) \/
  (exists s1,
     main_loop_should_exit s1 = Ok true s' /\
     nonzero (shutdown_requested s1) = true /\
     nonzero (no_shutdown s1) = false /\
     shutdown_requested s' = 0).
Proof.
  unfold main_loop, bind at 1, call_int.
  destruct (collab hax_sync_vcpus _ _) as [[[v r] w] |] eqn:E; [| discriminate].
  destruct (v <? 0) eqn:Ev.
  - intros _. left. exists v, r, w. split; [reflexivity |].
    apply Z.ltb_lt. exact Ev.
  - intro H. right. eapply main_loop_do_ends. exact H.
Qed.

Lemma built_from_table_spec (s : vl_state) (a b : RunState) :
  built_from_table s ->
  RunState_ltb a RUN_STATE_MAX = true ->
  In (mkTransition a b) runstate_transitions_def ->
  runstate_valid_transitions s a b = true.
Proof.
  intros (s0 & s1 & Hi & Hm) Ha Hin. rewrite Hm.
  unfold runstate_init, bind, modify, qemu_mutex_init in Hi.
  injection Hi as <-. cbn.
  apply runstate_init_loop_table; assumption.
Qed.

(** X5.  With the transition matrix of [runstate_init]:
    [qemu_system_wakeup_request] changes nothing and calls nothing unless the
    machine is [RUN_STATE_SUSPENDED] and the reason is enabled in
    [wakeup_reason_mask]; in that case it never aborts, and when
    [qemu_notify_event] returns the reason is recorded and no other request
    has changed. *)
Theorem wakeup_request_only_wakes_suspended (reason : WakeupReason)
    (s : vl_state) :
  built_from_table s ->
  runs (qemu_system_wakeup_request reason) s
    (fun _ s' =>
       if RunState_eqb (current_run_state s) RUN_STATE_SUSPENDED
          && wakeup_enabled reason s
       then wakeup_reason s' = reason /\
            same_requests (set_wakeup_reason reason s) s'
       else s' = s)
    extern_stopped.
Proof.
  intro Hb. unfold runs.
  cbv [qemu_system_wakeup_request runstate_check bind get ret].
  destruct (RunState_eqb (current_run_state s) RUN_STATE_SUSPENDED) eqn:E;
    cbn [negb andb]; [| reflexivity].
  fold (wakeup_enabled reason s).
  destruct (wakeup_enabled reason s) eqn:Ew; cbn [negb]; [| reflexivity].
  apply RunState_eqb_eq in E.
  cbv [runstate_set bind get fail modify call call_int ret]. cbn [negb RunState_ltb].
  change (RunState_ltb RUN_STATE_RUNNING RUN_STATE_MAX) with true. cbn [negb].
  rewrite E.
  rewrite (built_from_table_spec s RUN_STATE_SUSPENDED RUN_STATE_RUNNING Hb
             eq_refl) by (cbn; tauto).
  cbn.
  destruct (collab qemu_notify_event RUN_STATE_RUNNING (world s))
    as [[[v r] w] |] eqn:Ec.
  - split; [reflexivity |]. unfold same_requests. cbn. tauto.
  - cbn. eauto.
Qed.

Lemma nonzero_land_bit (m r : Z) :
  0 <= r -> nonzero (Z.land m (Z.shiftl 1 r)) = Z.testbit m r.
Proof.
  intro Hr. unfold nonzero. rewrite land_bit_test by assumption.
  apply negb_involutive.
Qed.

(** X6.  For a reason from 0 to 30, [qemu_system_wakeup_enable] sets or
    clears the bit of that reason in [wakeup_reason_mask] and leaves the bits
    of the other reasons as they were; the mask stays a 32-bit value; and a
    wakeup request for a reason that has just been disabled changes
    nothing. *)
Theorem wakeup_enable_flips_one_reason (reason : WakeupReason)
    (enabled : bool) (s : vl_state) :
  0 <= reason < 31 ->
  exists s',
    qemu_system_wakeup_enable reason enabled s = Ok tt s' /\
    wakeup_enabled reason s' = enabled /\
    (forall r, 0 <= r < 31 -> r <> reason ->
               wakeup_enabled r s' = wakeup_enabled r s) /\
    0 <= wakeup_reason_mask s' < 2 ^ 32 /\
    (enabled = false -> qemu_system_wakeup_request reason s' = Ok tt s').
Proof.
  intro Hr.
  assert (Hbit : forall m r, 0 <= r < 31 ->
            Z.testbit (m mod 2 ^ 32) r = Z.testbit m r).
  { intros m r Hr'. apply Z.mod_pow2_bits_low. lia. }
  cbv [qemu_system_wakeup_enable bind get modify].
  destruct enabled; eexists; (split; [reflexivity |]).
  - unfold wakeup_enabled. cbn [wakeup_reason_mask set_wakeup_reason_mask].
    rewrite nonzero_land_bit, Hbit, Z.lor_spec, Z.shiftl_1_l, Z.pow2_bits_true,
      orb_true_r by lia.
    split; [reflexivity |]. split; [| split; [| discriminate]].
    + intros r Hr' Hne.
      rewrite !nonzero_land_bit, ?Z.shiftl_1_l, Hbit, Z.lor_spec,
        Z.pow2_bits_false, orb_false_r by lia.
      reflexivity.
    + apply Z.mod_pos_bound. lia.
  - unfold wakeup_enabled. cbn [wakeup_reason_mask set_wakeup_reason_mask].
    assert (E : nonzero
                  (Z.land
                     (Z.land (wakeup_reason_mask s) (Z.lnot (Z.shiftl 1 reason))
                      mod 2 ^ 32) (Z.shiftl 1 reason)) = false).
    { rewrite nonzero_land_bit, Hbit, Z.land_spec, Z.lnot_spec, Z.shiftl_1_l,
        Z.pow2_bits_true by lia. apply andb_false_r. }
    split; [exact E |]. split; [| split].
    + intros r Hr' Hne.
      rewrite !nonzero_land_bit, ?Z.shiftl_1_l, Hbit, Z.land_spec,
        Z.lnot_spec, Z.pow2_bits_false by lia.
      apply andb_true_r.
    + apply Z.mod_pos_bound. lia.
    + intros _.
      cbv [qemu_system_wakeup_request runstate_check bind get ret].
      cbn [current_run_state set_wakeup_reason_mask wakeup_reason_mask].
      destruct (RunState_eqb (current_run_state s) RUN_STATE_SUSPENDED);
        cbn [negb]; [| reflexivity].
      match goal with
      | |- context [wakeup_reason_mask (set_wakeup_reason_mask ?v s)] =>
          change (wakeup_reason_mask (set_wakeup_reason_mask v s)) with v
      end.
      rewrite E. reflexivity.
Qed.

(** X7.  [qemu_unregister_reset] removes the first entry for the handler and
    its argument, not the last.  So registering a handler and unregistering
    it at once gives the list back when the handler was not registered
    before, and otherwise removes the older registration and keeps the new
    one, at the end of the list. *)
Theorem unregister_reset_removes_oldest_match (func opaque : Z) (s : vl_state) :
  exists s',
    bind (qemu_register_reset func opaque)
         (fun _ => qemu_unregister_reset func opaque) s = Ok tt s' /\
    (~ In (mkResetEntry func opaque) (reset_handlers s) ->
     reset_handlers s' = reset_handlers s) /\
    (forall l1 l2,
       reset_handlers s = l1 ++ mkResetEntry func opaque :: l2 ->
       ~ In (mkResetEntry func opaque) l1 ->
       reset_handlers s' = l1 ++ l2 ++ [mkResetEntry func opaque]).
Proof.
  eexists. split; [reflexivity |].
  cbn [reset_handlers set_reset_handlers].
  assert (Hno : forall l k,
            ~ In (mkResetEntry func opaque) l ->
            unregister_first func opaque (l ++ mkResetEntry func opaque :: k)
            = l ++ k).
  { intros l k. induction l as [| re l IH]; intro Hn; cbn.
    - rewrite !Z.eqb_refl. reflexivity.
    - destruct ((Vl.func re =? func) && (Vl.opaque re =? opaque)) eqn:E.
      + exfalso. apply Hn. left. destruct re as [f o]. cbn in E.
        apply andb_true_iff in E. destruct E as [E1 E2].
        apply Z.eqb_eq in E1, E2. subst. reflexivity.
      + f_equal. apply IH. intro H. apply Hn. right. exact H. }
  split.
  - intro Hn. rewrite (Hno _ [] Hn). apply app_nil_r.
  - intros l1 l2 -> Hn. rewrite <- app_assoc. cbn [app].
    rewrite (Hno l1 _ Hn). reflexivity.
Qed.

End VlMore.

Section VlRecorded.

Import Vl Handlers.

Local Abbreviation rstate := (@Vl.vl_state (list extern)).

Lemma call_recorded (c : extern) (s : rstate) :
  call (collaborators := recording_collaborators) c s
  = Ok tt (set_world (world s ++ [c]) s).
Proof. destruct s; reflexivity. Qed.

Lemma call_reset_handlers_recorded (l : list QEMUResetEntry) (s : rstate) :
  call_reset_handlers (collaborators := recording_collaborators) l s
  = Ok tt (set_world (world s ++ map reset_handler l) s).
Proof.
  revert s. induction l as [| re l IH]; intro s; cbn [call_reset_handlers map].
  - rewrite app_nil_r. destruct s; reflexivity.
  - unfold bind. rewrite call_recorded, IH. destruct s; cbn.
    rewrite <- app_assoc. reflexivity.
Qed.

Lemma register_all_appends (l : list QEMUResetEntry) (s : rstate) :
  register_all l s
  = Ok tt (set_reset_handlers (reset_handlers s ++ l) s).
Proof.
  revert s. induction l as [| re l IH]; intro s; cbn [register_all].
  - rewrite app_nil_r. destruct s; reflexivity.
  - unfold bind at 1. cbv [qemu_register_reset bind get modify].
    rewrite IH. destruct s, re; cbn. rewrite <- app_assoc. reflexivity.
Qed.

(** X8.  With collaborators that return 0 and only record the calls made,
    without a reset hook of the machine: after handlers have been registered
    on an empty list, a reset request served by the next pass makes, in this
    order, the calls [cpu_stop_current], [qemu_notify_event],
    [pause_all_vcpus], [cpu_synchronize_all_states], the handlers in the
    order of their registration, [qapi_event_send_reset],
    [cpu_synchronize_all_post_reset] and [resume_all_vcpus]; the pass returns
    [false], leaves no request pending and keeps the handlers and the run
    state. *)
Theorem reset_pass_runs_handlers_in_registration_order
    (l : list QEMUResetEntry) (s : rstate) :
  no_request s ->
  reset_handlers s = [] ->
  no_reboot s = 0 ->
  current_run_state s <> RUN_STATE_INTERNAL_ERROR ->
  current_run_state s <> RUN_STATE_SHUTDOWN ->
  exists s1 s2 s3,
    register_all l s = Ok tt s1 /\
    qemu_system_reset_request (collaborators := recording_collaborators) s1
      = Ok tt s2 /\
    main_loop_should_exit (collaborators := recording_collaborators) s2
      = Ok false s3 /\
    world s3
    = world s ++ [cpu_stop_current; qemu_notify_event]
      ++ [pause_all_vcpus; cpu_synchronize_all_states]
      ++ map reset_handler l
      ++ [qapi_event_send_reset; cpu_synchronize_all_post_reset;
          resume_all_vcpus] /\
    no_request s3 /\ reset_handlers s3 = l /\
    current_run_state s3 = current_run_state s.
Proof.
  intros (H1 & H2 & H3 & H4 & H5 & H6 & H7 & H8) Hh Hn He Hs.
  destruct s as [cur vr vl tr hs rr sr ss sp pr dr sur wr wm nr ns w].
  cbn in H1, H2, H3, H4, H5, H6, H7, H8, Hh, Hn, He, Hs. subst.
  eexists. eexists. eexists.
  split; [apply register_all_appends |].
  split; [reflexivity |].
  cbn [reset_handlers set_reset_handlers app world current_run_state].
  assert (G : forall A B (a : A) (x y : B), x = y -> (a, x) = (a, y))
    by (intros; subst; reflexivity).
  destruct cur; try contradiction;
    (split;
     [ cbv -[call_reset_handlers app map];
       rewrite call_reset_handlers_recorded;
       cbv -[call_reset_handlers app map];
       reflexivity
     | cbn [world]; split;
       [ rewrite <- !app_assoc; reflexivity
       | split; [repeat split | split; reflexivity] ] ]).
Qed.

End VlRecorded.

(* ===================================================================== *)
(** ** Properties of the checks and of the option parsing at start-up     *)
(* ===================================================================== *)

Section StartupFacts.

Import Startup.

Lemma validate_bootdevices_from_spec (p : string) (bitmap : Z)
    (seen : list Z) :
  (forall k, 0 <= k < 16 -> Z.testbit bitmap k = true <-> In (97 + k) seen) ->
  (fst (validate_bootdevices_from p bitmap) = true <->
   Forall (fun c => 97 <= c <= 112) (c_chars p) /\ NoDup (c_chars p) /\
   forall c, In c (c_chars p) -> ~ In c seen) /\
  (snd (validate_bootdevices_from p bitmap) = None <->
   fst (validate_bootdevices_from p bitmap) = true).
Proof.
  revert bitmap seen. induction p as [| c p IH]; intros bitmap seen Hinv.
  - cbn. repeat split; auto using NoDup_nil.
  - cbn [validate_bootdevices_from c_chars].
    change (char_code "a") with 97. change (char_code "p") with 112.
    destruct (char_code c =? 0) eqn:E0.
    { cbn. repeat split; auto using NoDup_nil. }
    destruct ((char_code c <? 97) || (char_code c >? 112)) eqn:Er.
    { cbn [fst snd]. split; [| split; discriminate].
      split; [discriminate |]. intros (HF & _). exfalso.
      inversion HF as [| ? ? Hc _]; subst.
      apply orb_true_iff in Er. rewrite Z.ltb_lt, Z.gtb_ltb, Z.ltb_lt in Er.
      lia. }
    apply orb_false_iff in Er. rewrite Z.ltb_ge, Z.gtb_ltb, Z.ltb_ge in Er.
    rewrite land_bit_test by lia. rewrite negb_involutive.
    destruct (Z.testbit bitmap (char_code c - 97)) eqn:Eb.
    { cbn [fst snd]. split; [| split; discriminate].
      split; [discriminate |]. intros (_ & _ & Hs). exfalso.
      apply (Hs (char_code c)); [left; reflexivity |].
      replace (char_code c) with (97 + (char_code c - 97)) by lia.
      apply Hinv; [lia | exact Eb]. }
    specialize (IH (Z.lor bitmap (Z.shiftl 1 (char_code c - 97)))
                   (char_code c :: seen)).
    destruct IH as [IH1 IH2].
    { intros k Hk. rewrite Z.lor_spec, Z.shiftl_1_l, Z.pow2_bits_eqb by lia.
      rewrite orb_true_iff, Hinv by lia. cbn [In].
      rewrite Z.eqb_eq. intuition lia. }
    split; [| exact IH2].
    rewrite IH1. split.
    + intros (HF & HN & Hs). split; [| split].
      * constructor; [lia | exact HF].
      * constructor; [| exact HN]. intro Hin. apply (Hs _ Hin). left. reflexivity.
      * intros x [<- | Hin] Hx.
        -- assert (Hb : Z.testbit bitmap (char_code c - 97) = true).
           { apply Hinv; [lia |].
             replace (97 + (char_code c - 97)) with (char_code c) by lia.
             exact Hx. }
           congruence.
        -- apply (Hs _ Hin). right. exact Hx.
    + intros (HF & HN & Hs).
      inversion HF as [| ? ? Hc HF']; subst.
      inversion HN as [| ? ? Hn HN']; subst.
      split; [exact HF' |]. split; [exact HN' |].
      intros x Hin [<- | Hx].
      * contradiction.
      * apply (Hs x); [right; exact Hin | exact Hx].
Qed.

(** X9.  [validate_bootdevices] returns [true] exactly for the strings whose
    characters all lie between 'a' and 'p' and are pairwise different, and it
    prints a diagnostic exactly when it returns [false]. *)
Theorem validate_bootdevices_accepts_distinct_a_to_p (devices : string) :
  (fst (validate_bootdevices devices) = true <->
   Forall (fun c => char_code "a" <= c <= char_code "p") (c_chars devices) /\
   NoDup (c_chars devices)) /\
  (snd (validate_bootdevices devices) = None <->
   fst (validate_bootdevices devices) = true).
Proof.
  unfold validate_bootdevices.
  destruct (validate_bootdevices_from_spec devices 0 []) as [H1 H2].
  { intros k Hk. rewrite Z.bits_0. cbn. split; [discriminate | tauto]. }
  split; [| exact H2].
  rewrite H1. change (char_code "a") with 97. change (char_code "p") with 112.
  cbn [In]. tauto.
Qed.

(** *** The [-smp] option *)

Lemma to_int_small (z : Z) : 0 <= z < 2 ^ 31 -> to_int z = z.
Proof.
  intro H. unfold to_int. rewrite Z.mod_small by lia.
  destruct (Z.ltb_spec z (2 ^ 31)); lia.
Qed.

Lemma to_unsigned_small (z : Z) : 0 <= z < 2 ^ 32 -> to_unsigned z = z.
Proof. intro H. unfold to_unsigned. apply Z.mod_small. exact H. Qed.

Lemma smp_check_accepts (MAX : Z) (v v' : SmpVars) (err : list string) :
  smp_check MAX v = SmpReturn true v' err ->
  smp_cpus v' <= max_cpus v' <= MAX /\ err = [] /\
  smp_cpus v' = smp_cpus v /\ smp_cores v' = smp_cores v /\
  smp_threads v' = smp_threads v /\
  max_cpus v' = (if max_cpus v =? 0 then smp_cpus v else max_cpus v).
Proof.
  unfold smp_check.
  destruct (_ >? MAX) eqn:E1; [discriminate |].
  destruct (_ <? smp_cpus v) eqn:E2; [discriminate |].
  intro H. injection H as <- <-. cbn.
  rewrite Z.gtb_ltb in E1. apply Z.ltb_ge in E1, E2.
  repeat split; assumption.
Qed.

Lemma to_int_nonzero (y : Z) :
  0 <= y < 2 ^ 32 -> to_int (if y >? 0 then y else 1) <> 0.
Proof.
  intro H. destruct (Z.gtb_spec y 0).
  - unfold to_int. rewrite Z.mod_small by lia.
    destruct (Z.ltb_spec y (2 ^ 31)); lia.
  - discriminate.
Qed.

Lemma to_unsigned_range (z : Z) : 0 <= to_unsigned z < 2 ^ 32.
Proof. apply Z.mod_pos_bound. lia. Qed.

Lemma div_range (c d : Z) : 0 <= c -> 0 < d -> 0 <= c / d <= c.
Proof.
  intros Hc Hd. split.
  - apply Z.div_pos; assumption.
  - apply Z.div_le_upper_bound; [assumption | nia].
Qed.

(** X10.  When [smp_parse] returns [true] it has printed nothing and
    [smp_cpus <= max_cpus <= MAX_CPUMASK_BITS]; without options [smp_cpus]
    is unchanged; with options [smp_cores] and [smp_threads] are not 0. *)
Theorem smp_parse_accepts_within_bounds (MAX_CPUMASK_BITS : Z)
    (opts : option SmpOpts) (v v' : SmpVars) (err : list string) :
  smp_parse MAX_CPUMASK_BITS opts v = SmpReturn true v' err ->
  smp_cpus v' <= max_cpus v' <= MAX_CPUMASK_BITS /\ err = [] /\
  (opts = None -> smp_cpus v' = smp_cpus v) /\
  (opts <> None -> smp_cores v' <> 0 /\ smp_threads v' <> 0).
Proof.
  destruct opts as [o |]; cbn [smp_parse].
  - pose proof (to_unsigned_range (opt_cpus o)) as Rc.
    pose proof (to_unsigned_range (opt_sockets o)) as Rs.
    pose proof (to_unsigned_range (opt_cores o)) as Ro.
    pose proof (to_unsigned_range (opt_threads o)) as Rt.
    set (cpus := to_unsigned (opt_cpus o)) in *.
    set (sockets := to_unsigned (opt_sockets o)) in *.
    set (cores := to_unsigned (opt_cores o)) in *.
    set (threads := to_unsigned (opt_threads o)) in *.
    assert (D : forall y, 0 <= y < 2 ^ 32 -> 0 <= (if y >? 0 then y else 1) < 2 ^ 32).
    { intros y Hy. destruct (y >? 0); lia. }
    assert (K : forall c a b,
              0 <= a < 2 ^ 32 -> 0 <= b < 2 ^ 32 ->
              smp_check MAX_CPUMASK_BITS
                (mkSmpVars c (to_int (opt_maxcpus o))
                   (to_int (if a >? 0 then a else 1))
                   (to_int (if b >? 0 then b else 1)))
              = SmpReturn true v' err ->
              smp_cpus v' <= max_cpus v' <= MAX_CPUMASK_BITS /\ err = [] /\
              (Some o = None -> smp_cpus v' = smp_cpus v) /\
              (Some o <> None -> smp_cores v' <> 0 /\ smp_threads v' <> 0)).
    { intros c a b Ha Hb H. apply smp_check_accepts in H.
      destruct H as (H1 & H2 & H3 & H4 & H5 & H6). cbn in H4, H5.
      split; [exact H1 |]. split; [exact H2 |]. split; [discriminate |].
      intros _. rewrite H4, H5. split; apply to_int_nonzero; assumption. }
    destruct ((cpus =? 0) || (sockets =? 0)).
    + apply K; apply D; assumption.
    + destruct (cores =? 0).
      * destruct (to_unsigned _ =? 0) eqn:Ed; [discriminate |].
        apply Z.eqb_neq in Ed.
        match type of Ed with ?d <> 0 =>
          pose proof (to_unsigned_range (sockets * (if threads >? 0 then threads else 1)));
          apply K; [| apply D; assumption]
        end.
        match goal with |- _ <= cpus / ?d < _ =>
          pose proof (div_range cpus d); lia end.
      * destruct (to_unsigned _ =? 0) eqn:Ed; [discriminate |].
        apply Z.eqb_neq in Ed.
        pose proof (to_unsigned_range (cores * sockets)).
        apply K; [assumption |].
        match goal with |- _ <= cpus / ?d < _ =>
          pose proof (div_range cpus d); lia end.
  - intro H. apply smp_check_accepts in H.
    destruct H as (H1 & H2 & H3 & _).
    split; [exact H1 |]. split; [exact H2 |]. split; [intros _; exact H3 |].
    intro Hn. contradiction.
Qed.

Lemma smp_check_returns (MAX : Z) (v : SmpVars) :
  let m := if max_cpus v =? 0 then smp_cpus v else max_cpus v in
  exists ok err,
    smp_check MAX v
    = SmpReturn ok (mkSmpVars (smp_cpus v) m (smp_cores v) (smp_threads v)) err /\
    (ok = true <-> smp_cpus v <= m <= MAX).
Proof.
  intro m. unfold smp_check. fold m.
  destruct (Z.gtb_spec m MAX).
  - eexists. eexists. split; [reflexivity |]. split; [discriminate | lia].
  - destruct (Z.ltb_spec m (smp_cpus v)).
    + eexists. eexists. split; [reflexivity |]. split; [discriminate | lia].
    + eexists. eexists. split; [reflexivity |]. split; [lia | reflexivity].
Qed.

Lemma default_small (y : Z) :
  0 <= y < 2 ^ 31 ->
  to_int (if y >? 0 then y else 1) = Z.max 1 y /\
  (if y >? 0 then y else 1) = Z.max 1 y.
Proof.
  intro H. destruct (Z.gtb_spec y 0).
  - rewrite to_int_small by lia. lia.
  - rewrite to_int_small by lia. lia.
Qed.

Lemma smp_parse_small_options (MAX_CPUMASK_BITS : Z) (o : SmpOpts)
    (v : SmpVars) :
  0 <= opt_cpus o < 2 ^ 31 ->
  0 <= opt_sockets o -> 0 <= opt_cores o -> 0 <= opt_threads o ->
  0 <= opt_maxcpus o < 2 ^ 31 ->
  Z.max 1 (opt_cores o) * Z.max 1 (opt_threads o) * Z.max 1 (opt_sockets o)
    < 2 ^ 31 ->
  exists ok v' err,
    smp_parse MAX_CPUMASK_BITS (Some o) v = SmpReturn ok v' err /\
    smp_cpus v'
    = (if opt_cpus o =? 0
       then Z.max 1 (opt_cores o) * Z.max 1 (opt_threads o)
            * Z.max 1 (opt_sockets o)
       else opt_cpus o) /\
    max_cpus v'
    = (if opt_maxcpus o =? 0 then smp_cpus v' else opt_maxcpus o) /\
    1 <= smp_cpus v' /\ 1 <= smp_cores v' /\ 1 <= smp_threads v' /\
    (ok = true <-> smp_cpus v' <= max_cpus v' <= MAX_CPUMASK_BITS).
Proof.
  destruct o as [cpus sockets cores threads maxcpus].
  cbn [opt_cpus opt_sockets opt_cores opt_threads opt_maxcpus].
  intros Hc Hs Ho Ht Hm Hp.
  assert (Bs : sockets < 2 ^ 31) by nia.
  assert (Bo : cores < 2 ^ 31) by nia.
  assert (Bt : threads < 2 ^ 31) by nia.
  cbn [smp_parse opt_cpus opt_sockets opt_cores opt_threads opt_maxcpus].
  cbv zeta.
  rewrite !(to_unsigned_small cpus), !(to_unsigned_small sockets),
    !(to_unsigned_small cores), !(to_unsigned_small threads) by lia.
  assert (K : forall c a b,
            1 <= c < 2 ^ 31 -> 0 <= a < 2 ^ 31 -> 0 <= b < 2 ^ 31 ->
            exists ok v' err,
              smp_check MAX_CPUMASK_BITS
                (mkSmpVars (to_int c) (to_int maxcpus)
                   (to_int (if a >? 0 then a else 1))
                   (to_int (if b >? 0 then b else 1)))
              = SmpReturn ok v' err /\
              smp_cpus v' = c /\
              max_cpus v' = (if maxcpus =? 0 then smp_cpus v' else maxcpus) /\
              1 <= smp_cpus v' /\ 1 <= smp_cores v' /\ 1 <= smp_threads v' /\
              (ok = true <-> smp_cpus v' <= max_cpus v' <= MAX_CPUMASK_BITS)).
  { intros c a b Hc' Ha Hb.
    destruct (smp_check_returns MAX_CPUMASK_BITS
                (mkSmpVars (to_int c) (to_int maxcpus)
                   (to_int (if a >? 0 then a else 1))
                   (to_int (if b >? 0 then b else 1))))
      as (ok & err & E & Hok).
    exists ok. eexists. exists err. split; [exact E |].
    cbn [smp_cpus max_cpus smp_cores smp_threads] in *.
    rewrite (proj1 (default_small a Ha)), (proj1 (default_small b Hb)).
    rewrite !to_int_small in * by lia.
    split; [reflexivity |]. split; [reflexivity |].
    split; [lia |]. split; [lia |]. split; [lia |]. exact Hok. }
  destruct (Z.eqb_spec cpus 0) as [-> | Hc0]; cbn [orb].
  - rewrite !(proj2 (default_small _ (conj Hs Bs))),
      !(proj2 (default_small _ (conj Ho Bo))),
      !(proj2 (default_small _ (conj Ht Bt))).
    rewrite to_unsigned_small by nia.
    destruct (K (Z.max 1 cores * Z.max 1 threads * Z.max 1 sockets)
                (Z.max 1 cores) (Z.max 1 threads)) as (ok & v' & err & H);
      [nia | lia | lia |].
    exists ok, v', err. exact H.
  - destruct (Z.eqb_spec sockets 0) as [-> | Hs0].
    + rewrite !(proj2 (default_small _ (conj Ho Bo))),
        !(proj2 (default_small _ (conj Ht Bt))).
      destruct (K cpus (Z.max 1 cores) (Z.max 1 threads)) as (ok & v' & err & H);
        [lia | lia | lia |].
      exists ok, v', err. exact H.
    + destruct (Z.eqb_spec cores 0) as [-> | Ho0].
      * rewrite !(proj2 (default_small _ (conj Ht Bt))).
        rewrite to_unsigned_small by nia.
        destruct (Z.eqb_spec (sockets * Z.max 1 threads) 0) as [E | _]; [nia |].
        pose proof (div_range cpus (sockets * Z.max 1 threads)).
        destruct (K cpus (cpus / (sockets * Z.max 1 threads)) (Z.max 1 threads))
          as (ok & v' & err & H'); [lia | nia | lia |].
        exists ok, v', err. exact H'.
      * rewrite to_unsigned_small by nia.
        destruct (Z.eqb_spec (cores * sockets) 0) as [E | _]; [nia |].
        pose proof (div_range cpus (cores * sockets)).
        destruct (K cpus cores (cpus / (cores * sockets)))
          as (ok & v' & err & H'); [lia | lia | nia |].
        exists ok, v', err. exact H'.
Qed.

(** X11.  For options below 2^31 whose topology (each of sockets, cores
    and threads counted as 1 when not given) has a product below 2^31:
    [smp_parse] returns, without dividing by zero; [smp_cpus] is the value
    given for cpus or, when none is given, the product; [max_cpus] is the
    value given or else [smp_cpus]; [smp_cpus], [smp_cores] and
    [smp_threads] are at least 1; and the result is [true] exactly when
    [smp_cpus <= max_cpus <= MAX_CPUMASK_BITS]. *)
Theorem smp_parse_small_topology (MAX_CPUMASK_BITS : Z) (o : SmpOpts)
    (v : SmpVars) :
  0 <= opt_cpus o < 2 ^ 31 ->
  0 <= opt_sockets o -> 0 <= opt_cores o -> 0 <= opt_threads o ->
  0 <= opt_maxcpus o < 2 ^ 31 ->
  Z.max 1 (opt_cores o) * Z.max 1 (opt_threads o) * Z.max 1 (opt_sockets o)
    < 2 ^ 31 ->
  exists ok v' err,
    smp_parse MAX_CPUMASK_BITS (Some o) v = SmpReturn ok v' err /\
    smp_cpus v'
    = (if opt_cpus o =? 0
       then Z.max 1 (opt_cores o) * Z.max 1 (opt_threads o)
            * Z.max 1 (opt_sockets o)
       else opt_cpus o) /\
    max_cpus v'
    = (if opt_maxcpus o =? 0 then smp_cpus v' else opt_maxcpus o) /\
    1 <= smp_cpus v' /\ 1 <= smp_cores v' /\ 1 <= smp_threads v' /\
    (ok = true <-> smp_cpus v' <= max_cpus v' <= MAX_CPUMASK_BITS).
Proof. apply smp_parse_small_options. Qed.

(** X12.  The product of cores, threads and sockets is computed in
    [unsigned]: when no cpus and no maxcpus are given and the product is a
    multiple of 2^32, [smp_parse] returns [true] with [smp_cpus] and
    [max_cpus] both 0. *)
Theorem smp_parse_wrapped_product_gives_no_cpu (MAX_CPUMASK_BITS : Z)
    (o : SmpOpts) (v : SmpVars) :
  let given x := if to_unsigned x >? 0 then to_unsigned x else 1 in
  to_unsigned (opt_cpus o) = 0 ->
  to_int (opt_maxcpus o) = 0 ->
  to_unsigned (given (opt_cores o) * given (opt_threads o)
               * given (opt_sockets o)) = 0 ->
  0 <= MAX_CPUMASK_BITS ->
  exists v',
    smp_parse MAX_CPUMASK_BITS (Some o) v = SmpReturn true v' [] /\
    smp_cpus v' = 0 /\ max_cpus v' = 0.
Proof.
  intros given Hc Hm Hp HM. cbn [smp_parse].
  rewrite Hc. cbn [Z.eqb orb]. fold (given (opt_cores o)) (given (opt_threads o))
    (given (opt_sockets o)).
  rewrite Hp, Hm. unfold smp_check. cbn [smp_cpus max_cpus smp_cores smp_threads].
  change (to_int 0) with 0. cbn [Z.eqb Z.ltb Z.compare].
  destruct (Z.gtb_spec 0 MAX_CPUMASK_BITS); [lia |].
  eexists. split; [reflexivity |]. split; reflexivity.
Qed.

(** X13.  For the 'ranchu' machine, whose [max_cpus] is 1, and options
    below 2^31 whose topology has a product below 2^31: when [run_qemu_main]
    goes on past [smp_parse] and the comparison with the machine, [smp_cpus]
    is exactly 1. *)
Theorem ranchu_goes_on_with_one_cpu (MAX_CPUMASK_BITS : Z) (o : SmpOpts)
    (v v' : SmpVars) (name : string) (m : Z) :
  0 <= opt_cpus o < 2 ^ 31 ->
  0 <= opt_sockets o -> 0 <= opt_cores o -> 0 <= opt_threads o ->
  0 <= opt_maxcpus o < 2 ^ 31 ->
  Z.max 1 (opt_cores o) * Z.max 1 (opt_threads o) * Z.max 1 (opt_sockets o)
    < 2 ^ 31 ->
  check_smp MAX_CPUMASK_BITS (Some o) v name Ranchu.ranchu_machine_max_cpus
    = MainGoesOn v' m ->
  m = 1 /\ smp_cpus v' = 1 /\ 1 <= max_cpus v' <= MAX_CPUMASK_BITS.
Proof.
  intros Hc Hs Ho Ht Hm Hp.
  destruct (smp_parse_small_options MAX_CPUMASK_BITS o v Hc Hs Ho Ht Hm Hp)
    as (ok & v1 & err & E & _ & _ & H1 & _ & _ & Hok).
  unfold check_smp. rewrite E.
  destruct ok; [| discriminate].
  change (if Ranchu.ranchu_machine_max_cpus =? 0 then 1
          else Ranchu.ranchu_machine_max_cpus) with 1.
  destruct (Z.gtb_spec (smp_cpus v1) 1) as [| Hle]; [discriminate |].
  intro HH. injection HH as <- <-.
  destruct Hok as [Hok _]. specialize (Hok eq_refl). lia.
Qed.

Lemma save_cmd_property_fold (props saved : list string) :
  (List.length saved <= 16)%nat ->
  fold_left (fun st p => fst (save_cmd_property p st)) props saved
  = saved ++ firstn (16 - List.length saved) props.
Proof.
  revert saved. induction props as [| p props IH]; intros saved Hl; cbn [fold_left].
  - rewrite firstn_nil, app_nil_r. reflexivity.
  - unfold save_cmd_property at 2. unfold MAX_N_CMD_PROPS.
    destruct (Z.geb_spec (Z.of_nat (List.length saved)) 16) as [Hge | Hlt].
    + cbn [fst]. rewrite IH by exact Hl.
      replace (16 - List.length saved)%nat with 0%nat by lia. reflexivity.
    + cbn [fst]. rewrite IH by (rewrite length_app; cbn; lia).
      rewrite length_app. cbn [List.length].
      replace (16 - List.length saved)%nat
        with (S (16 - (List.length saved + 1)))%nat by lia.
      cbn [firstn]. rewrite <- app_assoc. reflexivity.
Qed.

(** X14.  Of the boot properties given to [save_cmd_property] one after
    the other, the first [MAX_N_CMD_PROPS] (16) are kept, in order, and no
    more; the next one is accepted without a message exactly when fewer
    than 16 have been given. *)
Theorem save_cmd_property_keeps_first_16 (props : list string) :
  let saved := fold_left (fun st p => fst (save_cmd_property p st)) props [] in
  saved = firstn (Z.to_nat MAX_N_CMD_PROPS) props /\
  Z.of_nat (List.length saved) <= MAX_N_CMD_PROPS /\
  forall p, snd (save_cmd_property p saved) = [] <->
            Z.of_nat (List.length props) < MAX_N_CMD_PROPS.
Proof.
  intro saved.
  assert (E : saved = firstn 16 props).
  { unfold saved. rewrite save_cmd_property_fold by (cbn; lia). reflexivity. }
  split; [exact E |].
  assert (L : List.length saved = Nat.min 16 (List.length props)).
  { rewrite E. apply length_firstn. }
  unfold MAX_N_CMD_PROPS. split; [lia |].
  intro p. unfold save_cmd_property, MAX_N_CMD_PROPS.
  destruct (Z.geb_spec (Z.of_nat (List.length saved)) 16); cbn [snd].
  - split; [discriminate | lia].
  - split; [lia | reflexivity].
Qed.

Lemma strchr_spec (s : string) (c : ascii) :
  match strchr s c with
  | Some (n, rest) =>
      exists key, s = (key ++ String c rest)%string /\
                  n = Z.of_nat (String.length key) /\ strchr key c = None
  | None => forall key rest, s <> (key ++ String c rest)%string
  end.
Proof.
  induction s as [| a s IH]; cbn [strchr].
  - intros [| ? ?] rest; discriminate.
  - destruct (Ascii.eqb_spec a c) as [-> | Hne].
    + exists EmptyString. repeat split.
    + destruct (strchr s c) as [[n rest] |].
      * destruct IH as (key & -> & -> & Hk).
        exists (String a key). cbn [String.append String.length strchr].
        split; [reflexivity |]. split; [lia |].
        destruct (Ascii.eqb_spec a c); [contradiction |]. rewrite Hk. reflexivity.
      * intros [| b key] rest; cbn [String.append]; intro H;
          injection H as H1 H2; [contradiction |]. exact (IH _ _ H2).
Qed.

(** X15.  [process_cmd_properties] passes on exactly the saved properties
    that contain '=', in order; each is split at its first '=': the name has
    no '=', the lengths passed are those of the name and of the value, and
    name, '=' and value make up the property. *)
Theorem process_cmd_properties_splits_at_first_equals (cmd_props : list string) :
  Forall (fun c =>
            exists key,
              bp_name c = (key ++ "=" ++ bp_value c)%string /\
              strchr key "=" = None /\
              bp_namelen c = Z.of_nat (String.length key) /\
              bp_valuelen c = Z.of_nat (String.length (bp_value c)))
         (process_cmd_properties cmd_props) /\
  map bp_name (process_cmd_properties cmd_props)
  = filter (fun p => match strchr p "=" with Some _ => true | None => false end)
           cmd_props.
Proof.
  induction cmd_props as [| p l [IH1 IH2]]; cbn [process_cmd_properties filter map].
  - split; [constructor | reflexivity].
  - pose proof (strchr_spec p "=") as H.
    destruct (strchr p "=") as [[n rest] |].
    + destruct H as (key & -> & -> & Hk). split.
      * constructor; [| exact IH1]. exists key. cbn. repeat split. exact Hk.
      * cbn [map bp_name]. rewrite IH2. reflexivity.
    + split; assumption.
Qed.

(** *** Device configurations *)

Lemma foreach_device_config_app (S : Type) (type : device_type)
    (func : string -> S -> Z * S) (l1 l2 : list device_config) (st : S) :
  foreach_device_config type func (l1 ++ l2) st
  = (let (rc, st1) := foreach_device_config type func l1 st in
     if rc =? 0 then foreach_device_config type func l2 st1 else (rc, st1)).
Proof.
  revert st. induction l1 as [| c l1 IH]; intro st;
    cbn [app foreach_device_config].
  - reflexivity.
  - destruct (negb (device_type_eqb (Startup.type c) type)); [apply IH |].
    destruct (func (cmdline c) st) as [rc st'].
    destruct (Z.eqb_spec rc 0) as [-> | Hne]; cbn [negb].
    + apply IH.
    + destruct (Z.eqb_spec rc 0); [contradiction | reflexivity].
Qed.

(** X16.  A configuration added by [add_device_config] is visited by
    [foreach_device_config] after all the earlier ones, and only when none of
    them gave a result other than 0 and its type is the one asked for; its
    result, when not 0, is the result of the walk. *)
Theorem foreach_device_config_in_order_until_failure (S : Type)
    (type : device_type) (func : string -> S -> Z * S)
    (device_configs : list device_config) (t : device_type) (cmdline : string)
    (st : S) :
  let (rc, st1) := foreach_device_config type func device_configs st in
  foreach_device_config type func
    (add_device_config t cmdline device_configs) st
  = (if negb (rc =? 0) then (rc, st1)
     else if negb (device_type_eqb t type) then (0, st1)
     else let (rc', st2) := func cmdline st1 in
          if negb (rc' =? 0) then (rc', st2) else (0, st2)).
Proof.
  unfold add_device_config. rewrite foreach_device_config_app.
  destruct (foreach_device_config type func device_configs st) as [rc st1].
  destruct (Z.eqb_spec rc 0) as [-> | Hne]; cbn [negb]; [| reflexivity].
  cbn [foreach_device_config Startup.type Startup.cmdline].
  destruct (negb (device_type_eqb t type)); [reflexivity |].
  destruct (func cmdline st1) as [rc' st2].
  destruct (negb (rc' =? 0)) eqn:E; [reflexivity |].
  apply negb_false_iff, Z.eqb_eq in E. subst. reflexivity.
Qed.

Lemma foreach_device_config_snoc (S : Type) (type : device_type)
    (func : string -> S -> Z * S) (l : list device_config)
    (c : device_config) (st : S) :
  foreach_device_config type func (l ++ [c]) st
  = (let (rc, st1) := foreach_device_config type func l st in
     if negb (rc =? 0) then (rc, st1)
     else if negb (device_type_eqb (Startup.type c) type) then (0, st1)
     else let (rc', st2) := func (cmdline c) st1 in
          if negb (rc' =? 0) then (rc', st2) else (0, st2)).
Proof.
  revert st. induction l as [| a l IH]; intro st;
    cbn [app foreach_device_config].
  - destruct (negb (device_type_eqb (Startup.type c) type)); [reflexivity |].
    destruct (func (cmdline c) st) as [rc' st2]. reflexivity.
  - destruct (negb (device_type_eqb (Startup.type a) type)); [apply IH |].
    destruct (func (cmdline a) st) as [rc st'].
    destruct (Z.eqb_spec rc 0) as [-> | Hne]; cbn [negb].
    + apply IH.
    + destruct (Z.eqb_spec rc 0); [contradiction | reflexivity].
Qed.

(** X17.  Whatever configurations [serial_parse] is run on by
    [foreach_device_config]: its index stays between 0 and
    [MAX_SERIAL_PORTS], [serial_hds] holds a device only below the index,
    the result is 0 or -1, on 0 the index counts the serial configurations
    other than [none], and more of those than [MAX_SERIAL_PORTS] give
    -1. *)
Theorem serial_parse_stays_within_ports (MAX_SERIAL_PORTS : Z)
    (CharDriverState : Type)
    (qemu_chr_new : string -> string -> option CharDriverState)
    (device_configs : list device_config) :
  0 <= MAX_SERIAL_PORTS ->
  let r := foreach_device_config DEV_SERIAL
             (serial_parse MAX_SERIAL_PORTS qemu_chr_new) device_configs
             serial_start in
  let wanted := filter (fun c => device_type_eqb (Startup.type c) DEV_SERIAL
                                 && negb (String.eqb (cmdline c) "none"))
                       device_configs in
  0 <= index (snd r) <= MAX_SERIAL_PORTS /\
  (forall i, serial_hds (snd r) i <> None -> 0 <= i < index (snd r)) /\
  (fst r = 0 \/ fst r = -1) /\
  (fst r = 0 -> index (snd r) = Z.of_nat (List.length wanted)) /\
  (MAX_SERIAL_PORTS < Z.of_nat (List.length wanted) -> fst r = -1).
Proof.
  intros HM r wanted.
  assert (H : 0 <= index (snd r) <= MAX_SERIAL_PORTS /\
              (forall i, serial_hds (snd r) i <> None -> 0 <= i < index (snd r)) /\
              (fst r = 0 \/ fst r = -1) /\
              (fst r = 0 -> index (snd r) = Z.of_nat (List.length wanted))).
  { subst r wanted. induction device_configs as [| c l IH] using rev_ind.
    - cbn. repeat split; try lia; auto; contradiction.
    - rewrite foreach_device_config_snoc, filter_app, length_app.
      destruct (foreach_device_config DEV_SERIAL
                  (serial_parse MAX_SERIAL_PORTS qemu_chr_new) l serial_start)
        as [rc st].
      cbn [fst snd] in IH. destruct IH as (I1 & I2 & I3 & I4).
      set (n := List.length (filter _ l)) in *.
      assert (Fin : forall (x : option CharDriverState) i,
                (if i =? index st then x else serial_hds st i) <> None ->
                index st <> MAX_SERIAL_PORTS ->
                0 <= i < (match x with
                          | Some _ => index st + 1
                          | None => index st
                          end)).
      { intros x i Hi Hn. destruct (Z.eqb_spec i (index st)) as [E |].
        - destruct x; [lia | contradiction].
        - specialize (I2 i Hi). destruct x; lia. }
      destruct (Z.eqb_spec rc 0) as [-> | Hne]; cbn [negb].
      2:{ cbn [fst snd]. split; [exact I1 |]. split; [exact I2 |].
          split; [exact I3 |]. intro; contradiction. }
      specialize (I4 eq_refl). cbn [filter].
      destruct (device_type_eqb (Startup.type c) DEV_SERIAL); cbn [negb andb].
      2:{ cbn [fst snd List.length]. split; [exact I1 |]. split; [exact I2 |].
          split; [left; reflexivity |]. intros _. rewrite Nat.add_0_r. exact I4. }
      unfold serial_parse.
      destruct (String.eqb (cmdline c) "none"); cbn [negb].
      { cbn [fst snd List.length Z.eqb]. split; [exact I1 |].
        split; [exact I2 |]. split; [left; reflexivity |]. intros _.
        rewrite Nat.add_0_r. exact I4. }
      destruct (Z.eqb_spec (index st) MAX_SERIAL_PORTS) as [E | Hn].
      { cbn [fst snd negb Z.eqb index serial_hds]. split; [exact I1 |].
        split; [exact I2 |]. split; [right; reflexivity |]. discriminate. }
      destruct (qemu_chr_new _ (cmdline c)) as [chr |] eqn:Ec;
        cbn [fst snd negb Z.eqb index serial_hds].
      + split; [lia |]. split; [| split; [left; reflexivity |]].
        * intros i Hi. apply (Fin (Some chr) i Hi Hn).
        * intros _. cbn [List.length]. rewrite Nat2Z.inj_add, <- I4.
          reflexivity.
      + split; [lia |]. split; [| split; [right; reflexivity | discriminate]].
        intros i Hi. apply (Fin None i Hi Hn). }
  destruct H as (H1 & H2 & H3 & H4).
  split; [exact H1 |]. split; [exact H2 |]. split; [exact H3 |].
  split; [exact H4 |].
  intro Hw. destruct H3 as [H3 | H3]; [| exact H3].
    specialize (H4 H3). lia.
Qed.

(** *** Options and machine types *)

Lemma find_option_name (popt : list QEMUOption) (key : string) (o : QEMUOption) :
  find_option popt key = Some o -> In o popt /\ name o = key.
Proof.
  induction popt as [| a l IH]; cbn [find_option]; [discriminate |].
  destruct (String.eqb_spec (name a) key) as [E | _].
  - intro H. injection H as <-. split; [left; reflexivity | exact E].
  - intro H. destruct (IH H). split; [right |]; assumption.
Qed.

(** X18.  When [lookup_opt] finds an option, the option is an entry of the
    table, [optind] has advanced by 1 for an option without argument and by
    2 for one with [HAS_ARG], whose argument is the next element of [argv],
    and [optind] is at most [argc]. *)
Theorem lookup_opt_advances_within_argv (qemu_options : list QEMUOption)
    (argv : list string) (optind : Z) (popt : QEMUOption)
    (optarg : option string) (optind' : Z) :
  lookup_opt qemu_options argv optind = Found popt optarg optind' ->
  In popt qemu_options /\
  0 <= optind < optind' /\ optind' <= Z.of_nat (List.length argv) /\
  (if Z.land (flags popt) HAS_ARG =? 0
   then optarg = None /\ optind' = optind + 1
   else optarg = nth_error argv (Z.to_nat (optind + 1)) /\ optarg <> None /\
        optind' = optind + 2).
Proof.
  unfold lookup_opt.
  destruct (Z.ltb_spec optind 0); [discriminate |].
  destruct (nth_error argv (Z.to_nat optind)) as [[| c r1] |] eqn:En;
    try discriminate.
  assert (Hlen : optind < Z.of_nat (List.length argv)).
  { assert (Hn : nth_error argv (Z.to_nat optind) <> None) by congruence.
    apply nth_error_Some in Hn. lia. }
  destruct (find_option _ _) as [o |] eqn:Ef; [| discriminate].
  apply find_option_name in Ef. destruct Ef as [Hin _].
  destruct (Z.land (flags o) HAS_ARG =? 0) eqn:Ea; cbn [negb].
  - intro HH. injection HH as <- <- <-. rewrite Ea. repeat split; try lia; auto.
  - destruct (Z.geb_spec (optind + 1) (Z.of_nat (List.length argv)));
      [discriminate |].
    intro HH. injection HH as <- <- <-. rewrite Ea.
    repeat split; try lia; auto.
    apply nth_error_Some. lia.
Qed.

(** X19.  [lookup_opt] treats [--foo] as [-foo]: for an option name that
    does not begin with '-', the result is the same with two dashes as with
    one. *)
Theorem lookup_opt_double_dash (qemu_options : list QEMUOption)
    (before after : list string) (c : ascii) (opt : string) :
  c <> "-"%char ->
  lookup_opt qemu_options
    (before ++ String "-" (String "-" (String c opt)) :: after)
    (Z.of_nat (List.length before))
  = lookup_opt qemu_options
      (before ++ String "-" (String c opt) :: after)
      (Z.of_nat (List.length before)).
Proof.
  intro Hc. unfold lookup_opt.
  rewrite !length_app. cbn [List.length].
  destruct (Z.ltb_spec (Z.of_nat (List.length before)) 0); [reflexivity |].
  rewrite Nat2Z.id, !nth_error_app2, Nat.sub_diag by lia.
  cbn [nth_error].
  destruct (Ascii.eqb_spec c "-") as [| _]; [contradiction |].
  assert (E : (match String c opt with
               | String "-"%char r2 => r2
               | _ => String c opt
               end) = String c opt).
  { destruct c as [[] [] [] [] [] [] [] []]; try reflexivity. contradiction. }
  rewrite E.
  destruct (find_option qemu_options (String c opt)) as [o |]; [| reflexivity].
  destruct (negb (Z.land (flags o) HAS_ARG =? 0)); [| reflexivity].
  destruct (_ >=? _); [reflexivity |].
  f_equal.
  replace (Z.to_nat (Z.of_nat (List.length before) + 1))
    with (S (List.length before)) by lia.
  replace (S (List.length before) - List.length before)%nat with 1%nat by lia.
  reflexivity.
Qed.

(** X29.  [find_machine] returns the first machine of the list whose name
    or whose alias is the name asked for, and nothing exactly when no machine
    has that name or alias; [find_default_machine] returns the first machine
    of the list marked as default, and nothing exactly when none is. *)
Theorem find_machine_first_by_name_or_alias (machines : list MachineClass)
    (name : string) :
  let called mc := mc_name mc = name \/ alias mc = Some name in
  match find_machine machines name with
  | Some mc =>
      exists before after,
        machines = before ++ mc :: after /\ called mc /\
        forall m, In m before -> ~ called m
  | None => forall m, In m machines -> ~ called m
  end /\
  match find_default_machine machines with
  | Some mc =>
      exists before after,
        machines = before ++ mc :: after /\ is_default mc = true /\
        forall m, In m before -> is_default m = false
  | None => forall m, In m machines -> is_default m = false
  end.
Proof.
  intro called. split.
  - induction machines as [| temp el IH]; cbn [find_machine].
    + intros m [].
    + assert (Hstep : ~ called temp ->
                match find_machine el name with
                | Some mc =>
                    exists before after,
                      temp :: el = before ++ mc :: after /\ called mc /\
                      forall m, In m before -> ~ called m
                | None => forall m, In m (temp :: el) -> ~ called m
                end).
      { intro Hn. destruct (find_machine el name) as [mc |].
        - destruct IH as (before & after & -> & Hc & Hb).
          exists (temp :: before), after. split; [reflexivity |].
          split; [exact Hc |]. intros m [<- | Hm]; auto.
        - intros m [<- | Hm]; auto. }
      destruct (String.eqb_spec (mc_name temp) name) as [E | Hne].
      * exists [], el. split; [reflexivity |]. split; [left; exact E |].
        intros m [].
      * destruct (alias temp) as [a |] eqn:Ea.
        -- destruct (String.eqb_spec a name) as [E | Hna].
           ++ exists [], el. split; [reflexivity |].
              split; [right; rewrite Ea, E; reflexivity |]. intros m [].
           ++ apply Hstep. unfold called. rewrite Ea.
              intros [H | H]; [contradiction | congruence].
        -- apply Hstep. unfold called. rewrite Ea.
           intros [H | H]; [contradiction | discriminate].
  - induction machines as [| temp el IH]; cbn [find_default_machine].
    + intros m [].
    + destruct (is_default temp) eqn:E.
      * exists [], el. split; [reflexivity |]. split; [exact E |].
        intros m [].
      * destruct (find_default_machine el) as [mc |].
        -- destruct IH as (before & after & -> & Hc & Hb).
           exists (temp :: before), after. split; [reflexivity |].
           split; [exact Hc |]. intros m [<- | Hm]; auto.
        -- intros m [<- | Hm]; auto.
Qed.

End StartupFacts.

(* ===================================================================== *)
(** ** Further properties of the board construction                      *)
(* ===================================================================== *)

Section BoardFacts.

Import Ranchu Wiring.

Local Notation "x <- m ;; k" := (bind m (fun x => k))
  (at level 61, m at next level, right associativity).
Local Notation "m ;; k" := (bind m (fun _ => k))
  (at level 61, right associativity).

Lemma flat_map_nil_all {X Y : Type} (g : X -> list Y) (l : list X) :
  (forall x, g x = []) -> flat_map g l = [].
Proof.
  intro H. induction l as [| x l IH]; cbn [flat_map]; [reflexivity |].
  rewrite H, IH. reflexivity.
Qed.

Lemma flat_map_twice {X Y W : Type} (f : Y -> list W) (g : X -> list Y)
    (l : list X) :
  flat_map f (flat_map g l) = flat_map (fun x => flat_map f (g x)) l.
Proof.
  induction l as [| x l IH]; cbn [flat_map]; [reflexivity |].
  rewrite flat_map_app, IH. reflexivity.
Qed.

Lemma run_done {A : Type} (m : B A) b a b' :
  snd (m b) = Done a b' -> m b = (fst (m b), Done a b').
Proof. destruct (m b) as [t o]. cbn. intros ->. reflexivity. Qed.

(** The steps of [ranchu_init] that always go on, and the board they
    leave. *)
Lemma create_gic_done (env : Env) b :
  snd (create_gic env b)
  = Done tt (mkBoard (vbi b) (next_phandle b + 1) (android_base_port b)).
Proof.
  unfold create_gic.
  repeat rewrite (bind_done _ _ _ _ _ _ (eq_refl : emit _ b = _)).
  cbn [snd].
  rewrite (bind_done _ _ _ _ _ _
             (for_each_run
                (fun i => [ qdev_connect_gpio_out i 0 (NUM_IRQS + i * 32 + 30);
                            qdev_connect_gpio_out i 1 (NUM_IRQS + i * 32 + 27);
                            sysbus_connect_irq
                              (if kvm_irqchip_in_kernel env
                               then "kvm-arm-gic" else "arm_gic")%string
                              i i (ARM_CPU_IRQ env) ])
                _ _ b (fun i => eq_refl))).
  reflexivity.
Qed.

Lemma create_gic_trace (env : Env) b :
  let gictype := (if kvm_irqchip_in_kernel env then "kvm-arm-gic"
                  else "arm_gic")%string in
  fst (create_gic env b)
  = [ qdev_create gictype;
      qdev_prop_set_uint32 gictype "revision" 2;
      qdev_prop_set_uint32 gictype "num-cpu" (smp_cpus env);
      qdev_prop_set_uint32 gictype "num-irq" (NUM_IRQS + 32);
      qdev_init_nofail gictype;
      sysbus_mmio_map gictype 0 (base (memmap RANCHU_GIC_DIST));
      sysbus_mmio_map gictype 1 (base (memmap RANCHU_GIC_CPU)) ]
    ++ flat_map
         (fun i => [ qdev_connect_gpio_out i 0 (NUM_IRQS + i * 32 + 30);
                     qdev_connect_gpio_out i 1 (NUM_IRQS + i * 32 + 27);
                     sysbus_connect_irq gictype i i (ARM_CPU_IRQ env) ])
         (range_up (smp_cpus env))
    ++ fst (fdt_add_gic_node b).
Proof.
  intro gictype. unfold create_gic. fold gictype.
  repeat rewrite (bind_done _ _ _ _ _ _ (eq_refl : emit _ b = _)).
  cbn [fst app].
  rewrite (bind_done _ _ _ _ _ _
             (for_each_run
                (fun i => [ qdev_connect_gpio_out i 0 (NUM_IRQS + i * 32 + 30);
                            qdev_connect_gpio_out i 1 (NUM_IRQS + i * 32 + 27);
                            sysbus_connect_irq gictype i i (ARM_CPU_IRQ env) ])
                _ _ b (fun i => eq_refl))).
  reflexivity.
Qed.

Lemma create_simple_device_done devid name compat n clocks nc b :
  snd (create_simple_device devid name compat n clocks nc b) = Done tt b.
Proof.
  unfold create_simple_device, bind, when, get_vbi, emit, ret.
  destruct (negb (irqmap devid =? 0)), (negb (nc =? 0)); reflexivity.
Qed.

Lemma fst_bind_done {A C : Type} (m : B A) (k : A -> B C) b a b' :
  snd (m b) = Done a b' -> fst (bind m k b) = fst (m b) ++ fst (k a b').
Proof. intro H. rewrite fst_bind, H. reflexivity. Qed.

Lemma snd_bind_done {A C : Type} (m : B A) (k : A -> B C) b a b' :
  snd (m b) = Done a b' -> snd (bind m k b) = snd (k a b').
Proof.
  unfold bind. destruct (m b) as [t o]. cbn. intros ->.
  destruct (k a b'); reflexivity.
Qed.

Lemma snd_bind_exit {A C : Type} (m : B A) (k : A -> B C) b st :
  snd (m b) = Exit st -> snd (bind m k b) = Exit st.
Proof. unfold bind. destruct (m b) as [t o]. cbn. intros ->. reflexivity. Qed.

Lemma create_simple_devices_trace b :
  fst (create_simple_devices b)
  = fst (create_simple_device RANCHU_UART "pl011"
           ["arm,pl011"; "arm,primecell"]%string 2
           ["uartclk"; "apb_pclk"]%string 2 b)
    ++ fst (create_simple_device RANCHU_GF_FB "goldfish_fb"
              ["generic,goldfish-fb"%string] 1 [] 0 b)
    ++ fst (create_simple_device RANCHU_GF_BATTERY "goldfish_battery"
              ["generic,goldfish-battery"%string] 1 [] 0 b)
    ++ fst (create_simple_device RANCHU_GF_AUDIO "goldfish_audio"
              ["generic,goldfish-audio"%string] 1 [] 0 b)
    ++ fst (create_simple_device RANCHU_GF_EVDEV "goldfish-events"
              ["generic,goldfish-events-keypad"%string] 1 [] 0 b)
    ++ fst (create_simple_device RANCHU_ANDROID_PIPE "android_pipe"
              ["generic,android-pipe"%string] 1 [] 0 b).
Proof.
  unfold create_simple_devices.
  repeat match goal with
    | |- context [fst (bind (create_simple_device ?d ?n ?c ?k ?cl ?nc) ?f ?bb)] =>
        rewrite (fst_bind_done (create_simple_device d n c k cl nc) f bb _ _
                   (create_simple_device_done d n c k cl nc bb))
    end.
  reflexivity.
Qed.

Lemma create_virtio_devices_done b :
  snd (create_virtio_devices b) = Done tt b.
Proof. vm_compute. reflexivity. Qed.

Lemma create_fdt_done (env : Env) b :
  create_device_tree_ok env = true ->
  kvm_enabled env = false ->
  snd (create_fdt env (board_without_fdt env b)) = Done tt (board_with_fdt env b).
Proof.
  intros H K. destruct (create_fdt_run env (board_without_fdt env b) H K)
    as (t & E & _).
  rewrite E. reflexivity.
Qed.

Lemma snd_bind_crash {A C : Type} (m : B A) (k : A -> B C) b :
  snd (m b) = Crash -> snd (bind m k b) = Crash.
Proof. unfold bind. destruct (m b) as [t o]. cbn. intros ->. reflexivity. Qed.

Lemma fst_bind_crash {A C : Type} (m : B A) (k : A -> B C) b :
  snd (m b) = Crash -> fst (bind m k b) = fst (m b).
Proof. intro H. rewrite fst_bind, H. apply app_nil_r. Qed.

Lemma fdt_add_cpu_nodes_done (env : Env) b :
  snd (fdt_add_cpu_nodes env b) = Done tt b.
Proof.
  destruct (fdt_add_cpu_nodes_run env b) as (t & E & _). rewrite E. reflexivity.
Qed.

Lemma cpu_loop_range (env : Env) (machine : MachineState) (oc : string) :
  (0 < smp_cpus env ->
   cpu_class_by_name env (chosen_cpu_model machine) = Some oc) ->
  range_up (smp_cpus env) <> [] ->
  cpu_class_by_name env (chosen_cpu_model machine) = Some oc.
Proof.
  intros Hcpu Hne. apply Hcpu.
  destruct (Z_lt_le_dec 0 (smp_cpus env)) as [| Hle]; [assumption |].
  rewrite (range_up_nonpos _ Hle) in Hne. contradiction.
Qed.

Ltac fst_step H :=
  lazymatch goal with
  | |- context [fst (bind ?m ?k ?b)] => rewrite (fst_bind_done m k b _ _ H)
  end.

Ltac snd_step H :=
  lazymatch goal with
  | |- context [snd (bind ?m ?k ?b)] => rewrite (snd_bind_done m k b _ _ H)
  end.

Lemma ranchu_init_trace (env : Env) (machine : MachineState) (oc : string) b :
  ram_size machine <= size (memmap RANCHU_MEM) ->
  create_device_tree_ok env = true ->
  kvm_enabled env = false ->
  (0 < smp_cpus env ->
   cpu_class_by_name env (chosen_cpu_model machine) = Some oc) ->
  fst (ranchu_init env machine b)
  = fst (create_fdt env (board_without_fdt env b))
    ++ fst (fdt_add_timer_nodes env (board_with_fdt env b))
    ++ flat_map (cpu_calls env oc) (range_up (smp_cpus env))
    ++ fst (fdt_add_cpu_nodes env (board_with_fdt env b))
    ++ [ memory_region_init_ram "ranchu.ram" (ram_size machine);
         vmstate_register_ram_global;
         memory_region_add_subregion (base (memmap RANCHU_MEM)) ]
    ++ fst (create_gic env (board_with_fdt env b))
    ++ fst (create_simple_devices (board_with_gic env b))
    ++ fst (create_virtio_devices (board_with_gic env b))
    ++ fst (initialize_console_and_adb env (board_with_gic env b))
    ++ match snd (initialize_console_and_adb env (board_with_gic env b)) with
       | Done _ _ => [arm_load_kernel (ranchu_bootinfo env machine)]
       | Exit _ => []
       | Crash => []
       end.
Proof.
  intros Hram Hfdt Hkvm Hcpu. unfold ranchu_init.
  fst_step (eq_refl : snd (set_vbi (mkVbi None (smp_cpus env) false 0) b)
                      = Done tt (board_without_fdt env b)).
  replace (ram_size machine >? size (memmap RANCHU_MEM)) with false
    by (symmetry; rewrite Z.gtb_ltb; apply Z.ltb_ge; exact Hram).
  fst_step (create_fdt_done env b Hfdt Hkvm).
  fst_step (eq_refl : snd (fdt_add_timer_nodes env (board_with_fdt env b))
                      = Done tt (board_with_fdt env b)).
  pose proof (cpu_loop_run env (chosen_cpu_model machine) oc _
                (board_with_fdt env b) (cpu_loop_range env machine oc Hcpu))
    as Hloop.
  fst_step (f_equal snd Hloop).
  lazymatch goal with
  | |- context [fst (for_each ?l ?f ?bb)] =>
      replace (fst (for_each l f bb))
        with (flat_map (cpu_calls env oc) (range_up (smp_cpus env)))
        by (symmetry; exact (f_equal fst Hloop))
  end.
  clear Hloop.
  fst_step (fdt_add_cpu_nodes_done env (board_with_fdt env b)).
  do 3 (lazymatch goal with
        | |- context [fst (bind (emit ?c) ?k ?b)] =>
            rewrite (fst_bind_done (emit c) k b tt b eq_refl)
        end).
  fst_step (create_gic_done env (board_with_fdt env b)).
  change (mkBoard (vbi (board_with_fdt env b))
                  (next_phandle (board_with_fdt env b) + 1)
                  (android_base_port (board_with_fdt env b)))
    with (mkBoard (mkVbi None (smp_cpus env) true (next_phandle b))
                  (next_phandle b + 1 + 1) (android_base_port b)).
  replace (next_phandle b + 1 + 1) with (next_phandle b + 2) by lia.
  fold (board_with_gic env b).
  rewrite create_simple_devices_trace.
  repeat match goal with
    | |- context [fst (bind (create_simple_device ?d ?n ?c ?k ?cl ?nc) ?f ?bb)] =>
        rewrite (fst_bind_done (create_simple_device d n c k cl nc) f bb _ _
                   (create_simple_device_done d n c k cl nc bb))
    end.
  fst_step (create_virtio_devices_done (board_with_gic env b)).
  rewrite fst_bind.
  cbn [fst emit set_vbi app].
  rewrite <- !app_assoc. cbn [app].
  repeat f_equal.
Qed.

Lemma ranchu_init_outcome (env : Env) (machine : MachineState) (oc : string) b :
  ram_size machine <= size (memmap RANCHU_MEM) ->
  create_device_tree_ok env = true ->
  kvm_enabled env = false ->
  (0 < smp_cpus env ->
   cpu_class_by_name env (chosen_cpu_model machine) = Some oc) ->
  snd (ranchu_init env machine b)
  = match snd (initialize_console_and_adb env (board_with_gic env b)) with
    | Done _ b3 =>
        Done tt (mkBoard (mkVbi (Some (ranchu_bootinfo env machine))
                                (vbi_smp_cpus (vbi b3)) (fdt (vbi b3))
                                (clock_phandle (vbi b3)))
                         (next_phandle b3) (android_base_port b3))
    | Exit st => Exit st
    | Crash => Crash
    end.
Proof.
  intros Hram Hfdt Hkvm Hcpu. unfold ranchu_init.
  snd_step (eq_refl : snd (set_vbi (mkVbi None (smp_cpus env) false 0) b)
                      = Done tt (board_without_fdt env b)).
  replace (ram_size machine >? size (memmap RANCHU_MEM)) with false
    by (symmetry; rewrite Z.gtb_ltb; apply Z.ltb_ge; exact Hram).
  snd_step (create_fdt_done env b Hfdt Hkvm).
  snd_step (eq_refl : snd (fdt_add_timer_nodes env (board_with_fdt env b))
                      = Done tt (board_with_fdt env b)).
  pose proof (cpu_loop_run env (chosen_cpu_model machine) oc _
                (board_with_fdt env b) (cpu_loop_range env machine oc Hcpu))
    as Hloop.
  snd_step (f_equal snd Hloop). clear Hloop.
  snd_step (fdt_add_cpu_nodes_done env (board_with_fdt env b)).
  do 3 (lazymatch goal with
        | |- context [snd (bind (emit ?c) ?k ?b)] =>
            rewrite (snd_bind_done (emit c) k b tt b eq_refl)
        end).
  snd_step (create_gic_done env (board_with_fdt env b)).
  change (mkBoard (vbi (board_with_fdt env b))
                  (next_phandle (board_with_fdt env b) + 1)
                  (android_base_port (board_with_fdt env b)))
    with (mkBoard (mkVbi None (smp_cpus env) true (next_phandle b))
                  (next_phandle b + 1 + 1) (android_base_port b)).
  replace (next_phandle b + 1 + 1) with (next_phandle b + 2) by lia.
  fold (board_with_gic env b).
  repeat match goal with
    | |- context [snd (bind (create_simple_device ?d ?n ?c ?k ?cl ?nc) ?f ?bb)] =>
        rewrite (snd_bind_done (create_simple_device d n c k cl nc) f bb _ _
                   (create_simple_device_done d n c k cl nc bb))
    end.
  snd_step (create_virtio_devices_done (board_with_gic env b)).
  destruct (snd (initialize_console_and_adb env (board_with_gic env b)))
    as [[] b3 | st |] eqn:Ec.
  - snd_step Ec. reflexivity.
  - apply snd_bind_exit. exact Ec.
  - apply snd_bind_crash. exact Ec.
Qed.

(** The scan of the console ports *)

Lemma try_to_create_console_chardev_run (env : Env) (port : Z) b :
  try_to_create_console_chardev env port b
  = (qemu_chr_new_from_opts port
       :: (if console_chardev_ok env port then [qemu_chr_fe_claim_no_fail]
           else [qemu_opts_del]),
     Done (console_chardev_ok env port) b).
Proof.
  unfold try_to_create_console_chardev, bind, emit, ret.
  destruct (console_chardev_ok env port); reflexivity.
Qed.

Lemma console_loop_next (env : Env) (n : nat) (port : Z) b :
  port_pair_free env port = false ->
  exists t,
    initialize_console_and_adb_loop env (S n) port b
    = ((qemu_chr_new_from_opts port :: t)
         ++ fst (initialize_console_and_adb_loop env n (port + 2) b),
       snd (initialize_console_and_adb_loop env n (port + 2) b)) /\
    console_ports_tried t = [] /\
    forall X (f : call -> list X),
      (forall c, board_call c = false -> f c = []) ->
      flat_map f (qemu_chr_new_from_opts port :: t) = [].
Proof.
  unfold port_pair_free. intro H.
  cbn [initialize_console_and_adb_loop].
  rewrite (bind_done _ _ _ _ _ _ (try_to_create_console_chardev_run env port b)).
  destruct (console_chardev_ok env port) eqn:Hc; cbn [andb negb] in *.
  - rewrite (bind_done _ _ _ _ _ _ (eq_refl : emit _ b = _)).
    rewrite H. cbn [negb].
    rewrite (bind_done _ _ _ _ _ _ (eq_refl : emit _ b = _)).
    cbn [fst snd app].
    exists [qemu_chr_fe_claim_no_fail; qemu2_adb_server_init (port + 1);
            qemu_chr_delete].
    split; [reflexivity |]. split; [reflexivity |].
    intros X f Hf. cbn [flat_map]. rewrite !Hf by reflexivity. reflexivity.
  - cbn [fst snd app]. exists [qemu_opts_del].
    split; [reflexivity |]. split; [reflexivity |].
    intros X f Hf. cbn [flat_map]. rewrite !Hf by reflexivity. reflexivity.
Qed.

Lemma console_loop_found (env : Env) (n : nat) (port : Z) b :
  port_pair_free env port = true ->
  exists t,
    initialize_console_and_adb_loop env (S n) port b
    = (qemu_chr_new_from_opts port :: t,
       Done tt (mkBoard (vbi b) (next_phandle b) port)) /\
    console_ports_tried t = [] /\
    forall X (f : call -> list X),
      (forall c, board_call c = false -> f c = []) ->
      flat_map f (qemu_chr_new_from_opts port :: t) = [].
Proof.
  unfold port_pair_free. intro H. apply andb_true_iff in H.
  destruct H as [Hc Ha].
  cbn [initialize_console_and_adb_loop].
  rewrite (bind_done _ _ _ _ _ _ (try_to_create_console_chardev_run env port b)).
  rewrite Hc. cbn [negb].
  rewrite (bind_done _ _ _ _ _ _ (eq_refl : emit _ b = _)).
  rewrite Ha. cbn [negb].
  exists [qemu_chr_fe_claim_no_fail; qemu2_adb_server_init (port + 1);
          monitor_init; printf_console_on_port port (port + 1)].
  split; [reflexivity |]. split; [reflexivity |].
  intros X f Hf. cbn [flat_map]. rewrite !Hf by reflexivity. reflexivity.
Qed.

Lemma console_loop_scan (env : Env) (n k : nat) (port : Z) b :
  (k < n)%nat ->
  (forall j, (j < k)%nat ->
             port_pair_free env (port + 2 * Z.of_nat j) = false) ->
  port_pair_free env (port + 2 * Z.of_nat k) = true ->
  snd (initialize_console_and_adb_loop env n port b)
  = Done tt (mkBoard (vbi b) (next_phandle b) (port + 2 * Z.of_nat k)) /\
  console_ports_tried (fst (initialize_console_and_adb_loop env n port b))
  = map (fun j => port + 2 * Z.of_nat j) (seq 0 (S k)).
Proof.
  revert n port. induction k as [| k IH]; intros n port Hk Hfalse Htrue.
  - destruct n as [| n]; [lia |].
    replace (port + 2 * Z.of_nat 0) with port in * by lia.
    destruct (console_loop_found env n port b Htrue) as (t & E & Ht & _).
    rewrite E. cbn [fst snd]. split; [reflexivity |].
    unfold console_ports_tried in *. cbn [flat_map map seq app]. rewrite Ht.
    f_equal. lia.
  - destruct n as [| n]; [lia |].
    assert (H0 : port_pair_free env port = false).
    { specialize (Hfalse 0%nat ltac:(lia)).
      replace (port + 2 * Z.of_nat 0) with port in Hfalse by lia. exact Hfalse. }
    destruct (console_loop_next env n port b H0) as (t & E & Ht & _).
    rewrite E. cbn [fst snd].
    destruct (IH n (port + 2)) as [I1 I2]; [lia | | |].
    + intros j Hj. specialize (Hfalse (S j) ltac:(lia)).
      replace (port + 2 + 2 * Z.of_nat j) with (port + 2 * Z.of_nat (S j)) by lia.
      exact Hfalse.
    + replace (port + 2 + 2 * Z.of_nat k) with (port + 2 * Z.of_nat (S k)) by lia.
      exact Htrue.
    + split.
      * rewrite I1. do 2 f_equal. lia.
      * unfold console_ports_tried in *. rewrite flat_map_app.
        cbn [flat_map app]. rewrite Ht, I2. cbn [app].
        change (seq 0 (S (S k))) with (0%nat :: seq 1 (S k)).
        cbn [map]. f_equal; [lia |].
        rewrite <- seq_shift, map_map. apply map_ext. intro j. lia.
Qed.

Lemma console_loop_exhausted (env : Env) (n : nat) (port : Z) b :
  (forall j, (j < n)%nat ->
             port_pair_free env (port + 2 * Z.of_nat j) = false) ->
  snd (initialize_console_and_adb_loop env n port b) = Exit 1 /\
  console_ports_tried (fst (initialize_console_and_adb_loop env n port b))
  = map (fun j => port + 2 * Z.of_nat j) (seq 0 n) /\
  exists t,
    fst (initialize_console_and_adb_loop env n port b)
    = t ++ [error_report
              ("it seems too many emulator instances are running "
               ++ "on this machine. Aborting" ++ nl)%string].
Proof.
  revert port. induction n as [| n IH]; intros port Hfalse.
  - split; [reflexivity |]. split; [reflexivity |]. exists []. reflexivity.
  - assert (H0 : port_pair_free env port = false).
    { specialize (Hfalse 0%nat ltac:(lia)).
      replace (port + 2 * Z.of_nat 0) with port in Hfalse by lia. exact Hfalse. }
    destruct (console_loop_next env n port b H0) as (t & E & Ht & _).
    rewrite E. cbn [fst snd].
    destruct (IH (port + 2)) as (I1 & I2 & t' & I3).
    + intros j Hj. specialize (Hfalse (S j) ltac:(lia)).
      replace (port + 2 + 2 * Z.of_nat j) with (port + 2 * Z.of_nat (S j)) by lia.
      exact Hfalse.
    + split; [exact I1 |]. split.
      * unfold console_ports_tried in *. rewrite flat_map_app.
        cbn [flat_map app]. rewrite Ht, I2. cbn [app].
        change (seq 0 (S n)) with (0%nat :: seq 1 n).
        cbn [map]. f_equal; [lia |].
        rewrite <- seq_shift, map_map. apply map_ext. intro j. lia.
      * exists ((qemu_chr_new_from_opts port :: t) ++ t').
        rewrite I3, app_assoc. reflexivity.
Qed.

Lemma first_free_or_none (P : nat -> bool) (n : nat) :
  (exists k, (k < n)%nat /\ P k = true /\
             forall j, (j < k)%nat -> P j = false) \/
  (forall j, (j < n)%nat -> P j = false).
Proof.
  induction n as [| n [(k & Hk & Hp & Hl) | Hall]].
  - right. intros j Hj. lia.
  - left. exists k. repeat split; auto.
  - destruct (P n) eqn:E.
    + left. exists n. repeat split; auto.
    + right. intros j Hj. destruct (Nat.eq_dec j n) as [-> |]; [exact E |].
      apply Hall. lia.
Qed.

Lemma initialize_console_and_adb_unfold (env : Env) b :
  initialize_console_and_adb env b
  = initialize_console_and_adb_loop env (Z.to_nat MAX_ANDROID_EMULATORS)
      (first_console_port b) b.
Proof.
  unfold initialize_console_and_adb, bind, get_android_base_port.
  fold (first_console_port b).
  destruct (initialize_console_and_adb_loop env _ (first_console_port b) b).
  reflexivity.
Qed.

(** X20.  [initialize_console_and_adb] tries the port pairs at the first
    console port, that plus 2, and so on; when pair number [k], below 64, is
    the first whose two ports can be opened, it has tried exactly the console
    ports of pairs 0 to [k], it goes on, and [android_base_port] is the
    console port of pair [k]. *)
Theorem console_takes_first_free_port_pair (env : Env) (b : board) (k : Z) :
  let port j := first_console_port b + 2 * j in
  0 <= k < MAX_ANDROID_EMULATORS ->
  (forall j, 0 <= j < k -> port_pair_free env (port j) = false) ->
  port_pair_free env (port k) = true ->
  snd (initialize_console_and_adb env b)
  = Done tt (mkBoard (vbi b) (next_phandle b) (port k)) /\
  console_ports_tried (fst (initialize_console_and_adb env b))
  = map port (range_up (k + 1)).
Proof.
  intros port Hk Hfalse Htrue. rewrite initialize_console_and_adb_unfold.
  destruct (console_loop_scan env (Z.to_nat MAX_ANDROID_EMULATORS)
              (Z.to_nat k) (first_console_port b) b) as [H1 H2].
  - lia.
  - intros j Hj. specialize (Hfalse (Z.of_nat j) ltac:(lia)). exact Hfalse.
  - rewrite Z2Nat.id by lia. exact Htrue.
  - rewrite Z2Nat.id in H1 by lia. split; [exact H1 |].
    rewrite H2. unfold range_up. rewrite map_map.
    replace (Z.to_nat (k + 1)) with (S (Z.to_nat k)) by lia. reflexivity.
Qed.

(** X21.  When none of the 64 port pairs can be opened,
    [initialize_console_and_adb] has tried the 64 console ports in order,
    reports that too many emulator instances are running as its last call,
    and exits with status 1. *)
Theorem console_gives_up_after_64_pairs (env : Env) (b : board) :
  let port j := first_console_port b + 2 * j in
  (forall j, 0 <= j < MAX_ANDROID_EMULATORS ->
             port_pair_free env (port j) = false) ->
  snd (initialize_console_and_adb env b) = Exit 1 /\
  console_ports_tried (fst (initialize_console_and_adb env b))
  = map port (range_up MAX_ANDROID_EMULATORS) /\
  last (fst (initialize_console_and_adb env b)) monitor_init
  = error_report ("it seems too many emulator instances are running "
                  ++ "on this machine. Aborting" ++ nl)%string.
Proof.
  intros port Hfalse. rewrite initialize_console_and_adb_unfold.
  destruct (console_loop_exhausted env (Z.to_nat MAX_ANDROID_EMULATORS)
              (first_console_port b) b) as (H1 & H2 & t & H3).
  - intros j Hj. apply Hfalse. unfold MAX_ANDROID_EMULATORS in *. lia.
  - split; [exact H1 |]. split.
    + rewrite H2. unfold range_up. rewrite map_map. reflexivity.
    + rewrite H3. apply last_last.
Qed.

(** The ways [ranchu_init] leaves *)

Lemma range_up_cons (n : Z) : 0 < n -> exists l, range_up n = 0 :: l.
Proof.
  intro H. unfold range_up.
  destruct (Z.to_nat n) as [| m] eqn:E; [lia |].
  cbn [seq map]. eexists. reflexivity.
Qed.

Lemma cpu_loop_unknown (env : Env) (model : string) (n : Z) b :
  0 < n ->
  cpu_class_by_name env model = None ->
  for_each (range_up n) (fun n =>
      match cpu_class_by_name env model with
      | None =>
          bind (emit (fprintf_stderr
                        ("Unable to find CPU definition" ++ nl)%string))
               (fun _ => exit 1)
      | Some oc =>
          bind (emit (object_new oc)) (fun _ =>
          bind (when (n >? 0)
                  (emit (object_property_set_bool n true "start-powered-off")))
               (fun _ =>
          bind (when (object_property_find env oc "reset-cbar")
                  (emit (object_property_set_int n
                           (base (memmap RANCHU_CPUPERIPHS)) "reset-cbar")))
               (fun _ =>
          emit (object_property_set_bool n true "realized"))))
      end) b
  = ([fprintf_stderr ("Unable to find CPU definition" ++ nl)%string], Exit 1).
Proof.
  intros Hn Hc. destruct (range_up_cons n Hn) as [l ->].
  cbn [for_each]. rewrite Hc. reflexivity.
Qed.

Lemma ranchu_init_unknown_cpu (env : Env) (machine : MachineState) b :
  ram_size machine <= size (memmap RANCHU_MEM) ->
  create_device_tree_ok env = true ->
  kvm_enabled env = false ->
  0 < smp_cpus env ->
  cpu_class_by_name env (chosen_cpu_model machine) = None ->
  snd (ranchu_init env machine b) = Exit 1 /\
  fst (ranchu_init env machine b)
  = fst (create_fdt env (board_without_fdt env b))
    ++ fst (fdt_add_timer_nodes env (board_with_fdt env b))
    ++ [fprintf_stderr ("Unable to find CPU definition" ++ nl)%string].
Proof.
  intros Hram Hfdt Hkvm Hn Hc.
  pose proof (cpu_loop_unknown env (chosen_cpu_model machine) (smp_cpus env)
                (board_with_fdt env b) Hn Hc) as Hloop.
  split.
  - unfold ranchu_init.
    snd_step (eq_refl : snd (set_vbi (mkVbi None (smp_cpus env) false 0) b)
                        = Done tt (board_without_fdt env b)).
    replace (ram_size machine >? size (memmap RANCHU_MEM)) with false
      by (symmetry; rewrite Z.gtb_ltb; apply Z.ltb_ge; exact Hram).
    snd_step (create_fdt_done env b Hfdt Hkvm).
    snd_step (eq_refl : snd (fdt_add_timer_nodes env (board_with_fdt env b))
                        = Done tt (board_with_fdt env b)).
    apply snd_bind_exit. exact (f_equal snd Hloop).
  - unfold ranchu_init.
    fst_step (eq_refl : snd (set_vbi (mkVbi None (smp_cpus env) false 0) b)
                        = Done tt (board_without_fdt env b)).
    replace (ram_size machine >? size (memmap RANCHU_MEM)) with false
      by (symmetry; rewrite Z.gtb_ltb; apply Z.ltb_ge; exact Hram).
    fst_step (create_fdt_done env b Hfdt Hkvm).
    fst_step (eq_refl : snd (fdt_add_timer_nodes env (board_with_fdt env b))
                        = Done tt (board_with_fdt env b)).
    rewrite fst_bind.
    lazymatch goal with
    | |- context [for_each ?l ?f ?bb] =>
        replace (for_each l f bb)
          with ([fprintf_stderr ("Unable to find CPU definition" ++ nl)%string],
                @Exit unit 1)
          by (symmetry; exact Hloop)
    end.
    cbn [fst snd set_vbi app]. reflexivity.
Qed.

Lemma ranchu_init_ram_too_big (env : Env) (machine : MachineState) b :
  size (memmap RANCHU_MEM) < ram_size machine ->
  ranchu_init env machine b
  = ([error_report "ranchu: cannot model more than 30GB RAM"], Exit 1).
Proof.
  intro H. unfold ranchu_init.
  rewrite (bind_done _ _ _ _ _ _ (eq_refl : set_vbi _ b = _)).
  replace (ram_size machine >? size (memmap RANCHU_MEM)) with true
    by (symmetry; rewrite Z.gtb_ltb; apply Z.ltb_lt; exact H).
  reflexivity.
Qed.

Lemma ranchu_init_no_fdt (env : Env) (machine : MachineState) b :
  ram_size machine <= size (memmap RANCHU_MEM) ->
  create_device_tree_ok env = false ->
  snd (ranchu_init env machine b) = Exit 1.
Proof.
  intros Hram Hfdt. unfold ranchu_init.
  snd_step (eq_refl : snd (set_vbi (mkVbi None (smp_cpus env) false 0) b)
                      = Done tt (board_without_fdt env b)).
  replace (ram_size machine >? size (memmap RANCHU_MEM)) with false
    by (symmetry; rewrite Z.gtb_ltb; apply Z.ltb_ge; exact Hram).
  apply snd_bind_exit. rewrite (create_fdt_fails env _ Hfdt). reflexivity.
Qed.

(** Under KVM, when the RAM fits and the device tree is created,
    [ranchu_init] makes the calls of [create_fdt] up to the one that adds
    [/psci] and is killed there. *)
Lemma ranchu_init_kvm (env : Env) (machine : MachineState) b :
  ram_size machine <= size (memmap RANCHU_MEM) ->
  create_device_tree_ok env = true ->
  kvm_enabled env = true ->
  ranchu_init env machine b = (create_fdt_calls_kvm (next_phandle b), Crash).
Proof.
  intros Hram Hfdt Hkvm. unfold ranchu_init.
  rewrite (bind_done _ _ _ _ _ _ (eq_refl : set_vbi _ b = _)).
  replace (ram_size machine >? size (memmap RANCHU_MEM)) with false
    by (symmetry; rewrite Z.gtb_ltb; apply Z.ltb_ge; exact Hram).
  cbn [fst snd app].
  rewrite (bind_crash _ _ _ _ (create_fdt_kvm env _ Hfdt Hkvm)).
  reflexivity.
Qed.

(** X22.  How [ranchu_init] can fail to complete.  It exits only with
    status 1, and it exits exactly when the RAM asked for is more than the
    RAM slot holds, or the device tree cannot be created, or, KVM not being
    enabled, a CPU is asked for and the CPU model is unknown or none of the 64
    port pairs can be opened.  It is killed by a read through a NULL pointer
    exactly when the RAM fits, the device tree is created and KVM is enabled:
    [create_fdt] then reads the PSCI version of a CPU that does not exist
    yet. *)
Theorem ranchu_init_exits_only_with_status_1 (env : Env)
    (machine : MachineState) (b : board) :
  (forall st, snd (ranchu_init env machine b) = Exit st -> st = 1) /\
  ((exists st, snd (ranchu_init env machine b) = Exit st) <->
   size (memmap RANCHU_MEM) < ram_size machine \/
   create_device_tree_ok env = false \/
   (kvm_enabled env = false /\
    ((0 < smp_cpus env /\
      cpu_class_by_name env (chosen_cpu_model machine) = None) \/
     (forall k, 0 <= k < MAX_ANDROID_EMULATORS ->
                port_pair_free env (first_console_port b + 2 * k) = false)))) /\
  (snd (ranchu_init env machine b) = Crash <->
   ram_size machine <= size (memmap RANCHU_MEM) /\
   create_device_tree_ok env = true /\
   kvm_enabled env = true).
Proof.
  destruct (Z_lt_le_dec (size (memmap RANCHU_MEM)) (ram_size machine))
    as [Hbig | Hram].
  { rewrite (ranchu_init_ram_too_big env machine b Hbig). cbn [snd].
    split; [| split].
    - intros st H. injection H as <-. reflexivity.
    - split; [intros _; left; exact Hbig | intros _; exists 1; reflexivity].
    - split; [discriminate | intros (H & _); lia]. }
  destruct (create_device_tree_ok env) eqn:Hfdt.
  2:{ rewrite (ranchu_init_no_fdt env machine b Hram Hfdt).
      split; [| split].
      - intros st H. injection H as <-. reflexivity.
      - split; [intros _; right; left; reflexivity
               | intros _; exists 1; reflexivity].
      - split; [discriminate | intros (_ & H & _); discriminate H]. }
  destruct (kvm_enabled env) eqn:Hkvm.
  { rewrite (ranchu_init_kvm env machine b Hram Hfdt Hkvm). cbn [snd].
    split; [| split].
    - discriminate.
    - split.
      + intros [st H]. discriminate H.
      + intros [H | [H | [H _]]]; [lia | discriminate H | discriminate H].
    - split; [intros _; repeat split; assumption | reflexivity]. }
  destruct (Z_lt_le_dec 0 (smp_cpus env)) as [Hn | Hz];
    [destruct (cpu_class_by_name env (chosen_cpu_model machine)) as [oc |]
       eqn:Hc |].
  2:{ destruct (ranchu_init_unknown_cpu env machine b Hram Hfdt Hkvm Hn Hc)
        as [E _].
      rewrite E. split; [| split].
      - intros st H. injection H as <-. reflexivity.
      - split; [intros _; right; right; split; [reflexivity |]; left;
                split; [exact Hn | reflexivity]
               | intros _; exists 1; reflexivity].
      - split; [discriminate | intros (_ & _ & H); discriminate H]. }
  all: [> rewrite (ranchu_init_outcome env machine oc b Hram Hfdt Hkvm
                     (fun _ => Hc))
        | rewrite (ranchu_init_outcome env machine EmptyString b Hram Hfdt
                     Hkvm (fun H => ltac:(lia))) ].
  all: rewrite initialize_console_and_adb_unfold;
    change (first_console_port (board_with_gic env b))
      with (first_console_port b);
    destruct (first_free_or_none
                (fun k => port_pair_free env
                            (first_console_port b + 2 * Z.of_nat k))
                (Z.to_nat MAX_ANDROID_EMULATORS))
      as [(k & Hk & Hp & Hl) | Hall];
    [ destruct (console_loop_scan env (Z.to_nat MAX_ANDROID_EMULATORS) k
                  (first_console_port b) (board_with_gic env b) Hk Hl Hp)
        as [E _];
      rewrite E; split; [| split];
      [ discriminate
      | split;
        [ intros [st H]; discriminate H
        | intros [H | [H | [_ [[H1 H2] | H]]]];
          [ lia | discriminate H | first [lia | congruence] |
            exfalso; specialize (H (Z.of_nat k)
                                   ltac:(unfold MAX_ANDROID_EMULATORS in *; lia));
            cbv beta in Hp; congruence ] ]
      | split; [discriminate | intros (_ & _ & H); discriminate H] ]
    | destruct (console_loop_exhausted env (Z.to_nat MAX_ANDROID_EMULATORS)
                  (first_console_port b) (board_with_gic env b) Hall)
        as (E & _);
      rewrite E; split; [| split];
      [ intros st H; injection H as <-; reflexivity
      | split;
        [ intros _; right; right; split; [reflexivity |]; right; intros j Hj;
          specialize (Hall (Z.to_nat j)
                        ltac:(unfold MAX_ANDROID_EMULATORS in *; lia));
          cbv beta in Hall; rewrite Z2Nat.id in Hall by lia; exact Hall
        | intros _; exists 1; reflexivity ]
      | split; [discriminate | intros (_ & _ & H); discriminate H] ] ].
Qed.

Lemma console_loop_unseen {X : Type} (f : call -> list X) (env : Env)
    (n : nat) (port : Z) b :
  (forall c, board_call c = false -> f c = []) ->
  flat_map f (fst (initialize_console_and_adb_loop env n port b)) = [].
Proof.
  intro Hf. revert port. induction n as [| n IH]; intro port.
  - cbn. rewrite Hf by reflexivity. reflexivity.
  - destruct (port_pair_free env port) eqn:E.
    + destruct (console_loop_found env n port b E) as (t & -> & _ & H).
      cbn [fst]. apply H. exact Hf.
    + destruct (console_loop_next env n port b E) as (t & -> & _ & H).
      cbn [fst]. rewrite flat_map_app, (H _ f Hf), IH. reflexivity.
Qed.

Lemma cpu_calls_unseen {X : Type} (f : call -> list X) (env : Env)
    (oc : string) (l : list Z) :
  (forall c, board_call c = false -> f c = []) ->
  flat_map f (flat_map (cpu_calls env oc) l) = [].
Proof.
  intro Hf. rewrite flat_map_twice. apply flat_map_nil_all. intro n.
  unfold cpu_calls.
  destruct (n >? 0), (object_property_find env oc "reset-cbar");
    cbn [flat_map app]; rewrite !Hf by reflexivity; reflexivity.
Qed.

(** A reading that sees only calls on the device tree, on devices and on
    the bus, taken of the calls of [ranchu_init]. *)
Lemma ranchu_init_reading {X : Type} (f : call -> list X) (env : Env)
    (machine : MachineState) (oc : string) b :
  ram_size machine <= size (memmap RANCHU_MEM) ->
  create_device_tree_ok env = true ->
  kvm_enabled env = false ->
  (0 < smp_cpus env ->
   cpu_class_by_name env (chosen_cpu_model machine) = Some oc) ->
  (forall c, board_call c = false -> f c = []) ->
  flat_map f (fst (ranchu_init env machine b))
  = flat_map f (fst (create_fdt env (board_without_fdt env b)))
    ++ flat_map f (fst (fdt_add_timer_nodes env (board_with_fdt env b)))
    ++ flat_map f (fst (fdt_add_cpu_nodes env (board_with_fdt env b)))
    ++ flat_map f (fst (create_gic env (board_with_fdt env b)))
    ++ flat_map f (fst (create_simple_devices (board_with_gic env b)))
    ++ flat_map f (fst (create_virtio_devices (board_with_gic env b))).
Proof.
  intros Hram Hfdt Hkvm Hcpu Hf.
  rewrite (ranchu_init_trace env machine oc b Hram Hfdt Hkvm Hcpu).
  rewrite !flat_map_app.
  rewrite (cpu_calls_unseen f env oc _ Hf).
  rewrite initialize_console_and_adb_unfold.
  rewrite (console_loop_unseen f env _ _ _ Hf).
  replace (flat_map f
             match snd (initialize_console_and_adb_loop env
                          (Z.to_nat MAX_ANDROID_EMULATORS)
                          (first_console_port (board_with_gic env b))
                          (board_with_gic env b)) with
             | Done _ _ => [arm_load_kernel (ranchu_bootinfo env machine)]
             | Exit _ => []
             | Crash => []
             end) with (@nil X).
  2:{ destruct (snd _); cbn [flat_map]; [rewrite Hf by reflexivity | |];
      reflexivity. }
  cbn [flat_map]. rewrite !Hf by reflexivity.
  cbn [app]. rewrite !app_nil_r. reflexivity.
Qed.

(** The readings of the steps of [ranchu_init] *)

Lemma create_fdt_readings (env : Env) b :
  create_device_tree_ok env = true ->
  kvm_enabled env = false ->
  let t := fst (create_fdt env b) in
  sysbus_devices t = [] /\ fdt_regs t = [] /\ fdt_interrupts t = [] /\
  subnodes t
  = ["/firmware"; "/firmware/android"; "/chosen"; "/memory"; "/apb-pclk"]%string /\
  fdt_cell "phandle" t = [("/apb-pclk"%string, next_phandle b)] /\
  fdt_cell "interrupt-parent" t = [] /\ fdt_clocks t = [] /\
  timer_wires t = [] /\ irq_wires t = [].
Proof.
  intros Hok K t. subst t. unfold create_fdt.
  rewrite (bind_done _ _ _ _ _ _ (eq_refl : emit create_device_tree b = _)).
  rewrite Hok, K. cbn [negb].
  unfold bind, when; cbn;
    repeat split; reflexivity.
Qed.

Lemma fdt_add_timer_nodes_readings (env : Env) b :
  let t := fst (fdt_add_timer_nodes env b) in
  sysbus_devices t = [] /\ fdt_regs t = [] /\
  (exists cells, fdt_interrupts t = [("/timer"%string, cells)]) /\
  subnodes t = ["/timer"%string] /\
  fdt_cell "phandle" t = [] /\
  fdt_cell "interrupt-parent" t = [] /\ fdt_clocks t = [] /\
  timer_wires t = [] /\ irq_wires t = [].
Proof.
  cbn. repeat split; try reflexivity. eexists. reflexivity.
Qed.

Lemma fdt_add_cpu_nodes_trace (env : Env) b :
  fst (fdt_add_cpu_nodes env b)
  = [ qemu_fdt_add_subnode "/cpus";
      qemu_fdt_setprop_cell "/cpus" "#address-cells" 1;
      qemu_fdt_setprop_cell "/cpus" "#size-cells" 0 ]
    ++ flat_map
         (fun cpu =>
            [ qemu_fdt_add_subnode (cpu_nodename cpu);
              qemu_fdt_setprop_string (cpu_nodename cpu) "device_type" "cpu";
              qemu_fdt_setprop_string (cpu_nodename cpu) "compatible"
                (dtb_compatible env cpu) ]
            ++ (if vbi_smp_cpus (vbi b) >? 1
                then [qemu_fdt_setprop_string (cpu_nodename cpu)
                        "enable-method" "psci"]
                else [])
            ++ [qemu_fdt_setprop_cell (cpu_nodename cpu) "reg" cpu])
         (range_down (vbi_smp_cpus (vbi b))).
Proof.
  unfold fdt_add_cpu_nodes.
  rewrite (bind_done _ _ _ _ _ _ (eq_refl : get_vbi b = _)).
  rewrite (bind_done _ _ _ _ _ _ (eq_refl : emit _ b = _)).
  rewrite (bind_done _ _ _ _ _ _ (eq_refl : emit _ b = _)).
  rewrite (bind_done _ _ _ _ _ _ (eq_refl : emit _ b = _)).
  cbn [app fst snd].
  erewrite for_each_run; [reflexivity |].
  intro i. cbv beta. destruct (vbi_smp_cpus (vbi b) >? 1); reflexivity.
Qed.

Lemma fdt_add_cpu_nodes_readings (env : Env) b :
  let t := fst (fdt_add_cpu_nodes env b) in
  sysbus_devices t = [] /\ fdt_regs t = [] /\ fdt_interrupts t = [] /\
  subnodes t
  = "/cpus"%string :: map cpu_nodename (range_down (vbi_smp_cpus (vbi b))) /\
  fdt_cell "phandle" t = [] /\
  fdt_cell "interrupt-parent" t = [] /\ fdt_clocks t = [] /\
  timer_wires t = [] /\ irq_wires t = [].
Proof.
  intro t. subst t. rewrite fdt_add_cpu_nodes_trace.
  unfold sysbus_devices, fdt_regs, fdt_interrupts, subnodes, fdt_cell,
    fdt_clocks, timer_wires, irq_wires.
  rewrite !flat_map_app, !flat_map_twice. cbn [flat_map app].
  repeat split;
    try (apply flat_map_nil_all; intro cpu;
         destruct (vbi_smp_cpus (vbi b) >? 1); reflexivity).
  cbn [String.eqb Ascii.eqb Bool.eqb app]. f_equal.
  induction (range_down (vbi_smp_cpus (vbi b))) as [| i l IH]; [reflexivity |].
  cbn [flat_map map]. rewrite IH.
  destruct (vbi_smp_cpus (vbi b) >? 1); reflexivity.
Qed.

Lemma create_gic_readings (env : Env) b :
  let t := fst (create_gic env b) in
  sysbus_devices t = [] /\
  fdt_regs t = [("/intc"%string, base (memmap RANCHU_GIC_DIST))] /\
  fdt_interrupts t = [] /\
  subnodes t = ["/intc"%string] /\
  fdt_cell "phandle" t = [("/intc"%string, next_phandle b)] /\
  fdt_cell "interrupt-parent" t = [("/"%string, next_phandle b)] /\
  fdt_clocks t = [] /\
  timer_wires t
  = flat_map (fun i => [ (i, 0, NUM_IRQS + i * 32 + 30);
                         (i, 1, NUM_IRQS + i * 32 + 27) ])
             (range_up (smp_cpus env)) /\
  irq_wires t
  = map (fun i => (i, i, ARM_CPU_IRQ env)) (range_up (smp_cpus env)).
Proof.
  intro t. subst t. rewrite create_gic_trace.
  unfold sysbus_devices, fdt_regs, fdt_interrupts, subnodes, fdt_cell,
    fdt_clocks, timer_wires, irq_wires.
  rewrite !flat_map_app, !flat_map_twice.
  cbn.
  repeat split;
    try (rewrite (flat_map_nil_all _ (range_up _)) by (intro; reflexivity);
         reflexivity).
  - rewrite app_nil_r. reflexivity.
  - rewrite app_nil_r.
    induction (range_up (smp_cpus env)) as [| i l IH]; [reflexivity |].
    cbn [map flat_map app]. rewrite <- IH. reflexivity.
Qed.

Lemma create_simple_devices_readings b :
  let t := fst (create_simple_devices b) in
  sysbus_devices t
  = map (fun d => (snd d, base (memmap (fst d)), irqmap (fst d)))
        simple_devices /\
  fdt_regs t
  = map (fun d => (simple_nodename d, base (memmap (fst d)))) simple_devices /\
  fdt_interrupts t
  = map (fun d => (simple_nodename d,
                   [GIC_FDT_IRQ_TYPE_SPI; irqmap (fst d);
                    GIC_FDT_IRQ_FLAGS_LEVEL_HI])) simple_devices /\
  subnodes t = map simple_nodename simple_devices /\
  fdt_cell "phandle" t = [] /\
  fdt_cell "interrupt-parent" t = [] /\
  fdt_clocks t
  = [(simple_nodename (RANCHU_UART, "pl011"%string),
      [clock_phandle (vbi b); clock_phandle (vbi b)])] /\
  timer_wires t = [] /\ irq_wires t = [].
Proof. repeat split; vm_compute; reflexivity. Qed.

Lemma create_virtio_devices_readings b :
  let t := fst (create_virtio_devices b) in
  sysbus_devices t
  = map (fun i => ("virtio-mmio"%string, virtio_base i, virtio_irq i))
        (range_up NUM_VIRTIO_TRANSPORTS) /\
  fdt_regs t
  = map (fun i => (virtio_nodename i, virtio_base i))
        (range_down NUM_VIRTIO_TRANSPORTS) /\
  fdt_interrupts t
  = map (fun i => (virtio_nodename i,
                   [GIC_FDT_IRQ_TYPE_SPI; virtio_irq i;
                    GIC_FDT_IRQ_FLAGS_EDGE_LO_HI]))
        (range_down NUM_VIRTIO_TRANSPORTS) /\
  subnodes t = map virtio_nodename (range_down NUM_VIRTIO_TRANSPORTS) /\
  fdt_cell "phandle" t = [] /\
  fdt_cell "interrupt-parent" t = [] /\ fdt_clocks t = [] /\
  timer_wires t = [] /\ irq_wires t = [].
Proof. repeat split; vm_compute; reflexivity. Qed.

Ltac reading_split Hram Hfdt Hkvm Hcpu :=
  lazymatch goal with
  | |- context [?R (fst (ranchu_init ?env ?machine ?b))] =>
      let E := fresh "E" in
      assert (E : R (fst (ranchu_init env machine b))
                  = R (fst (create_fdt env (board_without_fdt env b)))
                    ++ R (fst (fdt_add_timer_nodes env (board_with_fdt env b)))
                    ++ R (fst (fdt_add_cpu_nodes env (board_with_fdt env b)))
                    ++ R (fst (create_gic env (board_with_fdt env b)))
                    ++ R (fst (create_simple_devices (board_with_gic env b)))
                    ++ R (fst (create_virtio_devices (board_with_gic env b))))
        by (apply (ranchu_init_reading _ env machine _ b Hram Hfdt Hkvm Hcpu);
            intros [] H; try discriminate H; reflexivity);
      rewrite E; clear E
  end.

Lemma ranchu_init_sysbus_devices (env : Env) (machine : MachineState)
    (oc : string) b :
  ram_size machine <= size (memmap RANCHU_MEM) ->
  create_device_tree_ok env = true ->
  kvm_enabled env = false ->
  (0 < smp_cpus env ->
   cpu_class_by_name env (chosen_cpu_model machine) = Some oc) ->
  sysbus_devices (fst (ranchu_init env machine b))
  = map (fun d => (snd d, base (memmap (fst d)), irqmap (fst d)))
        simple_devices
    ++ map (fun i => ("virtio-mmio"%string, virtio_base i, virtio_irq i))
           (range_up NUM_VIRTIO_TRANSPORTS).
Proof.
  intros Hram Hfdt Hkvm Hcpu.
  reading_split Hram Hfdt Hkvm Hcpu.
  destruct (create_fdt_readings env (board_without_fdt env b) Hfdt Hkvm)
    as (-> & _).
  destruct (fdt_add_timer_nodes_readings env (board_with_fdt env b))
    as (-> & _).
  destruct (fdt_add_cpu_nodes_readings env (board_with_fdt env b))
    as (-> & _).
  destruct (create_gic_readings env (board_with_fdt env b)) as (-> & _).
  destruct (create_simple_devices_readings (board_with_gic env b))
    as (-> & _).
  destruct (create_virtio_devices_readings (board_with_gic env b))
    as (-> & _).
  reflexivity.
Qed.

Ltac pieces Hfdt Hkvm env b :=
  let H1 := fresh in let H2 := fresh in let H3 := fresh in
  let H4 := fresh in let H5 := fresh in let H6 := fresh in
  pose proof (create_fdt_readings env (board_without_fdt env b) Hfdt Hkvm)
    as H1;
  pose proof (fdt_add_timer_nodes_readings env (board_with_fdt env b)) as H2;
  pose proof (fdt_add_cpu_nodes_readings env (board_with_fdt env b)) as H3;
  pose proof (create_gic_readings env (board_with_fdt env b)) as H4;
  pose proof (create_simple_devices_readings (board_with_gic env b)) as H5;
  pose proof (create_virtio_devices_readings (board_with_gic env b)) as H6;
  cbv zeta in H1, H2, H3, H4, H5, H6;
  destruct H1 as (?F1 & ?F2 & ?F3 & ?F4 & ?F5 & ?F6 & ?F7 & ?F8 & ?F9);
  destruct H2 as (?T1 & ?T2 & (?cells & ?T3) & ?T4 & ?T5 & ?T6 & ?T7 & ?T8 & ?T9);
  destruct H3 as (?N1 & ?N2 & ?N3 & ?N4 & ?N5 & ?N6 & ?N7 & ?N8 & ?N9);
  destruct H4 as (?G1 & ?G2 & ?G3 & ?G4 & ?G5 & ?G6 & ?G7 & ?G8 & ?G9);
  destruct H5 as (?S1 & ?S2 & ?S3 & ?S4 & ?S5 & ?S6 & ?S7 & ?S8 & ?S9);
  destruct H6 as (?V1 & ?V2 & ?V3 & ?V4 & ?V5 & ?V6 & ?V7 & ?V8 & ?V9).

Lemma ranchu_init_fdt_regs (env : Env) (machine : MachineState)
    (oc : string) b :
  ram_size machine <= size (memmap RANCHU_MEM) ->
  create_device_tree_ok env = true ->
  kvm_enabled env = false ->
  (0 < smp_cpus env ->
   cpu_class_by_name env (chosen_cpu_model machine) = Some oc) ->
  fdt_regs (fst (ranchu_init env machine b))
  = ("/intc"%string, base (memmap RANCHU_GIC_DIST))
    :: map (fun d => (simple_nodename d, base (memmap (fst d)))) simple_devices
    ++ map (fun i => (virtio_nodename i, virtio_base i))
           (range_down NUM_VIRTIO_TRANSPORTS).
Proof.
  intros Hram Hfdt Hkvm Hcpu. reading_split Hram Hfdt Hkvm Hcpu. pieces Hfdt Hkvm env b.
  rewrite F2, T2, N2, G2, S2, V2. reflexivity.
Qed.

Lemma ranchu_init_fdt_interrupts (env : Env) (machine : MachineState)
    (oc : string) b :
  ram_size machine <= size (memmap RANCHU_MEM) ->
  create_device_tree_ok env = true ->
  kvm_enabled env = false ->
  (0 < smp_cpus env ->
   cpu_class_by_name env (chosen_cpu_model machine) = Some oc) ->
  exists cells,
    fdt_interrupts (fst (ranchu_init env machine b))
    = ("/timer"%string, cells)
      :: map (fun d => (simple_nodename d,
                        [GIC_FDT_IRQ_TYPE_SPI; irqmap (fst d);
                         GIC_FDT_IRQ_FLAGS_LEVEL_HI])) simple_devices
      ++ map (fun i => (virtio_nodename i,
                        [GIC_FDT_IRQ_TYPE_SPI; virtio_irq i;
                         GIC_FDT_IRQ_FLAGS_EDGE_LO_HI]))
             (range_down NUM_VIRTIO_TRANSPORTS).
Proof.
  intros Hram Hfdt Hkvm Hcpu. reading_split Hram Hfdt Hkvm Hcpu. pieces Hfdt Hkvm env b.
  rewrite F3, T3, N3, G3, S3, V3. exists cells. reflexivity.
Qed.

Lemma ranchu_init_subnodes (env : Env) (machine : MachineState)
    (oc : string) b :
  ram_size machine <= size (memmap RANCHU_MEM) ->
  create_device_tree_ok env = true ->
  kvm_enabled env = false ->
  (0 < smp_cpus env ->
   cpu_class_by_name env (chosen_cpu_model machine) = Some oc) ->
  subnodes (fst (ranchu_init env machine b))
  = ["/firmware"%string; "/firmware/android"%string; "/chosen"%string;
     "/memory"%string; "/apb-pclk"%string]
    ++ ["/timer"%string; "/cpus"%string]
    ++ map cpu_nodename (range_down (smp_cpus env))
    ++ "/intc"%string :: map simple_nodename simple_devices
    ++ map virtio_nodename (range_down NUM_VIRTIO_TRANSPORTS).
Proof.
  intros Hram Hfdt Hkvm Hcpu. reading_split Hram Hfdt Hkvm Hcpu. pieces Hfdt Hkvm env b.
  rewrite F4, T4, N4, G4, S4, V4. cbn [board_with_fdt vbi vbi_smp_cpus].
  rewrite <- ?app_assoc. reflexivity.
Qed.

Lemma ranchu_init_phandles (env : Env) (machine : MachineState)
    (oc : string) b :
  ram_size machine <= size (memmap RANCHU_MEM) ->
  create_device_tree_ok env = true ->
  kvm_enabled env = false ->
  (0 < smp_cpus env ->
   cpu_class_by_name env (chosen_cpu_model machine) = Some oc) ->
  let t := fst (ranchu_init env machine b) in
  fdt_cell "phandle" t
  = [("/apb-pclk"%string, next_phandle b); ("/intc"%string, next_phandle b + 1)] /\
  fdt_cell "interrupt-parent" t = [("/"%string, next_phandle b + 1)] /\
  fdt_clocks t
  = [(simple_nodename (RANCHU_UART, "pl011"%string),
      [next_phandle b; next_phandle b])].
Proof.
  intros Hram Hfdt Hkvm Hcpu t. subst t. pieces Hfdt Hkvm env b.
  split; [| split].
  - reading_split Hram Hfdt Hkvm Hcpu. rewrite F5, T5, N5, G5, S5, V5. reflexivity.
  - reading_split Hram Hfdt Hkvm Hcpu. rewrite F6, T6, N6, G6, S6, V6. reflexivity.
  - reading_split Hram Hfdt Hkvm Hcpu. rewrite F7, T7, N7, G7, S7, V7. reflexivity.
Qed.

Lemma ranchu_init_wires (env : Env) (machine : MachineState)
    (oc : string) b :
  ram_size machine <= size (memmap RANCHU_MEM) ->
  create_device_tree_ok env = true ->
  kvm_enabled env = false ->
  (0 < smp_cpus env ->
   cpu_class_by_name env (chosen_cpu_model machine) = Some oc) ->
  let t := fst (ranchu_init env machine b) in
  timer_wires t
  = flat_map (fun i => [ (i, 0, NUM_IRQS + i * 32 + 30);
                         (i, 1, NUM_IRQS + i * 32 + 27) ])
             (range_up (smp_cpus env)) /\
  irq_wires t
  = map (fun i => (i, i, ARM_CPU_IRQ env)) (range_up (smp_cpus env)).
Proof.
  intros Hram Hfdt Hkvm Hcpu t. subst t. pieces Hfdt Hkvm env b.
  split.
  - reading_split Hram Hfdt Hkvm Hcpu. rewrite F8, T8, N8, G8, S8, V8.
    cbn [app]. rewrite app_nil_r. reflexivity.
  - reading_split Hram Hfdt Hkvm Hcpu. rewrite F9, T9, N9, G9, S9, V9.
    cbn [app]. rewrite app_nil_r. reflexivity.
Qed.

Lemma NoDup_by_nodup (l : list Z) : nodup Z.eq_dec l = l -> NoDup l.
Proof. intros <-. apply NoDup_nodup. Qed.

Lemma NoDup_strings_by_nodup (l : list string) :
  nodup string_dec l = l -> NoDup l.
Proof. intros <-. apply NoDup_nodup. Qed.

Lemma NoDup_map_injective {X Y : Type} (f : X -> Y) (l : list X) :
  (forall x y, In x l -> In y l -> f x = f y -> x = y) ->
  NoDup l -> NoDup (map f l).
Proof.
  intros Hinj Hnd. induction Hnd as [| x l Hx Hnd IH]; cbn [map].
  - constructor.
  - constructor.
    + intro Hin. apply in_map_iff in Hin. destruct Hin as (y & Hy & Hyl).
      assert (y = x) by (apply Hinj; [right; exact Hyl | left; reflexivity | exact Hy]).
      subst. contradiction.
    + apply IH. intros a c Ha Hc. apply Hinj; right; assumption.
Qed.

Lemma NoDup_by_partition {X : Type} (P : X -> bool) (l : list X) :
  NoDup (filter P l) -> NoDup (filter (fun x => negb (P x)) l) -> NoDup l.
Proof.
  induction l as [| x l IH]; cbn [filter]; intros H1 H2; [constructor |].
  destruct (P x) eqn:E; cbn [negb] in H2.
  - inversion H1 as [| ? ? Hx H1']; subst. constructor; [| auto].
    intro Hin. apply Hx. apply filter_In. split; assumption.
  - inversion H2 as [| ? ? Hx H2']; subst. constructor; [| auto].
    intro Hin. apply Hx. apply filter_In. split; [assumption |].
    rewrite E. reflexivity.
Qed.

Lemma range_up_NoDup (n : Z) : NoDup (range_up n).
Proof.
  unfold range_up. apply NoDup_map_injective; [| apply seq_NoDup].
  intros x y _ _ H. lia.
Qed.

Lemma fmt_d_injective (a b : Z) : fmt_d a = fmt_d b -> a = b.
Proof.
  unfold fmt_d. intro H. apply DecimalZ.to_int_inj.
  assert (N : forall z, Z.to_int z <> Decimal.Pos Decimal.Nil /\
                        Z.to_int z <> Decimal.Neg Decimal.Nil).
  { intros [| p | p]; cbn; split; try discriminate;
      intro E; injection E; apply DecimalPos.Unsigned.to_uint_nonnil. }
  apply (f_equal DecimalString.NilZero.int_of_string) in H.
  rewrite !DecimalString.NilZero.isi in H by apply N.
  injection H. auto.
Qed.

Lemma cpu_nodename_injective (a b : Z) :
  cpu_nodename a = cpu_nodename b -> a = b.
Proof.
  unfold cpu_nodename. cbn [String.append]. intro H.
  injection H. apply fmt_d_injective.
Qed.

(** X23.  When the RAM fits, the device tree is created, KVM is not
    enabled, a CPU is asked for and the CPU model is unknown: [ranchu_init]
    exits with status 1, its last call prints that the CPU definition was not
    found, and before that it has created no CPU object, put no device on
    the bus, wired no timer, and added only the nodes of [create_fdt] and
    [/timer] to the device tree. *)
Theorem unknown_cpu_model_stops_before_any_device (env : Env)
    (machine : MachineState) (b : board) :
  ram_size machine <= size (memmap RANCHU_MEM) ->
  create_device_tree_ok env = true ->
  kvm_enabled env = false ->
  0 < smp_cpus env ->
  cpu_class_by_name env (chosen_cpu_model machine) = None ->
  let t := fst (ranchu_init env machine b) in
  snd (ranchu_init env machine b) = Exit 1 /\
  last t create_device_tree
  = fprintf_stderr ("Unable to find CPU definition" ++ nl)%string /\
  cpu_objects t = [] /\ sysbus_devices t = [] /\ timer_wires t = [] /\
  subnodes t
  = ["/firmware"%string; "/firmware/android"%string; "/chosen"%string;
     "/memory"%string; "/apb-pclk"%string; "/timer"%string].
Proof.
  intros Hram Hfdt Hkvm Hn Hc t. subst t.
  destruct (ranchu_init_unknown_cpu env machine b Hram Hfdt Hkvm Hn Hc)
    as [E1 E2].
  split; [exact E1 |]. rewrite E2.
  split; [rewrite !app_assoc; apply last_last |].
  destruct (create_fdt_run env (board_without_fdt env b) Hfdt Hkvm)
    as (tf & Ef & (C1 & _)).
  destruct (fdt_add_timer_nodes_run env (board_with_fdt env b))
    as (tt' & Et & (C2 & _)).
  pose proof (create_fdt_readings env (board_without_fdt env b) Hfdt Hkvm)
    as F.
  pose proof (fdt_add_timer_nodes_readings env (board_with_fdt env b)) as T.
  cbv zeta in F, T.
  destruct F as (F1 & _ & _ & F4 & _ & _ & _ & F8 & _).
  destruct T as (T1 & _ & _ & T4 & _ & _ & _ & T8 & _).
  split; [| split; [| split]].
  - rewrite Ef, Et. cbn [fst]. unfold cpu_objects in *.
    change (create_device_tree :: tf) with ([create_device_tree] ++ tf).
    rewrite !flat_map_app, C1, C2. reflexivity.
  - unfold sysbus_devices in *. rewrite !flat_map_app, F1, T1. reflexivity.
  - unfold timer_wires in *. rewrite !flat_map_app, F8, T8. reflexivity.
  - unfold subnodes in *. rewrite !flat_map_app, F4, T4.
    cbn [flat_map app]. reflexivity.
Qed.

(** X24.  When [ranchu_init] reaches the devices (the RAM fits, the device
    tree is created, KVM is not enabled so that [create_fdt] returns, the CPU
    model is known when a CPU is asked for), it puts on the bus the six
    simple devices and then the 32 virtio transports, each at the base of its
    slot with the line of its slot; the 38 addresses are pairwise different,
    so are the 38 lines, and every line is above 0 and below [NUM_IRQS]. *)
Theorem bus_devices_have_own_address_and_line (env : Env)
    (machine : MachineState) (oc : string) (b : board) :
  ram_size machine <= size (memmap RANCHU_MEM) ->
  create_device_tree_ok env = true ->
  kvm_enabled env = false ->
  (0 < smp_cpus env ->
   cpu_class_by_name env (chosen_cpu_model machine) = Some oc) ->
  let devices := sysbus_devices (fst (ranchu_init env machine b)) in
  devices
  = map (fun d => (snd d, base (memmap (fst d)), irqmap (fst d)))
        simple_devices
    ++ map (fun i => ("virtio-mmio"%string, virtio_base i, virtio_irq i))
           (range_up NUM_VIRTIO_TRANSPORTS) /\
  NoDup (map (fun d => snd (fst d)) devices) /\
  NoDup (map snd devices) /\
  Forall (fun d => 0 < snd d < NUM_IRQS) devices.
Proof.
  intros Hram Hfdt Hkvm Hcpu devices. subst devices.
  rewrite (ranchu_init_sysbus_devices env machine oc b Hram Hfdt Hkvm Hcpu).
  split; [reflexivity |]. split; [| split].
  - apply NoDup_by_nodup. vm_compute. reflexivity.
  - apply NoDup_by_nodup. vm_compute. reflexivity.
  - apply Forall_forall. intros d Hd. apply in_app_or in Hd.
    destruct Hd as [Hd | Hd]; apply in_map_iff in Hd;
      destruct Hd as (x & <- & Hx); cbn [snd].
    + cbn in Hx. unfold NUM_IRQS.
      repeat (destruct Hx as [<- | Hx]; [cbn; lia |]). contradiction.
    + apply range_up_In in Hx. unfold virtio_irq, NUM_IRQS, NUM_VIRTIO_TRANSPORTS in *.
      cbn [irqmap]. lia.
Qed.

(** X25.  For every device [ranchu_init] puts on the bus there is a node
    added to the device tree whose [reg] starts with the address of the
    device and whose [interrupts] names its line as a shared peripheral
    interrupt. *)
Theorem device_tree_describes_every_bus_device (env : Env)
    (machine : MachineState) (oc : string) (b : board) :
  ram_size machine <= size (memmap RANCHU_MEM) ->
  create_device_tree_ok env = true ->
  (0 < smp_cpus env ->
   cpu_class_by_name env (chosen_cpu_model machine) = Some oc) ->
  let t := fst (ranchu_init env machine b) in
  forall name addr line,
    In (name, addr, line) (sysbus_devices t) ->
    exists path flags,
      In path (subnodes t) /\
      In (path, addr) (fdt_regs t) /\
      In (path, [GIC_FDT_IRQ_TYPE_SPI; line; flags]) (fdt_interrupts t).
Proof.
  intros Hram Hfdt Hcpu t name addr line. subst t.
  destruct (kvm_enabled env) eqn:Hkvm.
  { rewrite (ranchu_init_kvm env machine b Hram Hfdt Hkvm). cbn [fst].
    intros []. }
  rewrite (ranchu_init_sysbus_devices env machine oc b Hram Hfdt Hkvm Hcpu),
    (ranchu_init_fdt_regs env machine oc b Hram Hfdt Hkvm Hcpu),
    (ranchu_init_subnodes env machine oc b Hram Hfdt Hkvm Hcpu).
  destruct (ranchu_init_fdt_interrupts env machine oc b Hram Hfdt Hkvm Hcpu)
    as [cells ->].
  intro Hd. apply in_app_or in Hd.
  destruct Hd as [Hd | Hd]; apply in_map_iff in Hd;
    destruct Hd as (x & Ex & Hx); injection Ex as <- <- <-.
  - exists (simple_nodename x), GIC_FDT_IRQ_FLAGS_LEVEL_HI.
    split; [| split].
    + do 3 (apply in_or_app; right). right.
      apply in_or_app; left. apply in_map. exact Hx.
    + right. apply in_or_app. left.
      apply (in_map (fun d => (simple_nodename d, base (memmap (fst d))))).
      exact Hx.
    + right. apply in_or_app. left.
      apply (in_map (fun d => (simple_nodename d,
                               [GIC_FDT_IRQ_TYPE_SPI; irqmap (fst d);
                                GIC_FDT_IRQ_FLAGS_LEVEL_HI]))).
      exact Hx.
  - assert (Hx' : In x (range_down NUM_VIRTIO_TRANSPORTS)).
    { unfold range_down. apply in_rev. rewrite rev_involutive. exact Hx. }
    exists (virtio_nodename x), GIC_FDT_IRQ_FLAGS_EDGE_LO_HI.
    split; [| split].
    + do 3 (apply in_or_app; right). right.
      apply in_or_app; right. apply in_map. exact Hx'.
    + right. apply in_or_app. right.
      apply (in_map (fun i => (virtio_nodename i, virtio_base i))).
      exact Hx'.
    + right. apply in_or_app. right.
      apply (in_map (fun i => (virtio_nodename i,
                               [GIC_FDT_IRQ_TYPE_SPI; virtio_irq i;
                                GIC_FDT_IRQ_FLAGS_EDGE_LO_HI]))).
      exact Hx'.
Qed.

Lemma console_done_board (env : Env) b b' :
  snd (initialize_console_and_adb env b) = Done tt b' ->
  vbi b' = vbi b /\ next_phandle b' = next_phandle b.
Proof.
  rewrite initialize_console_and_adb_unfold.
  destruct (first_free_or_none
              (fun k => port_pair_free env
                          (first_console_port b + 2 * Z.of_nat k))
              (Z.to_nat MAX_ANDROID_EMULATORS))
    as [(k & Hk & Hp & Hl) | Hall].
  - destruct (console_loop_scan env _ k (first_console_port b) b Hk Hl Hp)
      as [-> _].
    intro H. injection H as <-. split; reflexivity.
  - destruct (console_loop_exhausted env _ (first_console_port b) b Hall)
      as (-> & _).
    discriminate.
Qed.

(** X26.  When the RAM fits, the device tree is created, KVM is not enabled
    and the CPU model is known when a CPU is asked for,
    [ranchu_init] gives out two phandles, the first two of the
    allocator: one to [/apb-pclk] and the next to [/intc].  The
    [interrupt-parent] of the root is the phandle of [/intc], the [clocks]
    of the UART node are the phandle of [/apb-pclk] twice, and no other node
    gets a [phandle], an [interrupt-parent] or [clocks].  When [ranchu_init] completes, the board
    holds the clock phandle and the allocator has advanced by 2. *)
Theorem phandle_references_resolve (env : Env) (machine : MachineState)
    (oc : string) (b : board) :
  ram_size machine <= size (memmap RANCHU_MEM) ->
  create_device_tree_ok env = true ->
  kvm_enabled env = false ->
  (0 < smp_cpus env ->
   cpu_class_by_name env (chosen_cpu_model machine) = Some oc) ->
  let t := fst (ranchu_init env machine b) in
  exists clock gic,
    clock <> gic /\
    fdt_cell "phandle" t
    = [("/apb-pclk"%string, clock); ("/intc"%string, gic)] /\
    fdt_cell "interrupt-parent" t = [("/"%string, gic)] /\
    fdt_clocks t
    = [(simple_nodename (RANCHU_UART, "pl011"%string), [clock; clock])] /\
    clock = next_phandle b /\ gic = next_phandle b + 1 /\
    forall b', snd (ranchu_init env machine b) = Done tt b' ->
               clock_phandle (vbi b') = clock /\
               next_phandle b' = next_phandle b + 2.
Proof.
  intros Hram Hfdt Hkvm Hcpu t. subst t.
  destruct (ranchu_init_phandles env machine oc b Hram Hfdt Hkvm Hcpu)
    as (H1 & H2 & H3).
  exists (next_phandle b), (next_phandle b + 1).
  split; [lia |]. split; [exact H1 |]. split; [exact H2 |].
  split; [exact H3 |]. split; [reflexivity |]. split; [reflexivity |].
  intros b'. rewrite (ranchu_init_outcome env machine oc b Hram Hfdt Hkvm Hcpu).
  destruct (snd (initialize_console_and_adb env (board_with_gic env b)))
    as [[] b3 | st |] eqn:Ec; [| discriminate ..].
  apply console_done_board in Ec. destruct Ec as [Ev En].
  intro H. injection H as <-. cbn [vbi clock_phandle next_phandle].
  rewrite Ev, En. split; reflexivity.
Qed.

Lemma timer_inputs_bound (n : nat) :
  NoDup (map snd
           (flat_map (fun i => [ (i, 0, NUM_IRQS + i * 32 + 30);
                                 (i, 1, NUM_IRQS + i * 32 + 27) ])
                     (map Z.of_nat (seq 0 n)))) /\
  Forall (fun w => NUM_IRQS <= snd w < NUM_IRQS + 32 * Z.of_nat n)
         (flat_map (fun i => [ (i, 0, NUM_IRQS + i * 32 + 30);
                               (i, 1, NUM_IRQS + i * 32 + 27) ])
                   (map Z.of_nat (seq 0 n))).
Proof.
  induction n as [| n [IH1 IH2]].
  - cbn. split; constructor.
  - rewrite seq_S, map_app, flat_map_app, map_app. cbn [plus map flat_map app].
    split.
    + apply NoDup_app; [exact IH1 | |].
      * cbn [snd]. apply NoDup_by_nodup. cbn [nodup In].
        destruct (in_dec Z.eq_dec (NUM_IRQS + Z.of_nat n * 32 + 30)
                    [NUM_IRQS + Z.of_nat n * 32 + 27]) as [[H | []] | _];
          [lia | reflexivity].
      * intros a Ha Hb. apply in_map_iff in Ha. destruct Ha as (w & <- & Hw).
        rewrite Forall_forall in IH2. specialize (IH2 w Hw).
        cbn [snd In] in Hb. lia.
    + apply Forall_app. split.
      * eapply Forall_impl; [| exact IH2]. cbv beta. intros w Hw. lia.
      * repeat constructor; cbn [snd]; unfold NUM_IRQS; lia.
Qed.

(** X27.  When the RAM fits, the device tree is created, KVM is not enabled
    and the CPU model is known when a CPU is asked for: for each CPU [i], in
    ascending order, [ranchu_init] wires timer
    output 0 to input [NUM_IRQS + 32 i + 30] of the interrupt controller and
    output 1 to input [NUM_IRQS + 32 i + 27], and output [i] of the
    controller to the IRQ input of CPU [i].  The timer inputs are pairwise
    different and all at or above [NUM_IRQS], hence different from the line
    of every device on the bus. *)
Theorem timers_wired_above_device_lines (env : Env) (machine : MachineState)
    (oc : string) (b : board) :
  ram_size machine <= size (memmap RANCHU_MEM) ->
  create_device_tree_ok env = true ->
  kvm_enabled env = false ->
  (0 < smp_cpus env ->
   cpu_class_by_name env (chosen_cpu_model machine) = Some oc) ->
  let t := fst (ranchu_init env machine b) in
  timer_wires t
  = flat_map (fun i => [ (i, 0, NUM_IRQS + i * 32 + 30);
                         (i, 1, NUM_IRQS + i * 32 + 27) ])
             (range_up (smp_cpus env)) /\
  irq_wires t
  = map (fun i => (i, i, ARM_CPU_IRQ env)) (range_up (smp_cpus env)) /\
  NoDup (map snd (timer_wires t)) /\
  (forall w d, In w (timer_wires t) -> In d (sysbus_devices t) ->
               snd d < NUM_IRQS <= snd w).
Proof.
  intros Hram Hfdt Hkvm Hcpu t. subst t.
  destruct (ranchu_init_wires env machine oc b Hram Hfdt Hkvm Hcpu) as [H1 H2].
  rewrite H1, H2.
  destruct (timer_inputs_bound (Z.to_nat (smp_cpus env))) as [B1 B2].
  fold (range_up (smp_cpus env)) in B1, B2.
  split; [reflexivity |]. split; [reflexivity |]. split; [exact B1 |].
  intros w d Hw Hd.
  rewrite Forall_forall in B2. specialize (B2 w Hw).
  rewrite (ranchu_init_sysbus_devices env machine oc b Hram Hfdt Hkvm Hcpu) in Hd.
  apply in_app_or in Hd.
  destruct Hd as [Hd | Hd]; apply in_map_iff in Hd;
    destruct Hd as (x & <- & Hx); cbn [snd].
  - cbn in Hx. unfold NUM_IRQS in *.
    repeat (destruct Hx as [<- | Hx]; [cbn; lia |]). contradiction.
  - apply range_up_In in Hx.
    unfold virtio_irq, NUM_IRQS, NUM_VIRTIO_TRANSPORTS in *.
    cbn [irqmap]. lia.
Qed.

(** X28.  When the RAM fits, the device tree is created, KVM is not enabled
    and the CPU model is known when a CPU is asked for, the nodes
    [ranchu_init] adds to the device tree are, in order: the five of
    [create_fdt], [/timer], [/cpus], the CPU nodes from the highest index
    down, [/intc], the six device nodes and the 32 virtio nodes from the
    highest address down; no node is added twice. *)
Theorem device_tree_nodes_are_distinct (env : Env) (machine : MachineState)
    (oc : string) (b : board) :
  ram_size machine <= size (memmap RANCHU_MEM) ->
  create_device_tree_ok env = true ->
  kvm_enabled env = false ->
  (0 < smp_cpus env ->
   cpu_class_by_name env (chosen_cpu_model machine) = Some oc) ->
  let nodes := subnodes (fst (ranchu_init env machine b)) in
  nodes
  = ["/firmware"%string; "/firmware/android"%string; "/chosen"%string;
     "/memory"%string; "/apb-pclk"%string; "/timer"%string; "/cpus"%string]
    ++ map cpu_nodename (range_down (smp_cpus env))
    ++ "/intc"%string :: map simple_nodename simple_devices
    ++ map virtio_nodename (range_down NUM_VIRTIO_TRANSPORTS) /\
  NoDup nodes.
Proof.
  intros Hram Hfdt Hkvm Hcpu nodes. subst nodes.
  rewrite (ranchu_init_subnodes env machine oc b Hram Hfdt Hkvm Hcpu).
  split; [reflexivity |].
  assert (Hc : forall l,
            filter (String.prefix "/cpus/") (map cpu_nodename l)
            = map cpu_nodename l /\
            filter (fun x => negb (String.prefix "/cpus/" x))
                   (map cpu_nodename l) = []).
  { induction l as [| i l [IH1 IH2]]; [split; reflexivity |].
    cbn [map filter].
    change (String.prefix "/cpus/" (cpu_nodename i)) with true.
    cbn [negb]. rewrite IH1, IH2. split; reflexivity. }
  apply (NoDup_by_partition (String.prefix "/cpus/")).
  - rewrite !filter_app. rewrite (proj1 (Hc _)).
    cbn [filter app].
    replace (filter (String.prefix "/cpus/") (map simple_nodename simple_devices))
      with (@nil string) by (vm_compute; reflexivity).
    replace (filter (String.prefix "/cpus/")
               (map virtio_nodename (range_down NUM_VIRTIO_TRANSPORTS)))
      with (@nil string) by (vm_compute; reflexivity).
    change (String.prefix "/cpus/" "/firmware") with false.
    change (String.prefix "/cpus/" "/firmware/android") with false.
    change (String.prefix "/cpus/" "/chosen") with false.
    change (String.prefix "/cpus/" "/memory") with false.
    change (String.prefix "/cpus/" "/apb-pclk") with false.
    change (String.prefix "/cpus/" "/timer") with false.
    change (String.prefix "/cpus/" "/cpus") with false.
    change (String.prefix "/cpus/" "/intc") with false.
    cbn [app]. rewrite app_nil_r.
    apply NoDup_map_injective.
    + intros x y _ _. apply cpu_nodename_injective.
    + unfold range_down. apply NoDup_rev. apply range_up_NoDup.
  - rewrite !filter_app. rewrite (proj2 (Hc _)).
    apply NoDup_strings_by_nodup.
    vm_compute; reflexivity.
Qed.

(** X30.  Under KVM, when the RAM fits and the device tree is created,
    [ranchu_init] does not get beyond [create_fdt]: it makes the calls of
    [create_fdt] up to the one that adds [/psci] and is then killed by the
    read of the PSCI version through the pointer to CPU 0, which is NULL
    because no CPU has been created yet.  No CPU object has been created, no
    device put on the bus, and the nodes added are the five of [create_fdt]
    and [/psci]. *)
Theorem kvm_board_is_killed_reading_cpu0 (env : Env)
    (machine : MachineState) (b : board) :
  ram_size machine <= size (memmap RANCHU_MEM) ->
  create_device_tree_ok env = true ->
  kvm_enabled env = true ->
  let t := fst (ranchu_init env machine b) in
  snd (ranchu_init env machine b) = Crash /\
  t = create_fdt_calls_kvm (next_phandle b) /\
  last t create_device_tree = qemu_fdt_add_subnode "/psci" /\
  cpu_objects t = [] /\ sysbus_devices t = [] /\
  subnodes t
  = ["/firmware"%string; "/firmware/android"%string; "/chosen"%string;
     "/memory"%string; "/apb-pclk"%string; "/psci"%string].
Proof.
  intros Hram Hfdt Hkvm t. subst t.
  rewrite (ranchu_init_kvm env machine b Hram Hfdt Hkvm).
  repeat split.
Qed.

End BoardFacts.

(* ===================================================================== *)
(** ** Instances                                                         *)
(* ===================================================================== *)

Section VlMoreInstances.

Import Vl Handlers.

Lemma idle_pass_changes_nothing_witness :
  main_loop_should_exit (collaborators := quiet_collaborators)
    (booted_state tt)
  = Ok false (booted_state tt).
Proof.
  apply (idle_pass_changes_nothing (collaborators := quiet_collaborators)
           (booted_state tt)).
  repeat split; reflexivity.
Defined.

Lemma main_loop_ends_only_on_shutdown_witness :
  exists s1,
    main_loop_should_exit (collaborators := quiet_collaborators) s1
    = Ok true (set_shutdown_requested 0 (booted_state tt)) /\
    nonzero (shutdown_requested s1) = true.
Proof.
  destruct (main_loop_ends_only_on_shutdown
              (collaborators := quiet_collaborators) 1
              (set_shutdown_requested 1 (booted_state tt))
              (set_shutdown_requested 0 (booted_state tt)) eq_refl)
    as [(v & r & w & E & Hv) | (s1 & E & H1 & _)].
  - exfalso. injection E as <- _ _. lia.
  - exists s1. split; assumption.
Defined.

Lemma wakeup_request_only_wakes_suspended_witness :
  let s := set_current_run_state RUN_STATE_SUSPENDED (booted_state tt) in
  built_from_table s /\
  runs (qemu_system_wakeup_request (collaborators := quiet_collaborators) 1) s
       (fun _ s' => wakeup_reason s' = 1)
       (extern_stopped (collaborators := quiet_collaborators)).
Proof.
  intro s.
  assert (Hb : built_from_table s).
  { exists (initial_state tt), (booted_state tt). split; reflexivity. }
  split; [exact Hb |].
  eapply runs_weaken;
    [ exact (wakeup_request_only_wakes_suspended
               (collaborators := quiet_collaborators) 1 s Hb)
    | intros a s' H; exact (proj1 H)
    | auto ].
Defined.

Lemma wakeup_enable_flips_one_reason_witness :
  exists s',
    qemu_system_wakeup_enable 1 false (booted_state tt) = Ok tt s' /\
    wakeup_enabled 1 s' = false.
Proof.
  destruct (wakeup_enable_flips_one_reason
              (collaborators := quiet_collaborators) 1 false (booted_state tt)
              ltac:(lia)) as (s' & E & H & _).
  exists s'. split; assumption.
Defined.

Lemma reset_pass_runs_handlers_in_registration_order_witness :
  let s := set_current_run_state RUN_STATE_RUNNING
             (booted_state ([] : list extern)) in
  exists s1 s2 s3,
    register_all [mkResetEntry 1 10; mkResetEntry 2 20] s = Ok tt s1 /\
    qemu_system_reset_request (collaborators := recording_collaborators) s1
      = Ok tt s2 /\
    main_loop_should_exit (collaborators := recording_collaborators) s2
      = Ok false s3 /\
    world s3
    = [ cpu_stop_current; qemu_notify_event;
        pause_all_vcpus; cpu_synchronize_all_states;
        reset_handler (mkResetEntry 1 10); reset_handler (mkResetEntry 2 20);
        qapi_event_send_reset; cpu_synchronize_all_post_reset;
        resume_all_vcpus ].
Proof.
  intro s.
  destruct (reset_pass_runs_handlers_in_registration_order
              [mkResetEntry 1 10; mkResetEntry 2 20] s)
    as (s1 & s2 & s3 & H1 & H2 & H3 & H4 & _);
    [ repeat split; reflexivity | reflexivity | reflexivity
    | discriminate | discriminate |].
  exists s1, s2, s3. repeat split; assumption.
Defined.

End VlMoreInstances.

Section StartupInstances.

Import Startup.

Lemma smp_parse_accepts_within_bounds_witness :
  smp_parse 255 (Some (mkSmpOpts 4 0 0 0 0)) smp_defaults
  = SmpReturn true (mkSmpVars 4 4 1 1) [] /\
  smp_cpus (mkSmpVars 4 4 1 1) <= max_cpus (mkSmpVars 4 4 1 1) <= 255.
Proof.
  split; [reflexivity |].
  exact (proj1 (smp_parse_accepts_within_bounds 255
                  (Some (mkSmpOpts 4 0 0 0 0)) smp_defaults
                  (mkSmpVars 4 4 1 1) [] eq_refl)).
Defined.

Lemma smp_parse_small_topology_witness :
  exists ok v' err,
    smp_parse 255 (Some (mkSmpOpts 0 2 2 1 0)) smp_defaults
    = SmpReturn ok v' err /\
    smp_cpus v' = 4.
Proof.
  destruct (smp_parse_small_topology 255 (mkSmpOpts 0 2 2 1 0) smp_defaults)
    as (ok & v' & err & E & H & _); cbn; try lia.
  exists ok, v', err. split; [exact E | exact H].
Defined.

Lemma smp_parse_wrapped_product_gives_no_cpu_witness :
  exists v',
    smp_parse 255 (Some (mkSmpOpts 0 1 65536 65536 0)) smp_defaults
    = SmpReturn true v' [] /\
    smp_cpus v' = 0.
Proof.
  destruct (smp_parse_wrapped_product_gives_no_cpu 255
              (mkSmpOpts 0 1 65536 65536 0) smp_defaults)
    as (v' & E & H & _);
    [reflexivity | reflexivity | vm_compute; reflexivity | lia |].
  exists v'. split; assumption.
Defined.

Lemma ranchu_goes_on_with_one_cpu_witness :
  check_smp 255 (Some (mkSmpOpts 1 0 0 0 0)) smp_defaults "ranchu"
    Ranchu.ranchu_machine_max_cpus
  = MainGoesOn (mkSmpVars 1 1 1 1) 1 /\
  smp_cpus (mkSmpVars 1 1 1 1) = 1.
Proof.
  split; [reflexivity |].
  destruct (ranchu_goes_on_with_one_cpu 255 (mkSmpOpts 1 0 0 0 0) smp_defaults
              (mkSmpVars 1 1 1 1) "ranchu" 1) as (_ & H & _);
    cbn; try lia; reflexivity.
Defined.

Lemma serial_parse_stays_within_ports_witness :
  let r := foreach_device_config DEV_SERIAL
             (serial_parse 4 (fun _ _ => Some tt))
             [ mkDeviceConfig DEV_SERIAL "stdio";
               mkDeviceConfig DEV_SERIAL "none";
               mkDeviceConfig DEV_PARALLEL "none";
               mkDeviceConfig DEV_SERIAL "pty" ]
             serial_start in
  fst r = 0 /\ 0 <= index (snd r) <= 4.
Proof.
  intro r. split; [reflexivity |].
  exact (proj1 (serial_parse_stays_within_ports 4 unit (fun _ _ => Some tt)
                  [ mkDeviceConfig DEV_SERIAL "stdio";
                    mkDeviceConfig DEV_SERIAL "none";
                    mkDeviceConfig DEV_PARALLEL "none";
                    mkDeviceConfig DEV_SERIAL "pty" ] ltac:(lia))).
Defined.

Lemma lookup_opt_advances_within_argv_witness :
  let qemu_options := [mkOption "m" HAS_ARG 0 0; mkOption "snapshot" 0 1 0] in
  let argv := ["qemu"; "-m"; "512"]%string in
  lookup_opt qemu_options argv 1
  = Found (mkOption "m" HAS_ARG 0 0) (Some "512"%string) 3 /\
  0 <= 1 < 3 /\ 3 <= Z.of_nat (List.length argv).
Proof.
  intros qemu_options argv. split; [reflexivity |].
  destruct (lookup_opt_advances_within_argv qemu_options argv 1
              (mkOption "m" HAS_ARG 0 0) (Some "512"%string) 3 eq_refl)
    as (_ & H1 & H2 & _).
  split; assumption.
Defined.

Lemma lookup_opt_double_dash_witness :
  let qemu_options := [mkOption "m" HAS_ARG 0 0; mkOption "snapshot" 0 1 0] in
  lookup_opt qemu_options ["qemu"; "--snapshot"]%string 1
  = lookup_opt qemu_options ["qemu"; "-snapshot"]%string 1.
Proof.
  intro qemu_options.
  exact (lookup_opt_double_dash qemu_options ["qemu"%string] [] "s" "napshot"
           ltac:(discriminate)).
Defined.

End StartupInstances.

Section BoardInstances.

Import Ranchu Wiring.

Lemma console_takes_first_free_port_pair_witness :
  snd (initialize_console_and_adb (plain_env 1 5560) (board_start 0x8000 0))
  = Done tt (mkBoard (vbi (board_start 0x8000 0)) 0x8000 5560) /\
  console_ports_tried
    (fst (initialize_console_and_adb (plain_env 1 5560)
            (board_start 0x8000 0)))
  = [5554; 5556; 5558; 5560].
Proof.
  apply (console_takes_first_free_port_pair (plain_env 1 5560)
           (board_start 0x8000 0) 3).
  - unfold MAX_ANDROID_EMULATORS. lia.
  - intros j Hj.
    assert (E : j = 0 \/ j = 1 \/ j = 2) by lia.
    destruct E as [-> | [-> | ->]]; reflexivity.
  - reflexivity.
Defined.

Lemma console_gives_up_after_64_pairs_witness :
  snd (initialize_console_and_adb (plain_env 1 0) (board_start 0x8000 0))
  = Exit 1.
Proof.
  apply (console_gives_up_after_64_pairs (plain_env 1 0)
           (board_start 0x8000 0)).
  intros j Hj. unfold port_pair_free. apply andb_false_iff. left.
  change (console_chardev_ok (plain_env 1 0)
            (first_console_port (board_start 0x8000 0) + 2 * j))
    with (5554 + 2 * j =? 0).
  apply Z.eqb_neq. lia.
Defined.

Lemma unknown_cpu_model_stops_before_any_device_witness :
  let r := ranchu_init (with_unknown_cpu (plain_env 1 5554))
             (plain_machine (256 * 2 ^ 20)) (board_start 0x8000 0) in
  snd r = Exit 1 /\ cpu_objects (fst r) = [] /\ sysbus_devices (fst r) = [].
Proof.
  intro r.
  destruct (unknown_cpu_model_stops_before_any_device
              (with_unknown_cpu (plain_env 1 5554))
              (plain_machine (256 * 2 ^ 20)) (board_start 0x8000 0))
    as (H1 & _ & H2 & H3 & _);
    [vm_compute; discriminate | reflexivity | reflexivity | reflexivity
     | reflexivity |].
  split; [exact H1 |]. split; [exact H2 | exact H3].
Defined.

Lemma bus_devices_have_own_address_and_line_witness :
  let devices := sysbus_devices
                   (fst (ranchu_init (plain_env 2 5554)
                           (plain_machine (256 * 2 ^ 20))
                           (board_start 0x8000 0))) in
  NoDup (map (fun d => snd (fst d)) devices) /\ NoDup (map snd devices).
Proof.
  intro devices.
  destruct (bus_devices_have_own_address_and_line (plain_env 2 5554)
              (plain_machine (256 * 2 ^ 20)) "cortex-a57-arm-cpu"
              (board_start 0x8000 0))
    as (_ & H1 & H2 & _);
    [vm_compute; discriminate | reflexivity | reflexivity
     | intros _; reflexivity |].
  split; [exact H1 | exact H2].
Defined.

Lemma device_tree_describes_every_bus_device_witness :
  let t := fst (ranchu_init (plain_env 2 5554)
                  (plain_machine (256 * 2 ^ 20)) (board_start 0x8000 0)) in
  exists path flags,
    In path (subnodes t) /\
    In (path, 0x9000000) (fdt_regs t) /\
    In (path, [GIC_FDT_IRQ_TYPE_SPI; 1; flags]) (fdt_interrupts t).
Proof.
  intro t.
  apply (device_tree_describes_every_bus_device (plain_env 2 5554)
           (plain_machine (256 * 2 ^ 20)) "cortex-a57-arm-cpu"
           (board_start 0x8000 0)
           ltac:(vm_compute; discriminate) eq_refl (fun _ => eq_refl)
           "pl011"%string 0x9000000 1).
  vm_compute. left. reflexivity.
Defined.

Lemma phandle_references_resolve_witness :
  let t := fst (ranchu_init (plain_env 2 5554)
                  (plain_machine (256 * 2 ^ 20)) (board_start 0x8000 0)) in
  exists clock gic,
    clock <> gic /\
    fdt_cell "phandle" t
    = [("/apb-pclk"%string, clock); ("/intc"%string, gic)] /\
    fdt_cell "interrupt-parent" t = [("/"%string, gic)].
Proof.
  intro t.
  destruct (phandle_references_resolve (plain_env 2 5554)
              (plain_machine (256 * 2 ^ 20)) "cortex-a57-arm-cpu"
              (board_start 0x8000 0))
    as (clock & gic & H1 & H2 & H3 & _);
    [vm_compute; discriminate | reflexivity | reflexivity
     | intros _; reflexivity |].
  exists clock, gic. split; [exact H1 |]. split; [exact H2 | exact H3].
Defined.

Lemma timers_wired_above_device_lines_witness :
  let t := fst (ranchu_init (plain_env 2 5554)
                  (plain_machine (256 * 2 ^ 20)) (board_start 0x8000 0)) in
  timer_wires t = [(0, 0, 158); (0, 1, 155); (1, 0, 190); (1, 1, 187)] /\
  NoDup (map snd (timer_wires t)).
Proof.
  intro t.
  destruct (timers_wired_above_device_lines (plain_env 2 5554)
              (plain_machine (256 * 2 ^ 20)) "cortex-a57-arm-cpu"
              (board_start 0x8000 0))
    as (H1 & _ & H2 & _);
    [vm_compute; discriminate | reflexivity | reflexivity
     | intros _; reflexivity |].
  split; [exact H1 | exact H2].
Defined.

Lemma device_tree_nodes_are_distinct_witness :
  NoDup (subnodes (fst (ranchu_init (plain_env 2 5554)
                          (plain_machine (256 * 2 ^ 20))
                          (board_start 0x8000 0)))).
Proof.
  destruct (device_tree_nodes_are_distinct (plain_env 2 5554)
              (plain_machine (256 * 2 ^ 20)) "cortex-a57-arm-cpu"
              (board_start 0x8000 0))
    as (_ & H);
    [vm_compute; discriminate | reflexivity | reflexivity
     | intros _; reflexivity |].
  exact H.
Defined.

Lemma kvm_board_is_killed_reading_cpu0_witness :
  let r := ranchu_init (with_kvm (plain_env 1 5554))
             (plain_machine (256 * 2 ^ 20)) (board_start 0x8000 0) in
  snd r = Crash /\
  last (fst r) create_device_tree = qemu_fdt_add_subnode "/psci" /\
  cpu_objects (fst r) = [] /\ sysbus_devices (fst r) = [].
Proof.
  intro r.
  destruct (kvm_board_is_killed_reading_cpu0 (with_kvm (plain_env 1 5554))
              (plain_machine (256 * 2 ^ 20)) (board_start 0x8000 0))
    as (H1 & _ & H2 & H3 & H4 & _);
    [vm_compute; discriminate | reflexivity | reflexivity |].
  split; [exact H1 |]. split; [exact H2 |]. split; [exact H3 | exact H4].
Defined.

End BoardInstances.
